(** * Legal-Document-Analyzer: the keyword classifier, the report assembler,
      the analysis orchestrator and the in-memory store

    Shallow embedding of [simulateLegalAnalysis], [extractTextFromDocument]
    and [analyzeDocument] (document analyzer module) and of [MemStorage]
    (storage.ts), followed by the properties of the specification.

    Conventions.
    - A JavaScript string is a [string]: a sequence of 8-bit characters.  The
      embedding is exact on ASCII text; [toLowerCase] moves only the letters
      A..Z and the whitespace class of the regular expression is the ASCII
      one.
    - A JavaScript number used as an id or a counter is a [Z].
    - [new Date()] time stamps ([uploadedAt], [createdAt]) are left out of the
      records; nothing below reads them.
    - An [async] function is its sequential body: there is one thread and the
      only suspension points are the storage calls. *)

From Stdlib Require Import String Ascii List ZArith Bool Lia Sorted.
From Stdlib Require Finite.
Import ListNotations.

Open Scope string_scope.
Open Scope Z_scope.

Set Warnings "-register-all".

(* ================================================================== *)
(** ** Strings: [toLowerCase], [includes], the deed-of-sale pattern    *)
(* ================================================================== *)

Module Str.

Definition is_upper (c : ascii) : bool :=
  let n := nat_of_ascii c in (Nat.leb 65 n && Nat.leb n 90)%bool.

Definition lower_char (c : ascii) : ascii :=
  if is_upper c then ascii_of_nat (nat_of_ascii c + 32) else c.

(** [s.toLowerCase()] *)
Fixpoint toLowerCase (s : string) : string :=
  match s with
  | EmptyString => EmptyString
  | String c r => String (lower_char c) (toLowerCase r)
  end.

(** [s.includes(sub)]: [sub] occurs in [s] at some position. *)
Fixpoint includes (s sub : string) : bool :=
  if String.prefix sub s then true
  else match s with
       | EmptyString => false
       | String _ r => includes r sub
       end.

(** The class [\s] on ASCII: TAB, LF, VT, FF, CR and the space. *)
Definition is_space (c : ascii) : bool :=
  let n := nat_of_ascii c in
  (Nat.leb 9 n && Nat.leb n 13 || Nat.eqb n 32)%bool.

(** Comparison of one character under the [i] flag. *)
Definition eqb_ci (a b : ascii) : bool :=
  Ascii.eqb (lower_char a) (lower_char b).

(** Consume the literal [lit] (under the [i] flag) at the head of [s]. *)
Fixpoint eat_ci (lit s : string) : option string :=
  match lit with
  | EmptyString => Some s
  | String a lit' =>
      match s with
      | EmptyString => None
      | String b s' => if eqb_ci a b then eat_ci lit' s' else None
      end
  end.

Fixpoint skip_spaces (s : string) : string :=
  match s with
  | String c r => if is_space c then skip_spaces r else s
  | EmptyString => EmptyString
  end.

(** Consume [\s+].  The run of spaces is taken whole: what follows it in
    the pattern is a letter, so giving a space back never helps. *)
Definition eat_spaces1 (s : string) : option string :=
  match s with
  | String c r => if is_space c then Some (skip_spaces r) else None
  | EmptyString => None
  end.

(** The pattern [/deed\s+of\s+sale/i] anchored at the head of [s]. *)
Definition deed_of_sale_here (s : string) : bool :=
  match eat_ci "deed" s with
  | None => false
  | Some s1 =>
      match eat_spaces1 s1 with
      | None => false
      | Some s2 =>
          match eat_ci "of" s2 with
          | None => false
          | Some s3 =>
              match eat_spaces1 s3 with
              | None => false
              | Some s4 =>
                  match eat_ci "sale" s4 with
                  | None => false
                  | Some _ => true
                  end
              end
          end
      end
  end.

(** [s.match(/deed\s+of\s+sale/i)] used as a condition: some position
    matches. *)
Fixpoint match_deed_of_sale (s : string) : bool :=
  if deed_of_sale_here s then true
  else match s with
       | EmptyString => false
       | String _ r => match_deed_of_sale r
       end.

(** [a || b] on strings: the empty string is falsy. *)
Definition or_else (a b : string) : string :=
  match a with
  | EmptyString => b
  | _ => a
  end.

End Str.

(* ================================================================== *)
(** ** The classifier: [simulateLegalAnalysis]                          *)
(* ================================================================== *)

Module ComplianceDetails.

(** The object literal assigned to [analysisResults.complianceDetails].  The
    result is typed [any] in the source, so the object is open: a property is
    [None] while it has never been assigned.  The two literals of the source
    fill disjoint sets of properties (the valid and the invalid shape). *)
Record t := {
  validityPeriod : option string;
  registrationRequired : option bool;
  stampDutyPaid : option bool;
  properWitnessAttestation : option bool;
  notarizationStatus : option string;
  governmentDepartmentApproval : option string;
  standardsCompliance : option (list string);
  missingElements : option (list string);
  nonComplianceRisks : option (list string);
  reraCompliance : option string;
  boundaryVerification : option string;
  encumbranceStatus : option string
}.

End ComplianceDetails.

Module Results.

Record AnalysisDetails := {
  languageValidity : bool;
  (** the number literals of the source, in their decimal writing *)
  clauseCompletenessScore : string;
  legalTerminologyAccuracy : string
}.

(** The object returned by [simulateLegalAnalysis]; [complianceDetails]
    is absent until [analyzeDocument] sets it. *)
Record t := {
  isValid : bool;
  complianceStatus : string;
  issues : list string;
  warnings : list string;
  recommendations : list string;
  documentType : string;
  legalFrameworks : list string;
  analysisDetails : AnalysisDetails;
  complianceDetails : option ComplianceDetails.t
}.

End Results.

(** The array [documentTypes] of the source; it is declared and never read. *)
Definition documentTypes : list string :=
  ["Agreement"; "Deed"; "Invoice"; "Bond Paper"; "Property Document";
   "Sale Deed"; "Unknown"].

(** The text keywords of the three rules, and the rules themselves: the
    conditions of the three [if] statements, in the order of the source. *)
Definition bond_text (textLower : string) : bool :=
  (Str.includes textLower "bond" || Str.includes textLower "stamp paper")%bool.

Definition bond_rule (textLower docTypeLower : string) : bool :=
  (bond_text textLower || Str.includes docTypeLower "bond")%bool.

Definition sale_text (textLower : string) : bool :=
  (Str.includes textLower "sale deed" || Str.includes textLower "sale-deed" ||
   Str.includes textLower "sale agreement" ||
   Str.match_deed_of_sale textLower)%bool.

Definition sale_rule (textLower docTypeLower : string) : bool :=
  (sale_text textLower ||
   Str.includes docTypeLower "sale" || Str.includes docTypeLower "deed")%bool.

Definition property_text (textLower : string) : bool :=
  (Str.includes textLower "property" || Str.includes textLower "real estate" ||
   Str.includes textLower "land" || Str.includes textLower "apartment" ||
   Str.includes textLower "house" || Str.includes textLower "flat" ||
   Str.includes textLower "conveyance" || Str.includes textLower "title" ||
   Str.includes textLower "transfer")%bool.

Definition property_rule (textLower docTypeLower : string) : bool :=
  (property_text textLower || Str.includes docTypeLower "property")%bool.

(** [documentType || 'Unknown'] *)
Definition initialType (documentType : option string) : string :=
  match documentType with
  | None => "Unknown"
  | Some d => Str.or_else d "Unknown"
  end.

(** The value of [actualType] after the three [if] statements. *)
Definition resolveType (text : string) (documentType : option string) : string :=
  let actualType := initialType documentType in
  let textLower := Str.toLowerCase text in
  let docTypeLower := Str.toLowerCase actualType in
  let actualType :=
    if bond_rule textLower docTypeLower then "Bond Paper" else actualType in
  let actualType :=
    if sale_rule textLower docTypeLower then "Sale Deed" else actualType in
  let actualType :=
    if property_rule textLower docTypeLower then "Property Document"
    else actualType in
  actualType.

(** The branch of the content table taken for a label. *)
Inductive branch :=
| BAgreement | BDeed | BInvoice | BBondPaper | BSaleDeed | BPropertyDocument
| BElse.

Definition branchOf (actualType : string) : branch :=
  if String.eqb actualType "Agreement" then BAgreement
  else if String.eqb actualType "Deed" then BDeed
  else if String.eqb actualType "Invoice" then BInvoice
  else if String.eqb actualType "Bond Paper" then BBondPaper
  else if String.eqb actualType "Sale Deed" then BSaleDeed
  else if String.eqb actualType "Property Document" then BPropertyDocument
  else BElse.

(** [(issues, warnings, recommendations)] of each branch. *)
Definition contentOf (b : branch) : list string * list string * list string :=
  match b with
  | BAgreement =>
      ([],
       ["Recommended: Add explicit clause for maintenance responsibilities"],
       ["Specific clause regarding security deposit return timeline";
        "Clear definition of 'normal wear and tear'";
        "Updated reference to recent Supreme Court judgment on rental caps"])
  | BDeed =>
      ([],
       ["Consider adding more specific property demarcation details"],
       ["Include latest amendments to the Registration Act, 1908";
        "Add clause related to digital signature validity";
        "Reference the most recent stamp duty regulations"])
  | BInvoice =>
      ([],
       ["GST details should be more prominently displayed"],
       ["Include HSN/SAC codes for all items";
        "Add payment terms with reference to Late Payment Act";
        "Include cancellation and refund policy"])
  | BBondPaper =>
      ([],
       ["Verify stamp paper value matches transaction amount requirements"],
       ["Include notarization details with registration number";
        "Add proper witness attestation with ID details";
        "Verify with the Indian Stamp Act for the appropriate stamp duty value";
        "Include e-stamping certificate details if using e-stamped paper"])
  | BSaleDeed =>
      ([],
       ["Ensure property boundaries match those in land records"],
       ["Verify that stamp duty paid corresponds to current market value";
        "Include complete chain of title documents as annexures";
        "Ensure property tax receipts are attached and up to date";
        "Include all required witness signatures with their verified ID details";
        "Register with Sub-Registrar Office within the statutory time limit"])
  | BPropertyDocument =>
      ([],
       ["Property boundaries should be clearly defined with survey numbers"],
       ["Include verification of property title from local authorities";
        "Ensure all co-owners have signed with proper ID verification";
        "Reference latest RERA regulations if applicable";
        "Include clear encumbrance certificate details";
        "Verify property tax payment status and include documentation"])
  | BElse =>
      (["Document type cannot be determined"; "Missing standard legal clauses"],
       ["Document may not be legally valid";
        "Format does not match any standard template"],
       ["Use a standard legal template";
        "Consult with a legal professional";
        "Add proper identification and authentication elements"])
  end.

Definition baseFrameworks : list string :=
  ["Registration Act, 1908";
   "Indian Stamp Act";
   "Transfer of Property Act, 1882";
   "Indian Contract Act, 1872"].

Definition simulateLegalAnalysis (text : string) (documentType : option string)
  : Results.t :=
  let actualType := resolveType text documentType in
  let isValid := negb (String.eqb actualType "Unknown") in
  let complianceStatus := if isValid then "compliant" else "non-compliant" in
  let content := contentOf (branchOf actualType) in
  {| Results.isValid := isValid;
     Results.complianceStatus := complianceStatus;
     Results.issues := fst (fst content);
     Results.warnings := snd (fst content);
     Results.recommendations := snd content;
     Results.documentType := actualType;
     Results.legalFrameworks := baseFrameworks;
     Results.analysisDetails :=
       {| Results.languageValidity := true;
          Results.clauseCompletenessScore := if isValid then "0.85" else "0.45";
          Results.legalTerminologyAccuracy := if isValid then "0.9" else "0.6" |};
     Results.complianceDetails := None |}.

(* ================================================================== *)
(** ** JSON values and [JSON.stringify]                                 *)
(* ================================================================== *)

Module Json.

Inductive t :=
| JNull
| JBool (b : bool)
| JNum (literal : string)
| JStr (s : string)
| JArr (items : list t)
| JObj (fields : list (string * t)).

Definition quote : string := String (ascii_of_nat 34) EmptyString.
Definition backslash : string := String (ascii_of_nat 92) EmptyString.

Definition hex_digit (n : nat) : ascii :=
  ascii_of_nat (if Nat.ltb n 10 then 48 + n else 87 + n).

(** The escape of one character inside a JSON string literal. *)
Definition escape_char (c : ascii) : string :=
  let n := nat_of_ascii c in
  if Nat.eqb n 34 then backslash ++ quote
  else if Nat.eqb n 92 then backslash ++ backslash
  else if Nat.eqb n 8 then backslash ++ "b"
  else if Nat.eqb n 9 then backslash ++ "t"
  else if Nat.eqb n 10 then backslash ++ "n"
  else if Nat.eqb n 12 then backslash ++ "f"
  else if Nat.eqb n 13 then backslash ++ "r"
  else if Nat.ltb n 32 then
    backslash ++ "u00" ++
    String (hex_digit (Nat.div n 16)) (String (hex_digit (Nat.modulo n 16)) "")
  else String c "".

Fixpoint escape (s : string) : string :=
  match s with
  | EmptyString => EmptyString
  | String c r => escape_char c ++ escape r
  end.

Definition quoted (s : string) : string := quote ++ escape s ++ quote.

Fixpoint join (parts : list string) : string :=
  match parts with
  | [] => ""
  | [p] => p
  | p :: rest => p ++ "," ++ join rest
  end.

(** [JSON.stringify(v)] without indentation. *)
Fixpoint stringify (v : t) : string :=
  match v with
  | JNull => "null"
  | JBool b => if b then "true" else "false"
  | JNum literal => literal
  | JStr s => quoted s
  | JArr items => "[" ++ join (map stringify items) ++ "]"
  | JObj fields =>
      "{" ++ join (map (fun kv => match kv with
                                  | (k, x) => quoted k ++ ":" ++ stringify x
                                  end) fields) ++ "}"
  end.

Definition strings (l : list string) : t := JArr (map JStr l).

(** A property that is present only when its value is defined. *)
Definition field {A : Type} (k : string) (f : A -> t) (o : option A)
  : list (string * t) :=
  match o with
  | Some a => [(k, f a)]
  | None => []
  end.

End Json.

(* ================================================================== *)
(** ** The schema: documents and analyses                               *)
(* ================================================================== *)

Module Document.
Record t := {
  id : Z;
  userId : Z;
  fileName : string;
  fileType : string;
  fileSize : Z;
  documentType : option string;
  status : string;
  content : string
}.
End Document.

Module InsertDocument.
Record t := {
  userId : Z;
  fileName : string;
  fileType : string;
  fileSize : Z;
  documentType : option string
}.
End InsertDocument.

Module InsertAnalysis.
Record t := {
  documentId : Z;
  isValid : option bool;
  complianceStatus : string;
  issuesCount : Z;
  warnings : list string;
  recommendations : list string;
  analysisData : string
}.
End InsertAnalysis.

Module Analysis.
Record t := {
  id : Z;
  documentId : Z;
  isValid : option bool;
  complianceStatus : string;
  issuesCount : Z;
  warnings : list string;
  recommendations : list string;
  analysisData : string
}.
End Analysis.

(* ================================================================== *)
(** ** Effects: a state and exception monad                             *)
(* ================================================================== *)

(** What a call does: it returns a value or throws.  The store as the call
    left it is kept in both cases, as a JavaScript [throw] undoes nothing. *)
Inductive outcome (A : Type) :=
| Returns (a : A)
| Throws (e : string).

Arguments Returns {A} a.
Arguments Throws {A} e.

Definition M (S A : Type) : Type := S -> outcome A * S.

Definition ret {S A} (a : A) : M S A := fun s => (Returns a, s).

Definition throw {S A} (e : string) : M S A := fun s => (Throws e, s).

Definition bind {S A B} (m : M S A) (k : A -> M S B) : M S B :=
  fun s =>
    match m s with
    | (Returns a, s') => k a s'
    | (Throws e, s') => (Throws e, s')
    end.

(** [try { body } catch (error) { handler }] *)
Definition try_catch {S A} (body : M S A) (handler : string -> M S A) : M S A :=
  fun s =>
    match body s with
    | (Returns a, s') => (Returns a, s')
    | (Throws e, s') => handler e s'
    end.

(** A pure step that may throw, run inside the monad. *)
Definition lift {S A} (o : outcome A) : M S A := fun s => (o, s).

Declare Scope monad_scope.
Delimit Scope monad_scope with monad.
Notation "x <- m ;; k" := (bind m (fun x => k))
  (at level 61, m at next level, right associativity) : monad_scope.
Notation "m ;;; k" := (bind m (fun _ => k))
  (at level 61, right associativity) : monad_scope.

(* ================================================================== *)
(** ** The storage interface and the in-memory store                    *)
(* ================================================================== *)

(** The document and analysis methods of [IStorage]; a method of an
    arbitrary implementation may throw.  The user methods and the session
    store are not part of the analysis and are left out, and so is
    [getDocumentsByUserId], which sorts on the upload time. *)
Class IStorage (S : Type) := {
  createDocument : InsertDocument.t -> M S Document.t;
  getDocument : Z -> M S (option Document.t);
  updateDocumentStatus : Z -> string -> M S (option Document.t);
  updateDocumentContent : Z -> string -> M S (option Document.t);
  createAnalysis : InsertAnalysis.t -> M S Analysis.t;
  getAnalysis : Z -> M S (option Analysis.t);
  getAnalysisByDocumentId : Z -> M S (option Analysis.t)
}.

(** A JavaScript [Map] with number keys: the entries in insertion order. *)
Module JsMap.

Definition t (V : Type) : Type := list (Z * V).

Definition empty {V} : t V := [].

(** [m.get(k)] *)
Fixpoint get {V} (k : Z) (m : t V) : option V :=
  match m with
  | [] => None
  | (k', v) :: r => if k =? k' then Some v else get k r
  end.

(** [m.set(k, v)]: a present key keeps its place and takes the new value, an
    absent key is added at the end. *)
Fixpoint set {V} (k : Z) (v : V) (m : t V) : t V :=
  match m with
  | [] => [(k, v)]
  | (k', v') :: r => if k =? k' then (k', v) :: r else (k', v') :: set k v r
  end.

(** [Array.from(m.values())] *)
Definition values {V} (m : t V) : list V := map snd m.

Definition keys {V} (m : t V) : list Z := map fst m.

End JsMap.

Module MemStorage.

Record t := {
  documents : JsMap.t Document.t;
  analyses : JsMap.t Analysis.t;
  currentDocumentId : Z;
  currentAnalysisId : Z
}.

(** [constructor()] *)
Definition new : t :=
  {| documents := JsMap.empty; analyses := JsMap.empty;
     currentDocumentId := 1; currentAnalysisId := 1 |}.

Definition createDocument (insertDocument : InsertDocument.t) (s : t)
  : Document.t * t :=
  let id := currentDocumentId s in
  let document :=
    {| Document.id := id;
       Document.userId := InsertDocument.userId insertDocument;
       Document.fileName := InsertDocument.fileName insertDocument;
       Document.fileType := InsertDocument.fileType insertDocument;
       Document.fileSize := InsertDocument.fileSize insertDocument;
       Document.documentType := InsertDocument.documentType insertDocument;
       Document.status := "pending";
       Document.content := "" |} in
  (document,
   {| documents := JsMap.set id document (documents s);
      analyses := analyses s;
      currentDocumentId := id + 1;
      currentAnalysisId := currentAnalysisId s |}).

Definition getDocument (id : Z) (s : t) : option Document.t :=
  JsMap.get id (documents s).

Definition with_documents (d : JsMap.t Document.t) (s : t) : t :=
  {| documents := d; analyses := analyses s;
     currentDocumentId := currentDocumentId s;
     currentAnalysisId := currentAnalysisId s |}.

Definition updateDocumentStatus (id : Z) (status : string) (s : t)
  : option Document.t * t :=
  match getDocument id s with
  | Some document =>
      let updatedDocument :=
        {| Document.id := Document.id document;
           Document.userId := Document.userId document;
           Document.fileName := Document.fileName document;
           Document.fileType := Document.fileType document;
           Document.fileSize := Document.fileSize document;
           Document.documentType := Document.documentType document;
           Document.status := status;
           Document.content := Document.content document |} in
      (Some updatedDocument,
       with_documents (JsMap.set id updatedDocument (documents s)) s)
  | None => (None, s)
  end.

Definition updateDocumentContent (id : Z) (content : string) (s : t)
  : option Document.t * t :=
  match getDocument id s with
  | Some document =>
      let updatedDocument :=
        {| Document.id := Document.id document;
           Document.userId := Document.userId document;
           Document.fileName := Document.fileName document;
           Document.fileType := Document.fileType document;
           Document.fileSize := Document.fileSize document;
           Document.documentType := Document.documentType document;
           Document.status := Document.status document;
           Document.content := content |} in
      (Some updatedDocument,
       with_documents (JsMap.set id updatedDocument (documents s)) s)
  | None => (None, s)
  end.

(** [{ ...insertAnalysis, id }] *)
Definition stored (id : Z) (insertAnalysis : InsertAnalysis.t) : Analysis.t :=
  {| Analysis.id := id;
     Analysis.documentId := InsertAnalysis.documentId insertAnalysis;
     Analysis.isValid := InsertAnalysis.isValid insertAnalysis;
     Analysis.complianceStatus := InsertAnalysis.complianceStatus insertAnalysis;
     Analysis.issuesCount := InsertAnalysis.issuesCount insertAnalysis;
     Analysis.warnings := InsertAnalysis.warnings insertAnalysis;
     Analysis.recommendations := InsertAnalysis.recommendations insertAnalysis;
     Analysis.analysisData := InsertAnalysis.analysisData insertAnalysis |}.

Definition createAnalysis (insertAnalysis : InsertAnalysis.t) (s : t)
  : Analysis.t * t :=
  let id := currentAnalysisId s in
  let analysis := stored id insertAnalysis in
  (analysis,
   {| documents := documents s;
      analyses := JsMap.set id analysis (analyses s);
      currentDocumentId := currentDocumentId s;
      currentAnalysisId := id + 1 |}).

Definition getAnalysis (id : Z) (s : t) : option Analysis.t :=
  JsMap.get id (analyses s).

Definition getAnalysisByDocumentId (documentId : Z) (s : t)
  : option Analysis.t :=
  List.find (fun analysis => Analysis.documentId analysis =? documentId)
    (JsMap.values (analyses s)).

End MemStorage.

(** No method of [MemStorage] throws. *)
Definition pure_call {S A} (f : S -> A * S) : M S A :=
  fun s => let '(a, s') := f s in (Returns a, s').

Definition pure_read {S A} (f : S -> A) : M S A :=
  fun s => (Returns (f s), s).

#[export] Instance MemStorage_IStorage : IStorage MemStorage.t := {|
  createDocument := fun i => pure_call (MemStorage.createDocument i);
  getDocument := fun id => pure_read (MemStorage.getDocument id);
  updateDocumentStatus :=
    fun id st => pure_call (MemStorage.updateDocumentStatus id st);
  updateDocumentContent :=
    fun id c => pure_call (MemStorage.updateDocumentContent id c);
  createAnalysis := fun i => pure_call (MemStorage.createAnalysis i);
  getAnalysis := fun id => pure_read (MemStorage.getAnalysis id);
  getAnalysisByDocumentId :=
    fun id => pure_read (MemStorage.getAnalysisByDocumentId id)
|}.

(** A store that behaves as [MemStorage] except that a call throws when its
    fault schedule says so: each call of the interface consumes one flag of
    the schedule, [true] makes it throw before it touches the store, and a
    call past the end of the schedule goes through.  It stands for a
    persistence layer that can fail. *)
Module Flaky.

Record t := {
  store : MemStorage.t;
  faults : list bool
}.

Definition failure : string := "storage failure".

Definition call {A} (f : MemStorage.t -> A * MemStorage.t) : M t A :=
  fun s =>
    match faults s with
    | true :: rest => (Throws failure, {| store := store s; faults := rest |})
    | false :: rest =>
        let '(a, m) := f (store s) in
        (Returns a, {| store := m; faults := rest |})
    | [] =>
        let '(a, m) := f (store s) in
        (Returns a, {| store := m; faults := [] |})
    end.

Definition read {A} (f : MemStorage.t -> A) : M t A :=
  call (fun m => (f m, m)).

End Flaky.

#[export] Instance Flaky_IStorage : IStorage Flaky.t := {|
  createDocument := fun i => Flaky.call (MemStorage.createDocument i);
  getDocument := fun id => Flaky.read (MemStorage.getDocument id);
  updateDocumentStatus :=
    fun id st => Flaky.call (MemStorage.updateDocumentStatus id st);
  updateDocumentContent :=
    fun id c => Flaky.call (MemStorage.updateDocumentContent id c);
  createAnalysis := fun i => Flaky.call (MemStorage.createAnalysis i);
  getAnalysis := fun id => Flaky.read (MemStorage.getAnalysis id);
  getAnalysisByDocumentId :=
    fun id => Flaky.read (MemStorage.getAnalysisByDocumentId id)
|}.

(* ================================================================== *)
(** ** The orchestrator: [analyzeDocument]                              *)
(* ================================================================== *)

Definition newline : string := String (ascii_of_nat 10) EmptyString.

(** The template literal of [extractTextFromDocument]; [${null}] prints
    [null], and [documentType?.toLowerCase() || 'document'] falls back on an
    absent or empty type. *)
Definition extractTextFromDocument (document : Document.t) : string :=
  "Sample text for document " ++ Document.fileName document ++
  " of type " ++
  match Document.documentType document with
  | Some d => d
  | None => "null"
  end ++ ". " ++ newline ++
  "This document appears to be a legal " ++
  match Document.documentType document with
  | Some d => Str.or_else (Str.toLowerCase d) "document"
  | None => "document"
  end ++ " " ++ newline ++
  "under Indian law with some standard clauses and provisions.".

Definition validDetails : ComplianceDetails.t :=
  {| ComplianceDetails.validityPeriod := Some "5 years from date of execution";
     ComplianceDetails.registrationRequired := Some true;
     ComplianceDetails.stampDutyPaid := Some true;
     ComplianceDetails.properWitnessAttestation := Some true;
     ComplianceDetails.notarizationStatus := Some "Complete";
     ComplianceDetails.governmentDepartmentApproval := Some "Verified";
     ComplianceDetails.standardsCompliance :=
       Some ["Ministry of Law and Justice - Document Standards 2021";
             "Digital India Initiative - E-Document Guidelines";
             "Indian Registration Act Requirements"];
     ComplianceDetails.missingElements := None;
     ComplianceDetails.nonComplianceRisks := None;
     ComplianceDetails.reraCompliance := None;
     ComplianceDetails.boundaryVerification := None;
     ComplianceDetails.encumbranceStatus := None |}.

Definition invalidDetails : ComplianceDetails.t :=
  {| ComplianceDetails.validityPeriod := None;
     ComplianceDetails.registrationRequired := None;
     ComplianceDetails.stampDutyPaid := None;
     ComplianceDetails.properWitnessAttestation := None;
     ComplianceDetails.notarizationStatus := None;
     ComplianceDetails.governmentDepartmentApproval := None;
     ComplianceDetails.standardsCompliance := None;
     ComplianceDetails.missingElements :=
       Some ["Proper digital signatures";
             "Mandatory disclosure clauses";
             "Required government stamps";
             "Authentication watermarks"];
     ComplianceDetails.nonComplianceRisks :=
       Some ["Document may not be legally enforceable";
             "Could be rejected by government authorities";
             "May face challenges in court proceedings";
             "Potential penalties for non-compliance"];
     ComplianceDetails.reraCompliance := None;
     ComplianceDetails.boundaryVerification := None;
     ComplianceDetails.encumbranceStatus := None |}.

Definition set_complianceDetails (c : option ComplianceDetails.t)
  (r : Results.t) : Results.t :=
  {| Results.isValid := Results.isValid r;
     Results.complianceStatus := Results.complianceStatus r;
     Results.issues := Results.issues r;
     Results.warnings := Results.warnings r;
     Results.recommendations := Results.recommendations r;
     Results.documentType := Results.documentType r;
     Results.legalFrameworks := Results.legalFrameworks r;
     Results.analysisDetails := Results.analysisDetails r;
     Results.complianceDetails := c |}.

Definition set_legalFrameworks (l : list string) (r : Results.t) : Results.t :=
  {| Results.isValid := Results.isValid r;
     Results.complianceStatus := Results.complianceStatus r;
     Results.issues := Results.issues r;
     Results.warnings := Results.warnings r;
     Results.recommendations := Results.recommendations r;
     Results.documentType := Results.documentType r;
     Results.legalFrameworks := l;
     Results.analysisDetails := Results.analysisDetails r;
     Results.complianceDetails := Results.complianceDetails r |}.

(** [if (analysisResults.isValid) { complianceDetails = {...} } else {...}] *)
Definition attachComplianceDetails (r : Results.t) : Results.t :=
  if Results.isValid r
  then set_complianceDetails (Some validDetails) r
  else set_complianceDetails (Some invalidDetails) r.

Definition typeError : string := "TypeError".

(** The three assignments of the valid branch of the property treatment. *)
Definition set_property_fields (c : ComplianceDetails.t) : ComplianceDetails.t :=
  {| ComplianceDetails.validityPeriod := ComplianceDetails.validityPeriod c;
     ComplianceDetails.registrationRequired :=
       ComplianceDetails.registrationRequired c;
     ComplianceDetails.stampDutyPaid := ComplianceDetails.stampDutyPaid c;
     ComplianceDetails.properWitnessAttestation :=
       ComplianceDetails.properWitnessAttestation c;
     ComplianceDetails.notarizationStatus :=
       ComplianceDetails.notarizationStatus c;
     ComplianceDetails.governmentDepartmentApproval :=
       ComplianceDetails.governmentDepartmentApproval c;
     ComplianceDetails.standardsCompliance :=
       ComplianceDetails.standardsCompliance c;
     ComplianceDetails.missingElements := ComplianceDetails.missingElements c;
     ComplianceDetails.nonComplianceRisks :=
       ComplianceDetails.nonComplianceRisks c;
     ComplianceDetails.reraCompliance := Some "Verified";
     ComplianceDetails.boundaryVerification := Some "Completed";
     ComplianceDetails.encumbranceStatus := Some "Clear" |}.

(** The two [push] calls of the other branch; [push] on a property that was
    never assigned is a [TypeError]. *)
Definition push_property_gaps (c : ComplianceDetails.t)
  : outcome ComplianceDetails.t :=
  match ComplianceDetails.missingElements c with
  | None => Throws typeError
  | Some missing =>
      match ComplianceDetails.nonComplianceRisks c with
      | None => Throws typeError
      | Some risks =>
          Returns
            {| ComplianceDetails.validityPeriod :=
                 ComplianceDetails.validityPeriod c;
               ComplianceDetails.registrationRequired :=
                 ComplianceDetails.registrationRequired c;
               ComplianceDetails.stampDutyPaid :=
                 ComplianceDetails.stampDutyPaid c;
               ComplianceDetails.properWitnessAttestation :=
                 ComplianceDetails.properWitnessAttestation c;
               ComplianceDetails.notarizationStatus :=
                 ComplianceDetails.notarizationStatus c;
               ComplianceDetails.governmentDepartmentApproval :=
                 ComplianceDetails.governmentDepartmentApproval c;
               ComplianceDetails.standardsCompliance :=
                 ComplianceDetails.standardsCompliance c;
               ComplianceDetails.missingElements :=
                 Some (missing ++ ["RERA registration details"])%list;
               ComplianceDetails.nonComplianceRisks :=
                 Some (risks ++ ["Potential boundary disputes"])%list;
               ComplianceDetails.reraCompliance :=
                 ComplianceDetails.reraCompliance c;
               ComplianceDetails.boundaryVerification :=
                 ComplianceDetails.boundaryVerification c;
               ComplianceDetails.encumbranceStatus :=
                 ComplianceDetails.encumbranceStatus c |}
      end
  end.

(** Which branch of the property treatment ran. *)
Inductive property_branch :=
| NotProperty
| PropertyValid
| PropertyInvalid.

Definition propertyBranch (r : Results.t) : property_branch :=
  if String.eqb (Results.documentType r) "Property Document"
  then if Results.isValid r then PropertyValid else PropertyInvalid
  else NotProperty.

Definition addPropertyFrameworks (r : Results.t) : Results.t :=
  set_legalFrameworks
    (Results.legalFrameworks r ++
       ["Real Estate (Regulation and Development) Act, 2016"] ++
       ["Indian Registration Act, 1908 (property specific sections)"])%list
    r.

(** [if (analysisResults.documentType === 'Property Document') {...}]; an
    access through a [complianceDetails] that was never assigned is a
    [TypeError]. *)
Definition propertyTreatment (r : Results.t) : outcome Results.t :=
  match propertyBranch r with
  | NotProperty => Returns r
  | PropertyValid =>
      let r := addPropertyFrameworks r in
      match Results.complianceDetails r with
      | None => Throws typeError
      | Some c => Returns (set_complianceDetails (Some (set_property_fields c)) r)
      end
  | PropertyInvalid =>
      let r := addPropertyFrameworks r in
      match Results.complianceDetails r with
      | None => Throws typeError
      | Some c =>
          match push_property_gaps c with
          | Returns c' => Returns (set_complianceDetails (Some c') r)
          | Throws e => Throws e
          end
      end
  end.

(** The pure part of the [try] block, up to the enriched result. *)
Definition analysisResultsOf (document : Document.t) : outcome Results.t :=
  let documentContent := extractTextFromDocument document in
  let analysisResults :=
    simulateLegalAnalysis documentContent (Document.documentType document) in
  propertyTreatment (attachComplianceDetails analysisResults).

Definition detailsToJson (c : ComplianceDetails.t) : Json.t :=
  Json.JObj
    (Json.field "validityPeriod" Json.JStr (ComplianceDetails.validityPeriod c) ++
     Json.field "registrationRequired" Json.JBool
       (ComplianceDetails.registrationRequired c) ++
     Json.field "stampDutyPaid" Json.JBool (ComplianceDetails.stampDutyPaid c) ++
     Json.field "properWitnessAttestation" Json.JBool
       (ComplianceDetails.properWitnessAttestation c) ++
     Json.field "notarizationStatus" Json.JStr
       (ComplianceDetails.notarizationStatus c) ++
     Json.field "governmentDepartmentApproval" Json.JStr
       (ComplianceDetails.governmentDepartmentApproval c) ++
     Json.field "standardsCompliance" Json.strings
       (ComplianceDetails.standardsCompliance c) ++
     Json.field "missingElements" Json.strings
       (ComplianceDetails.missingElements c) ++
     Json.field "nonComplianceRisks" Json.strings
       (ComplianceDetails.nonComplianceRisks c) ++
     Json.field "reraCompliance" Json.JStr (ComplianceDetails.reraCompliance c) ++
     Json.field "boundaryVerification" Json.JStr
       (ComplianceDetails.boundaryVerification c) ++
     Json.field "encumbranceStatus" Json.JStr
       (ComplianceDetails.encumbranceStatus c))%list.

(** The enriched result as the value given to [JSON.stringify]; the
    properties come in the order of their first assignment. *)
Definition resultsToJson (r : Results.t) : Json.t :=
  Json.JObj
    ([("isValid", Json.JBool (Results.isValid r));
      ("complianceStatus", Json.JStr (Results.complianceStatus r));
      ("issues", Json.strings (Results.issues r));
      ("warnings", Json.strings (Results.warnings r));
      ("recommendations", Json.strings (Results.recommendations r));
      ("documentType", Json.JStr (Results.documentType r));
      ("legalFrameworks", Json.strings (Results.legalFrameworks r));
      ("analysisDetails",
        Json.JObj
          [("languageValidity",
             Json.JBool (Results.languageValidity (Results.analysisDetails r)));
           ("clauseCompletenessScore",
             Json.JNum
               (Results.clauseCompletenessScore (Results.analysisDetails r)));
           ("legalTerminologyAccuracy",
             Json.JNum
               (Results.legalTerminologyAccuracy (Results.analysisDetails r)))])]
     ++ Json.field "complianceDetails" detailsToJson
          (Results.complianceDetails r))%list.

Definition initialAnalysis (document : Document.t) : InsertAnalysis.t :=
  {| InsertAnalysis.documentId := Document.id document;
     InsertAnalysis.isValid := None;
     InsertAnalysis.complianceStatus := "processing";
     InsertAnalysis.issuesCount := 0;
     InsertAnalysis.warnings := [];
     InsertAnalysis.recommendations := [];
     InsertAnalysis.analysisData := Json.stringify (Json.JObj []) |}.

Definition updatedAnalysis (document : Document.t) (analysisResults : Results.t)
  : InsertAnalysis.t :=
  {| InsertAnalysis.documentId := Document.id document;
     InsertAnalysis.isValid := Some (Results.isValid analysisResults);
     InsertAnalysis.complianceStatus := Results.complianceStatus analysisResults;
     InsertAnalysis.issuesCount :=
       Z.of_nat (List.length (Results.issues analysisResults));
     InsertAnalysis.warnings := Results.warnings analysisResults;
     InsertAnalysis.recommendations := Results.recommendations analysisResults;
     InsertAnalysis.analysisData :=
       Json.stringify (resultsToJson analysisResults) |}.

Definition errorAnalysis (document : Document.t) : InsertAnalysis.t :=
  {| InsertAnalysis.documentId := Document.id document;
     InsertAnalysis.isValid := Some false;
     InsertAnalysis.complianceStatus := "error";
     InsertAnalysis.issuesCount := 1;
     InsertAnalysis.warnings := ["Analysis failed due to an error"];
     InsertAnalysis.recommendations := ["Please try again or contact support"];
     InsertAnalysis.analysisData :=
       Json.stringify (Json.JObj [("error", Json.JStr "Analysis failed")]) |}.

Section Orchestrator.

Context {S : Type} `{IStorage S}.

Local Open Scope monad_scope.

(** [analyzeDocument]; the [console.error] of the handler writes to the log
    only and is not modelled. *)
Definition analyzeDocument (document : Document.t) : M S Analysis.t :=
  analysis <- createAnalysis (initialAnalysis document) ;;
  try_catch
    (analysisResults <- lift (analysisResultsOf document) ;;
     updateDocumentStatus (Document.id document)
       (if Results.isValid analysisResults then "valid" else "invalid") ;;;
     createAnalysis (updatedAnalysis document analysisResults))
    (fun error =>
       updateDocumentStatus (Document.id document) "error" ;;;
       createAnalysis (errorAnalysis document)).

End Orchestrator.

(* ================================================================== *)
(** ** Histories of the in-memory store                                 *)
(* ================================================================== *)

(** The calls that change the store. *)
Inductive op :=
| CreateDocument (insertDocument : InsertDocument.t)
| UpdateDocumentStatus (id : Z) (status : string)
| UpdateDocumentContent (id : Z) (content : string)
| CreateAnalysis (insertAnalysis : InsertAnalysis.t)
| AnalyzeDocument (document : Document.t).

Definition exec (o : op) (s : MemStorage.t) : MemStorage.t :=
  match o with
  | CreateDocument i => snd (MemStorage.createDocument i s)
  | UpdateDocumentStatus id st => snd (MemStorage.updateDocumentStatus id st s)
  | UpdateDocumentContent id c => snd (MemStorage.updateDocumentContent id c s)
  | CreateAnalysis i => snd (MemStorage.createAnalysis i s)
  | AnalyzeDocument d => snd (analyzeDocument d s)
  end.

Definition run (ops : list op) (s : MemStorage.t) : MemStorage.t :=
  fold_left (fun s o => exec o s) ops s.

(** The states the store of a running server can be in. *)
Definition reachable (s : MemStorage.t) : Prop :=
  exists ops, s = run ops MemStorage.new.

(** The calls the application makes: the upload route creates a document,
    stores its content and hands it to [analyzeDocument]; nothing else calls
    [createAnalysis]. *)
Definition app_op (o : op) : bool :=
  match o with
  | CreateAnalysis _ => false
  | _ => true
  end.

Definition app_reachable (s : MemStorage.t) : Prop :=
  exists ops, forallb app_op ops = true /\ s = run ops MemStorage.new.

(** The record written first by every run of [analyzeDocument]. *)
Definition is_placeholder (a : Analysis.t) : Prop :=
  Analysis.isValid a = None /\
  Analysis.complianceStatus a = "processing" /\
  Analysis.issuesCount a = 0 /\
  Analysis.warnings a = [] /\
  Analysis.recommendations a = [] /\
  Analysis.analysisData a = "{}".

(** The record written by the failure handler. *)
Definition is_error_report (a : Analysis.t) : Prop :=
  Analysis.isValid a = Some false /\
  Analysis.complianceStatus a = "error" /\
  Analysis.issuesCount a = 1.

(** The invariant of the analyses map: every record sits under its own id,
    the ids grow along the map and stay below the counter. *)
Definition entry_ok (n : Z) (kv : Z * Analysis.t) : Prop :=
  fst kv < n /\ Analysis.id (snd kv) = fst kv.

Definition key_lt (x y : Z * Analysis.t) : Prop := fst x < fst y.

Definition wf (s : MemStorage.t) : Prop :=
  Forall (entry_ok (MemStorage.currentAnalysisId s)) (MemStorage.analyses s) /\
  StronglySorted key_lt (MemStorage.analyses s).

(** For every document id, the first record found is a placeholder. *)
Definition placeholder_first (s : MemStorage.t) : Prop :=
  forall documentId a,
    MemStorage.getAnalysisByDocumentId documentId s = Some a -> is_placeholder a.

(** The store after the three storage calls of a run that does not fail. *)
Definition afterAnalysis (document : Document.t) (analysisResults : Results.t)
  (s : MemStorage.t) : MemStorage.t :=
  let s1 := snd (MemStorage.createAnalysis (initialAnalysis document) s) in
  let s2 :=
    snd (MemStorage.updateDocumentStatus (Document.id document)
           (if Results.isValid analysisResults then "valid" else "invalid") s1) in
  snd (MemStorage.createAnalysis (updatedAnalysis document analysisResults) s2).

(** The two frameworks pushed by the property treatment. *)
Definition propertyFrameworks : list string :=
  ["Real Estate (Regulation and Development) Act, 2016";
   "Indian Registration Act, 1908 (property specific sections)"].

(* ================================================================== *)
(** ** Sample inputs                                                    *)
(* ================================================================== *)

Definition upload (fileName : string) (documentType : option string)
  : InsertDocument.t :=
  {| InsertDocument.userId := 1;
     InsertDocument.fileName := fileName;
     InsertDocument.fileType := "application/pdf";
     InsertDocument.fileSize := 1024;
     InsertDocument.documentType := documentType |}.

(** The document the store hands back for the first upload. *)
Definition leaseDocument : Document.t :=
  fst (MemStorage.createDocument (upload "lease.pdf" None) MemStorage.new).

Definition houseDeedDocument : Document.t :=
  fst (MemStorage.createDocument (upload "house deed.pdf" (Some "Deed"))
         MemStorage.new).

(** The store after the first upload has been recorded. *)
Definition oneDocumentStore : MemStorage.t :=
  run [CreateDocument (upload "lease.pdf" None)] MemStorage.new.

Definition label (text : string) (documentType : option string) : string :=
  Results.documentType (simulateLegalAnalysis text documentType).

(* ================================================================== *)
(** ** The users of the in-memory store                                 *)
(* ================================================================== *)

Module User.
Record t := {
  id : Z;
  username : string;
  password : string;
  name : option string;
  email : option string
}.
End User.

Module InsertUser.
Record t := {
  username : string;
  password : string;
  name : option string;
  email : option string
}.
End InsertUser.

(** The [users] map of [MemStorage] and its counter.  The user methods read
    and write these two fields only, so they are kept in a record of their
    own beside the documents and the analyses. *)
Module UserStore.

Record t := {
  users : JsMap.t User.t;
  currentUserId : Z
}.

Definition new : t := {| users := JsMap.empty; currentUserId := 1 |}.

Definition getUser (id : Z) (s : t) : option User.t :=
  JsMap.get id (users s).

Definition getUserByUsername (username : string) (s : t) : option User.t :=
  List.find (fun user => String.eqb (User.username user) username)
    (JsMap.values (users s)).

Definition createUser (insertUser : InsertUser.t) (s : t) : User.t * t :=
  let id := currentUserId s in
  let user :=
    {| User.id := id;
       User.username := InsertUser.username insertUser;
       User.password := InsertUser.password insertUser;
       User.name := InsertUser.name insertUser;
       User.email := InsertUser.email insertUser |} in
  (user, {| users := JsMap.set id user (users s); currentUserId := id + 1 |}).

(** The store after a sequence of registrations. *)
Definition register (inserts : list InsertUser.t) (s : t) : t :=
  fold_left (fun s i => snd (createUser i s)) inserts s.

End UserStore.

(* ================================================================== *)
(** ** The routes                                                       *)
(* ================================================================== *)

Definition allowedFileTypes : list string :=
  ["application/pdf";
   "application/vnd.openxmlformats-officedocument.wordprocessingml.document";
   "image/jpeg";
   "image/png"].

(** The [fileFilter] of the upload: it accepts the file or fails with an
    error. *)
Definition fileFilter (mimetype : string) : outcome bool :=
  if existsb (String.eqb mimetype) allowedFileTypes then Returns true
  else Throws
         "Invalid file type. Only PDF, DOCX, JPG, and PNG files are allowed.".

(** The document type the upload route reads off the file name. *)
Definition inferDocumentType (originalname : string) : string :=
  let lower := Str.toLowerCase originalname in
  if (Str.includes lower "agreement" || Str.includes lower "contract")%bool
  then "Agreement"
  else if Str.includes lower "deed" then "Deed"
  else if Str.includes lower "invoice" then "Invoice"
  else "Unknown".

(** [buffer.toString('base64')]: the standard alphabet, with padding. *)
Module Base64.

Definition alphabet : string :=
  "ABCDEFGHIJKLMNOPQRSTUVWXYZabcdefghijklmnopqrstuvwxyz0123456789+/".

Definition char (n : N) : ascii :=
  match String.get (N.to_nat n) alphabet with
  | Some c => c
  | None => "="%char
  end.

Fixpoint encode (bytes : string) : string :=
  match bytes with
  | EmptyString => EmptyString
  | String a EmptyString =>
      let n := (N_of_ascii a * 16)%N in
      String (char (n / 64)%N)
        (String (char (n mod 64)%N) "==")
  | String a (String b EmptyString) =>
      let n := (N_of_ascii a * 1024 + N_of_ascii b * 4)%N in
      String (char (n / 4096)%N)
        (String (char ((n / 64) mod 64)%N)
           (String (char (n mod 64)%N) "="))
  | String a (String b (String c rest)) =>
      let n := (N_of_ascii a * 65536 + N_of_ascii b * 256 + N_of_ascii c)%N in
      String (char (n / 262144)%N)
        (String (char ((n / 4096) mod 64)%N)
           (String (char ((n / 64) mod 64)%N)
              (String (char (n mod 64)%N) (encode rest))))
  end.

End Base64.

(** [parseInt(s)] with no radix, on ASCII text and for values below 2^53:
    leading white space, a sign, the prefix [0x] for base sixteen, then the
    longest run of digits; [None] is [NaN].  The handlers below take
    [parseInt] as a parameter; this function is what it is on such text. *)
Module ParseInt.

Definition digit_value (radix : Z) (c : ascii) : option Z :=
  let n := Z.of_nat (nat_of_ascii c) in
  let v :=
    if ((48 <=? n) && (n <=? 57))%bool then Some (n - 48)
    else if ((97 <=? n) && (n <=? 122))%bool then Some (n - 87)
    else if ((65 <=? n) && (n <=? 90))%bool then Some (n - 55)
    else None in
  match v with
  | Some d => if d <? radix then Some d else None
  | None => None
  end.

Fixpoint digits (radix acc : Z) (s : string) : Z :=
  match s with
  | EmptyString => acc
  | String c r =>
      match digit_value radix c with
      | Some d => digits radix (acc * radix + d) r
      | None => acc
      end
  end.

Definition strip_sign (s : string) : Z * string :=
  match s with
  | String c r =>
      if Ascii.eqb c "-" then (-1, r)
      else if Ascii.eqb c "+" then (1, r)
      else (1, s)
  | EmptyString => (1, s)
  end.

Definition strip_radix (s : string) : Z * string :=
  match s with
  | String z (String x r) =>
      if (Ascii.eqb z "0" && (Ascii.eqb x "x" || Ascii.eqb x "X"))%bool
      then (16, r) else (10, s)
  | _ => (10, s)
  end.

Definition parseInt (s : string) : option Z :=
  let signed := strip_sign (Str.skip_spaces s) in
  let based := strip_radix (snd signed) in
  match snd based with
  | EmptyString => None
  | String c _ =>
      match digit_value (fst based) c with
      | Some _ => Some (fst signed * digits (fst based) 0 (snd based))
      | None => None
      end
  end.

End ParseInt.

Module UploadedFile.
Record t := {
  originalname : string;
  mimetype : string;
  buffer : string;
  size : Z
}.
End UploadedFile.

(** What the handlers read of a request: the session ([isAuthenticated()]
    and [user]), the uploaded file and the [id] of the path. *)
Module Request.
Record t := {
  isAuthenticated : bool;
  user : option User.t;
  file : option UploadedFile.t;
  params_id : string
}.
End Request.

(** The body given to [res.json]. *)
Inductive body :=
| Message (message : string)
| Uploaded (document : Document.t) (analysis : Analysis.t)
| Fetched (document : Document.t) (analysis : option Analysis.t).

Module Response.
Record t := {
  status : Z;
  json : body
}.
End Response.

Definition respond (status : Z) (json : body) : Response.t :=
  {| Response.status := status; Response.json := json |}.

(** [req.user!.id]: reading [id] of an absent user is a [TypeError]. *)
Definition userOf (req : Request.t) : outcome User.t :=
  match Request.user req with
  | Some user => Returns user
  | None => Throws typeError
  end.

Definition documentDataOf (file : UploadedFile.t) (userId : Z)
  : InsertDocument.t :=
  {| InsertDocument.userId := userId;
     InsertDocument.fileName := UploadedFile.originalname file;
     InsertDocument.fileType := UploadedFile.mimetype file;
     InsertDocument.fileSize := UploadedFile.size file;
     InsertDocument.documentType :=
       Some (inferDocumentType (UploadedFile.originalname file)) |}.

Section Routes.

Context {S : Type} `{IStorage S}.

(** [insertDocumentSchema.parse]: the validated data, or the message of the
    validation error. *)
Variable parse : InsertDocument.t -> InsertDocument.t + string.

(** [error.message] for a value that was thrown: the message of an error
    (empty when the value has none), or the [TypeError] of reading a property
    of [null] or [undefined] when that is what was thrown. *)
Variable messageOf : string -> outcome string.

Local Open Scope monad_scope.

(** The handler of [POST /api/documents/upload], after the upload
    middleware has set [req.file].  The [catch] block reads [error.message],
    which can throw in its turn. *)
Definition uploadHandler (req : Request.t) : M S Response.t :=
  if negb (Request.isAuthenticated req) then
    ret (respond 401 (Message "Unauthorized"))
  else
    match Request.file req with
    | None => ret (respond 400 (Message "No file uploaded"))
    | Some file =>
        try_catch
          (user <- lift (userOf req) ;;
           match parse (documentDataOf file (User.id user)) with
           | inr message => ret (respond 400 (Message message))
           | inl validatedData =>
               document <- createDocument validatedData ;;
               let content := Base64.encode (UploadedFile.buffer file) in
               updateDocumentContent (Document.id document) content ;;;
               analysis <- analyzeDocument document ;;
               ret (respond 201 (Uploaded document analysis))
           end)
          (fun error =>
             message <- lift (messageOf error) ;;
             ret (respond 500
                    (Message (Str.or_else message "Error uploading document"))))
    end.

End Routes.

(** The handler of [GET /api/documents/:id] on the in-memory store; it reads
    the store and leaves it as it is.  [parseInt] is a parameter: [Some id]
    for the integer it returns, [None] for [NaN] and the infinities, which
    are keys of no map, so that [getDocument] finds nothing for them. *)
Definition getDocumentHandler (parseInt : string -> option Z)
  (req : Request.t) (s : MemStorage.t) : Response.t :=
  if negb (Request.isAuthenticated req) then
    respond 401 (Message "Unauthorized")
  else
    match
      match parseInt (Request.params_id req) with
      | Some id => MemStorage.getDocument id s
      | None => None
      end
    with
    | None => respond 404 (Message "Document not found")
    | Some document =>
        match userOf req with
        | Throws error =>
            respond 500 (Message (Str.or_else error "Error fetching document"))
        | Returns user =>
            if negb (Document.userId document =? User.id user) then
              respond 403 (Message "Access denied")
            else
              respond 200
                (Fetched document
                   (MemStorage.getAnalysisByDocumentId (Document.id document) s))
        end
    end.

(** The three store calls of an upload that goes through. *)
Definition uploadOps (data : InsertDocument.t) (file : UploadedFile.t)
  (s : MemStorage.t) : list op :=
  let document := fst (MemStorage.createDocument data s) in
  [CreateDocument data;
   UpdateDocumentContent (Document.id document)
     (Base64.encode (UploadedFile.buffer file));
   AnalyzeDocument document].

(** Ids handed out one by one: the keys of the map are 1, 2, ... in this
    order and the counter is the next one. *)
Definition consecutive {V : Type} (m : JsMap.t V) (counter : Z) : Prop :=
  JsMap.keys m = map Z.of_nat (seq 1 (List.length m)) /\
  counter = Z.of_nat (List.length m) + 1.

Definition ids_ok (s : MemStorage.t) : Prop :=
  consecutive (MemStorage.documents s) (MemStorage.currentDocumentId s) /\
  consecutive (MemStorage.analyses s) (MemStorage.currentAnalysisId s) /\
  Forall (fun kv => Document.id (snd kv) = fst kv) (MemStorage.documents s) /\
  Forall (fun kv => Analysis.id (snd kv) = fst kv) (MemStorage.analyses s).

(** A document that differs from another one in its status at most, or in
    its content at most. *)
Definition same_but_status (a b : Document.t) : Prop :=
  Document.id a = Document.id b /\
  Document.userId a = Document.userId b /\
  Document.fileName a = Document.fileName b /\
  Document.fileType a = Document.fileType b /\
  Document.fileSize a = Document.fileSize b /\
  Document.documentType a = Document.documentType b /\
  Document.content a = Document.content b.




(** The labels that have a branch of their own in the content table. *)
Definition knownLabels : list string :=
  ["Agreement"; "Deed"; "Invoice"; "Bond Paper"; "Sale Deed";
   "Property Document"].

(** The status [analyzeDocument] writes for a report. *)
Definition statusOf (report : Analysis.t) : string :=
  match Analysis.isValid report with
  | Some true => "valid"
  | _ => "invalid"
  end.

(** Whether a run of [analyzeDocument] on the failing store ends in an
    exception, read off the fault schedule: the first call throws, or a call
    of the [try] block throws and then a call of the handler throws. *)
Definition propagates (faults : list bool) : bool :=
  let f := fun i => nth i faults false in
  (f 0%nat ||
   (negb (f 0%nat) && f 1%nat && (f 2%nat || f 3%nat)) ||
   (negb (f 0%nat) && negb (f 1%nat) && f 2%nat && (f 3%nat || f 4%nat)))%bool.

(** Whether a call of the [try] block throws under the schedule. *)
Definition try_fails (faults : list bool) : bool :=
  (nth 1 faults false || nth 2 faults false)%bool.

(** Analyses written in pairs: a placeholder, then the result record of the
    same document with the next id. *)
Inductive paired : list Analysis.t -> Prop :=
| paired_nil : paired []
| paired_snoc (l : list Analysis.t) (first second : Analysis.t) :
    paired l ->
    is_placeholder first ->
    Analysis.documentId second = Analysis.documentId first ->
    Analysis.id second = Analysis.id first + 1 ->
    Analysis.complianceStatus second = "compliant" \/
    Analysis.complianceStatus second = "non-compliant" ->
    paired (l ++ [first; second]).

(* ================================================================== *)
(** * Properties                                                        *)
(* ================================================================== *)

(** ** Strings *)

Lemma prefix_app (sub s : string) :
  String.prefix sub s = true <-> exists post, s = sub ++ post.
Proof.
  revert s; induction sub as [|a sub IH]; intros s.
  - split; [intros _; now exists s | intros _; destruct s; reflexivity].
  - destruct s as [|b s]; simpl.
    + split; [discriminate | intros [post E]; discriminate].
    + destruct (ascii_dec a b) as [->|N].
      * rewrite IH. split; intros [post E]; exists post.
        -- now rewrite E.
        -- now inversion E.
      * split; [discriminate |].
        intros [post E]; inversion E; subst; now elim N.
Qed.

Lemma includes_unfold (s sub : string) :
  Str.includes s sub =
    if String.prefix sub s then true
    else match s with
         | EmptyString => false
         | String _ r => Str.includes r sub
         end.
Proof. destruct s; reflexivity. Qed.

Lemma includes_app (s sub : string) :
  Str.includes s sub = true <-> exists pre post, s = pre ++ sub ++ post.
Proof.
  induction s as [|c s IH]; rewrite includes_unfold.
  - destruct (String.prefix sub "") eqn:P.
    + split; [intros _ | reflexivity].
      apply prefix_app in P as [post E]. now exists "", post.
    + split; [discriminate |].
      intros [pre [post E]].
      destruct pre; simpl in E; [|discriminate].
      assert (String.prefix sub "" = true) by (apply prefix_app; eauto).
      congruence.
  - destruct (String.prefix sub (String c s)) eqn:P.
    + split; [intros _ | reflexivity].
      apply prefix_app in P as [post E]. now exists "", post.
    + rewrite IH. split.
      * intros [pre [post E]]. exists (String c pre), post. simpl; now rewrite E.
      * intros [pre [post E]]. destruct pre as [|c' pre]; simpl in E.
        -- assert (String.prefix sub (String c s) = true)
             by (apply prefix_app; eauto).
           congruence.
        -- inversion E; eauto.
Qed.

Lemma toLowerCase_app (a b : string) :
  Str.toLowerCase (a ++ b) = Str.toLowerCase a ++ Str.toLowerCase b.
Proof. induction a as [|c a IH]; simpl; [reflexivity | now rewrite IH]. Qed.

(** A keyword written in lower case that occurs in a text still occurs in
    the lowered text. *)
Lemma includes_toLowerCase (s sub : string) :
  Str.toLowerCase sub = sub ->
  Str.includes s sub = true ->
  Str.includes (Str.toLowerCase s) sub = true.
Proof.
  intros L H. apply includes_app in H as [pre [post ->]].
  apply includes_app. rewrite !toLowerCase_app, L. eauto.
Qed.

(** ** The classifier *)

Lemma label_eq (text : string) (documentType : option string) :
  label text documentType = resolveType text documentType.
Proof. reflexivity. Qed.

Lemma isValid_eq (text : string) (documentType : option string) :
  Results.isValid (simulateLegalAnalysis text documentType)
  = negb (String.eqb (resolveType text documentType) "Unknown").
Proof. reflexivity. Qed.

(** The label is a constant written by the last rule that fired, or the
    initial type when no rule fired. *)
Lemma resolveType_cases (text : string) (documentType : option string) :
  let textLower := Str.toLowerCase text in
  let docTypeLower := Str.toLowerCase (initialType documentType) in
  resolveType text documentType =
    if property_rule textLower docTypeLower then "Property Document"
    else if sale_rule textLower docTypeLower then "Sale Deed"
    else if bond_rule textLower docTypeLower then "Bond Paper"
    else initialType documentType.
Proof.
  unfold resolveType; cbv zeta.
  destruct (property_rule _ _); [reflexivity|].
  destruct (sale_rule _ _); [reflexivity|].
  destruct (bond_rule _ _); reflexivity.
Qed.

Example classify_unknown :
  label "Sample text for document lease.pdf of type null." None = "Unknown"
  /\ Results.isValid
       (simulateLegalAnalysis "Sample text for document lease.pdf of type null."
          None) = false
  /\ Results.issues
       (simulateLegalAnalysis "Sample text for document lease.pdf of type null."
          None)
     = ["Document type cannot be determined"; "Missing standard legal clauses"].
Proof. repeat split. Qed.

Example classify_title_transfer :
  label "This property title transfer is a sale deed" (Some "Sale Deed")
  = "Property Document".
Proof. reflexivity. Qed.

Example deed_of_sale_pattern :
  Str.match_deed_of_sale ("a deed " ++ newline ++ " of  sale") = true /\
  Str.match_deed_of_sale "a deedof sale" = false /\
  Str.match_deed_of_sale "DEED OF SALE" = true.
Proof. repeat split. Qed.

(** C1. The three rules apply in a fixed order and the last one that matches
    decides: a text that matches a bond keyword and a property keyword is a
    Property Document and not a Bond Paper; a text that contains
    [sale deed], with the declared type [Bond Paper], is a Sale Deed unless
    a property keyword matches too, and then it is a Property Document. *)
Theorem rule_priority (text : string) (documentType : option string) :
  let textLower := Str.toLowerCase text in
  (bond_text textLower = true -> property_text textLower = true ->
   label text documentType = "Property Document" /\
   label text documentType <> "Bond Paper")
  /\
  (documentType = Some "Bond Paper" ->
   Str.includes text "sale deed" = true \/
   Str.includes textLower "sale deed" = true ->
   label text documentType =
     if property_text textLower then "Property Document" else "Sale Deed").
Proof.
  intros textLower; split.
  - intros _ P. rewrite label_eq, resolveType_cases; cbv zeta.
    fold textLower. unfold property_rule. rewrite P; simpl.
    split; [reflexivity | discriminate].
  - intros -> H.
    assert (S : Str.includes textLower "sale deed" = true).
    { destruct H as [H|H]; [|exact H].
      now apply includes_toLowerCase. }
    rewrite label_eq, resolveType_cases; cbv zeta. fold textLower.
    change (Str.toLowerCase (initialType (Some "Bond Paper"))) with "bond paper".
    unfold property_rule, sale_rule, sale_text. rewrite S.
    change (Str.includes "bond paper" "property") with false.
    rewrite Bool.orb_false_r. simpl.
    destruct (property_text textLower); reflexivity.
Qed.

Lemma rule_priority_witness :
  label "A bond over the house" None = "Property Document" /\
  label "This Sale Deed is made today" (Some "Bond Paper") = "Sale Deed".
Proof.
  split.
  - apply (proj1 (rule_priority "A bond over the house" None)); reflexivity.
  - apply (proj2 (rule_priority "This Sale Deed is made today"
                    (Some "Bond Paper"))).
    + reflexivity.
    + right; reflexivity.
Defined.

(** C2. Validity, the compliant status and a label other than [Unknown]
    are equivalent, for every declared type and every text. *)
Theorem validity_invariant (text : string) (documentType : option string) :
  let r := simulateLegalAnalysis text documentType in
  (Results.isValid r = true <-> Results.complianceStatus r = "compliant") /\
  (Results.complianceStatus r = "compliant" <->
   Results.documentType r <> "Unknown").
Proof.
  cbv zeta.
  change (Results.documentType (simulateLegalAnalysis text documentType))
    with (resolveType text documentType).
  change (Results.complianceStatus (simulateLegalAnalysis text documentType))
    with (if negb (String.eqb (resolveType text documentType) "Unknown")
          then "compliant" else "non-compliant").
  rewrite isValid_eq.
  destruct (String.eqb_spec (resolveType text documentType) "Unknown") as [E|N];
    simpl; split; split; intros H;
    try reflexivity; try discriminate; try assumption; try contradiction.
Qed.

Lemma initialType_known (documentType : option string) :
  (forall d, documentType = Some d -> d = "" \/ In d documentTypes) ->
  In (initialType documentType) documentTypes.
Proof.
  intros H. destruct documentType as [d|]; simpl.
  - destruct (H d eq_refl) as [->|I]; simpl; [tauto|].
    destruct d; simpl; [tauto | exact I].
  - tauto.
Qed.

(** C3, as stated, fails: a declared type outside the seven labels that no
    rule overwrites comes back as the label. *)
Lemma label_range_counterexample :
  label "Minutes of the meeting" (Some "Memo") = "Memo" /\
  ~ In (label "Minutes of the meeting" (Some "Memo")) documentTypes.
Proof.
  split; [reflexivity|].
  change (label "Minutes of the meeting" (Some "Memo")) with "Memo".
  simpl. intros H.
  repeat (destruct H as [H|H]; [discriminate H|]). exact H.
Qed.

(** C3, amended. When the declared type is absent, empty or one of the seven
    labels, the resolved label is one of the seven; for any declared type it
    is Bond Paper, Sale Deed, Property Document or the initial type (the
    declared type, or [Unknown] for an absent or empty one). *)
Theorem label_range (text : string) (documentType : option string) :
  (label text documentType = "Bond Paper" \/
   label text documentType = "Sale Deed" \/
   label text documentType = "Property Document" \/
   label text documentType = initialType documentType)
  /\
  (In (initialType documentType) documentTypes ->
   In (label text documentType) documentTypes).
Proof.
  rewrite label_eq, resolveType_cases; cbv zeta.
  destruct (property_rule _ _); [split; [tauto | intros _; simpl; tauto]|].
  destruct (sale_rule _ _); [split; [tauto | intros _; simpl; tauto]|].
  destruct (bond_rule _ _); [split; [tauto | intros _; simpl; tauto]|].
  split; [tauto | trivial].
Qed.

Lemma label_range_witness :
  In (label "Tax invoice no. 12" (Some "Invoice")) documentTypes.
Proof.
  apply (proj2 (label_range "Tax invoice no. 12" (Some "Invoice"))).
  simpl; tauto.
Defined.

(** C6, as stated, fails: the declared type is searched for [bond] only, so
    a declared type [Stamp Paper] does not fire the bond rule. *)
Lemma stamp_paper_type_counterexample :
  Str.includes (Str.toLowerCase "Stamp Paper") "stamp paper" = true /\
  Str.includes (Str.toLowerCase "Certified copy") "bond" = false /\
  Str.includes (Str.toLowerCase "Stamp Paper") "bond" = false /\
  sale_rule (Str.toLowerCase "Certified copy") (Str.toLowerCase "Stamp Paper")
    = false /\
  property_rule (Str.toLowerCase "Certified copy")
    (Str.toLowerCase "Stamp Paper") = false /\
  label "Certified copy" (Some "Stamp Paper") = "Stamp Paper" /\
  label "Certified copy" (Some "Stamp Paper") <> "Bond Paper".
Proof. repeat split; discriminate. Qed.

(** C6, amended. The bond rule fires when the text contains [bond] or
    [stamp paper], or the declared type contains [bond]; when it fires and no
    later rule matches, the label is Bond Paper.  When it does not fire and
    no later rule matches, the label stays the initial type, whatever the
    declared type contains. *)
Theorem bond_rule_fires (text : string) (documentType : option string) :
  let textLower := Str.toLowerCase text in
  let docTypeLower := Str.toLowerCase (initialType documentType) in
  sale_rule textLower docTypeLower = false ->
  property_rule textLower docTypeLower = false ->
  ((Str.includes textLower "bond" = true \/
    Str.includes textLower "stamp paper" = true \/
    Str.includes docTypeLower "bond" = true) ->
   label text documentType = "Bond Paper")
  /\
  (Str.includes textLower "bond" = false ->
   Str.includes textLower "stamp paper" = false ->
   Str.includes docTypeLower "bond" = false ->
   label text documentType = initialType documentType).
Proof.
  intros textLower docTypeLower S P.
  rewrite label_eq, resolveType_cases; cbv zeta.
  fold textLower docTypeLower. rewrite S, P.
  unfold bond_rule, bond_text. split.
  - intros [H|[H|H]]; rewrite H; rewrite ?Bool.orb_true_r; reflexivity.
  - intros -> -> ->. reflexivity.
Qed.

Lemma bond_rule_fires_witness :
  label "Executed on stamp paper of Rs. 100" (Some "Agreement") = "Bond Paper" /\
  label "Certified copy" (Some "Stamp Paper") = "Stamp Paper".
Proof.
  split.
  - apply (proj1 (bond_rule_fires "Executed on stamp paper of Rs. 100"
                    (Some "Agreement") eq_refl eq_refl)).
    right; left; reflexivity.
  - apply (proj2 (bond_rule_fires "Certified copy" (Some "Stamp Paper")
                    eq_refl eq_refl)); reflexivity.
Defined.

(** C8. The resolved label is never [Deed]: a label can only start as
    [Deed] through the declared type, and a declared type that contains
    [deed] fires the sale rule, which overwrites it; the [Deed] branch of the
    content table is never taken. *)
Theorem deed_unreachable (text : string) (documentType : option string) :
  let textLower := Str.toLowerCase text in
  let docTypeLower := Str.toLowerCase (initialType documentType) in
  label text documentType <> "Deed" /\
  branchOf (label text documentType) <> BDeed /\
  (initialType documentType = "Deed" ->
   Str.includes docTypeLower "deed" = true) /\
  (Str.includes docTypeLower "deed" = true ->
   sale_rule textLower docTypeLower = true /\
   (label text documentType = "Sale Deed" \/
    label text documentType = "Property Document")).
Proof.
  intros textLower docTypeLower.
  assert (D : initialType documentType = "Deed" ->
              Str.includes docTypeLower "deed" = true).
  { intros E. unfold docTypeLower. rewrite E. reflexivity. }
  assert (R : Str.includes docTypeLower "deed" = true ->
              sale_rule textLower docTypeLower = true).
  { intros E. unfold sale_rule. rewrite E. apply Bool.orb_true_r. }
  assert (N : label text documentType <> "Deed").
  { rewrite label_eq, resolveType_cases; cbv zeta.
    fold textLower docTypeLower.
    destruct (property_rule _ _); [discriminate|].
    destruct (sale_rule textLower docTypeLower) eqn:S; [discriminate|].
    destruct (bond_rule _ _); [discriminate|].
    intros E. discriminate (R (D E)). }
  repeat split; try assumption.
  - unfold branchOf.
    destruct (String.eqb_spec (label text documentType) "Agreement");
      [discriminate|].
    destruct (String.eqb_spec (label text documentType) "Deed");
      [contradiction|].
    repeat match goal with
           | |- context [String.eqb ?a ?b] => destruct (String.eqb a b)
           end; discriminate.
  - now apply R.
  - rewrite label_eq, resolveType_cases; cbv zeta.
    fold textLower docTypeLower. rewrite (R H).
    destruct (property_rule _ _); tauto.
Qed.

(** ** The report assembler *)

Lemma attach_fields (r : Results.t) :
  Results.isValid (attachComplianceDetails r) = Results.isValid r /\
  Results.documentType (attachComplianceDetails r) = Results.documentType r /\
  Results.legalFrameworks (attachComplianceDetails r) = Results.legalFrameworks r /\
  Results.complianceDetails (attachComplianceDetails r)
  = Some (if Results.isValid r then validDetails else invalidDetails).
Proof.
  unfold attachComplianceDetails. destruct (Results.isValid r) eqn:V; simpl;
    rewrite ?V; auto.
Qed.

(** The assembler never throws on a result that has just received its
    compliance details, and this is what it returns. *)
Lemma assemble_returns (r : Results.t) :
  exists r',
    propertyTreatment (attachComplianceDetails r) = Returns r' /\
    Results.isValid r' = Results.isValid r /\
    Results.complianceStatus r' = Results.complianceStatus r /\
    Results.issues r' = Results.issues r /\
    Results.documentType r' = Results.documentType r /\
    Results.legalFrameworks r' =
      (if String.eqb (Results.documentType r) "Property Document"
       then Results.legalFrameworks r ++ propertyFrameworks
       else Results.legalFrameworks r)%list /\
    Results.complianceDetails r' =
      Some (if Results.isValid r
            then if String.eqb (Results.documentType r) "Property Document"
                 then set_property_fields validDetails
                 else validDetails
            else if String.eqb (Results.documentType r) "Property Document"
                 then {| ComplianceDetails.validityPeriod := None;
                         ComplianceDetails.registrationRequired := None;
                         ComplianceDetails.stampDutyPaid := None;
                         ComplianceDetails.properWitnessAttestation := None;
                         ComplianceDetails.notarizationStatus := None;
                         ComplianceDetails.governmentDepartmentApproval := None;
                         ComplianceDetails.standardsCompliance := None;
                         ComplianceDetails.missingElements :=
                           option_map (fun l => l ++ ["RERA registration details"])%list
                             (ComplianceDetails.missingElements invalidDetails);
                         ComplianceDetails.nonComplianceRisks :=
                           option_map (fun l => l ++ ["Potential boundary disputes"])%list
                             (ComplianceDetails.nonComplianceRisks invalidDetails);
                         ComplianceDetails.reraCompliance := None;
                         ComplianceDetails.boundaryVerification := None;
                         ComplianceDetails.encumbranceStatus := None |}
                 else invalidDetails).
Proof.
  unfold propertyTreatment, propertyBranch, attachComplianceDetails,
    addPropertyFrameworks, set_complianceDetails, set_legalFrameworks.
  destruct (Results.isValid r) eqn:V;
    destruct (String.eqb (Results.documentType r) "Property Document") eqn:T;
    cbn; rewrite ?V, ?T; cbn; rewrite ?V;
    eexists; (split; [reflexivity|]); cbn; repeat split; reflexivity.
Qed.

(** C5. A result labelled Property Document leaves the assembler with
    exactly six legal frameworks, the four base ones and the two property
    ones, whether the result is valid or not; this holds in particular for
    every result of the classifier. *)
Theorem property_frameworks (r : Results.t) (text : string)
  (documentType : option string) :
  (Results.documentType r = "Property Document" ->
   Results.legalFrameworks r = baseFrameworks ->
   exists r',
     propertyTreatment (attachComplianceDetails r) = Returns r' /\
     Results.legalFrameworks r' = (baseFrameworks ++ propertyFrameworks)%list /\
     List.length (Results.legalFrameworks r') = 6%nat)
  /\
  (label text documentType = "Property Document" ->
   exists r',
     propertyTreatment
       (attachComplianceDetails (simulateLegalAnalysis text documentType))
     = Returns r' /\
     Results.legalFrameworks r' = (baseFrameworks ++ propertyFrameworks)%list /\
     List.length (Results.legalFrameworks r') = 6%nat)
  /\
  (forall (d : Document.t) (res : Results.t),
     analysisResultsOf d = Returns res ->
     Results.documentType res = "Property Document" ->
     List.length (Results.legalFrameworks res) = 6%nat).
Proof.
  assert (G : forall r0 : Results.t,
             Results.documentType r0 = "Property Document" ->
             Results.legalFrameworks r0 = baseFrameworks ->
             exists r',
               propertyTreatment (attachComplianceDetails r0) = Returns r' /\
               Results.legalFrameworks r'
               = (baseFrameworks ++ propertyFrameworks)%list /\
               List.length (Results.legalFrameworks r') = 6%nat).
  { intros r0 T F.
    destruct (assemble_returns r0) as (r' & E & _ & _ & _ & _ & L & _).
    exists r'. rewrite T, F in L. simpl in L.
    split; [exact E|]. split; [exact L | now rewrite L]. }
  split; [apply G|]. split.
  - intros T. apply G; [exact T | reflexivity].
  - intros d res E T.
    destruct (assemble_returns
                (simulateLegalAnalysis (extractTextFromDocument d)
                   (Document.documentType d)))
      as (r' & E' & _ & _ & _ & T' & L & _).
    change (analysisResultsOf d)
      with (propertyTreatment
              (attachComplianceDetails
                 (simulateLegalAnalysis (extractTextFromDocument d)
                    (Document.documentType d)))) in E.
    rewrite E in E'. injection E' as <-.
    rewrite <- T', T in L. rewrite L. reflexivity.
Qed.

Lemma property_frameworks_witness :
  (exists r',
     propertyTreatment
       (attachComplianceDetails
          (set_legalFrameworks baseFrameworks
             (simulateLegalAnalysis "An apartment" None)))
     = Returns r' /\
     Results.legalFrameworks r' = (baseFrameworks ++ propertyFrameworks)%list /\
     List.length (Results.legalFrameworks r') = 6%nat)
  /\
  (exists r',
     propertyTreatment
       (attachComplianceDetails (simulateLegalAnalysis "An apartment" None))
     = Returns r' /\
     Results.legalFrameworks r' = (baseFrameworks ++ propertyFrameworks)%list /\
     List.length (Results.legalFrameworks r') = 6%nat).
Proof.
  split.
  - apply (proj1 (property_frameworks
                    (set_legalFrameworks baseFrameworks
                       (simulateLegalAnalysis "An apartment" None))
                    "An apartment" None)); reflexivity.
  - apply (proj1 (proj2 (property_frameworks
                    (simulateLegalAnalysis "An apartment" None)
                    "An apartment" None))); reflexivity.
Defined.

(** The invalid branch of the property treatment does append the two
    frameworks: the append does not look at validity. *)
Example property_frameworks_invalid :
  let r :=
    {| Results.isValid := false;
       Results.complianceStatus := "non-compliant";
       Results.issues := [];
       Results.warnings := [];
       Results.recommendations := [];
       Results.documentType := "Property Document";
       Results.legalFrameworks := baseFrameworks;
       Results.analysisDetails :=
         {| Results.languageValidity := true;
            Results.clauseCompletenessScore := "0.45";
            Results.legalTerminologyAccuracy := "0.6" |};
       Results.complianceDetails := None |} in
  propertyBranch (attachComplianceDetails r) = PropertyInvalid /\
  exists r',
    propertyTreatment (attachComplianceDetails r) = Returns r' /\
    List.length (Results.legalFrameworks r') = 6%nat.
Proof. cbv zeta. split; [reflexivity|]. eexists; split; reflexivity. Qed.

(** C9. A classification labelled Property Document is valid, so the
    property treatment takes its valid branch and never the other one, and
    the report carries the valid compliance details (the validity period,
    the four flags and statuses, the three standards) with the three
    property fields set and none of the fields of the invalid shape. *)
Theorem property_is_valid (text : string) (documentType : option string) :
  let r := simulateLegalAnalysis text documentType in
  Results.documentType r = "Property Document" ->
  Results.isValid r = true /\
  propertyBranch (attachComplianceDetails r) = PropertyValid /\
  propertyBranch (attachComplianceDetails r) <> PropertyInvalid /\
  exists r',
    propertyTreatment (attachComplianceDetails r) = Returns r' /\
    Results.complianceDetails r' = Some (set_property_fields validDetails) /\
    ComplianceDetails.reraCompliance (set_property_fields validDetails)
    = Some "Verified" /\
    ComplianceDetails.boundaryVerification (set_property_fields validDetails)
    = Some "Completed" /\
    ComplianceDetails.encumbranceStatus (set_property_fields validDetails)
    = Some "Clear" /\
    ComplianceDetails.missingElements (set_property_fields validDetails) = None /\
    ComplianceDetails.nonComplianceRisks (set_property_fields validDetails)
    = None /\
    exists c,
      Results.complianceDetails r' = Some c /\
      ComplianceDetails.validityPeriod c
      = Some "5 years from date of execution" /\
      ComplianceDetails.registrationRequired c = Some true /\
      ComplianceDetails.stampDutyPaid c = Some true /\
      ComplianceDetails.properWitnessAttestation c = Some true /\
      ComplianceDetails.notarizationStatus c = Some "Complete" /\
      ComplianceDetails.governmentDepartmentApproval c = Some "Verified" /\
      ComplianceDetails.standardsCompliance c
      = Some ["Ministry of Law and Justice - Document Standards 2021";
              "Digital India Initiative - E-Document Guidelines";
              "Indian Registration Act Requirements"] /\
      ComplianceDetails.reraCompliance c = Some "Verified" /\
      ComplianceDetails.boundaryVerification c = Some "Completed" /\
      ComplianceDetails.encumbranceStatus c = Some "Clear" /\
      ComplianceDetails.missingElements c = None /\
      ComplianceDetails.nonComplianceRisks c = None.
Proof.
  cbv zeta. intros T.
  assert (V : Results.isValid (simulateLegalAnalysis text documentType) = true).
  { rewrite isValid_eq.
    change (resolveType text documentType)
      with (Results.documentType (simulateLegalAnalysis text documentType)).
    rewrite T. reflexivity. }
  assert (B : propertyBranch
                (attachComplianceDetails (simulateLegalAnalysis text documentType))
              = PropertyValid).
  { unfold propertyBranch.
    destruct (attach_fields (simulateLegalAnalysis text documentType))
      as (-> & -> & _). rewrite T, V. reflexivity. }
  split; [exact V|]. split; [exact B|]. split; [rewrite B; discriminate|].
  destruct (assemble_returns (simulateLegalAnalysis text documentType))
    as (r' & E & _ & _ & _ & _ & _ & C).
  exists r'. rewrite V, T in C. simpl in C.
  split; [exact E|]. split; [exact C|].
  do 5 (split; [reflexivity|]).
  exists (set_property_fields validDetails). split; [exact C|].
  repeat split.
Qed.

Lemma property_is_valid_witness :
  Results.isValid (simulateLegalAnalysis "Title to the land" (Some "Deed")) = true.
Proof.
  exact (proj1 (property_is_valid "Title to the land" (Some "Deed") eq_refl)).
Defined.

(** The pure part of a run on an upload whose file name holds a property
    keyword and whose declared type is [Deed]. *)
Example house_deed_results :
  match analysisResultsOf houseDeedDocument with
  | Returns r =>
      Results.documentType r = "Property Document" /\
      Results.isValid r = true /\
      List.length (Results.legalFrameworks r) = 6%nat /\
      Results.complianceDetails r = Some (set_property_fields validDetails)
  | Throws _ => False
  end.
Proof. vm_compute. repeat split. Qed.

(** ** The in-memory store *)

Lemma set_append {V : Type} (k : Z) (v : V) (m : JsMap.t V) :
  Forall (fun kv => fst kv < k) m -> JsMap.set k v m = (m ++ [(k, v)])%list.
Proof.
  induction 1 as [|[k' v'] m L _ IH]; simpl; [reflexivity|].
  simpl in L. destruct (Z.eqb_spec k k'); [lia|]. now rewrite IH.
Qed.

Lemma sorted_snoc (m : JsMap.t Analysis.t) (x : Z * Analysis.t) :
  StronglySorted key_lt m -> Forall (fun kv => fst kv < fst x) m ->
  StronglySorted key_lt (m ++ [x]).
Proof.
  induction 1 as [|y m S IH F]; intros B; simpl.
  - constructor; constructor.
  - inversion B; subst. constructor; [auto|].
    apply Forall_app; split; [exact F|]. constructor; [assumption | constructor].
Qed.

Lemma entry_ok_weaken (n n' : Z) (m : JsMap.t Analysis.t) :
  n <= n' -> Forall (entry_ok n) m -> Forall (entry_ok n') m.
Proof.
  intros L. apply Forall_impl. intros kv [B I]. split; [lia | exact I].
Qed.

Lemma wf_new : wf MemStorage.new.
Proof. split; constructor. Qed.

(** [createAnalysis] appends one record under the current counter. *)
Lemma createAnalysis_appends (i : InsertAnalysis.t) (s : MemStorage.t) :
  wf s ->
  let n := MemStorage.currentAnalysisId s in
  fst (MemStorage.createAnalysis i s) = MemStorage.stored n i /\
  MemStorage.analyses (snd (MemStorage.createAnalysis i s))
  = (MemStorage.analyses s ++ [(n, MemStorage.stored n i)])%list /\
  MemStorage.currentAnalysisId (snd (MemStorage.createAnalysis i s)) = n + 1 /\
  MemStorage.documents (snd (MemStorage.createAnalysis i s))
  = MemStorage.documents s /\
  wf (snd (MemStorage.createAnalysis i s)).
Proof.
  intros [F S] n. unfold MemStorage.createAnalysis; simpl. fold n.
  assert (B : Forall (fun kv : Z * Analysis.t => fst kv < n) (MemStorage.analyses s)).
  { revert F. apply Forall_impl. now intros kv [B _]. }
  rewrite (set_append _ _ _ B).
  repeat split; try reflexivity.
  - simpl. apply Forall_app; split.
    + apply (entry_ok_weaken n); [lia | exact F].
    + constructor; [|constructor]. split; simpl; [lia | reflexivity].
  - simpl. now apply sorted_snoc.
Qed.

Lemma updateDocumentStatus_analyses (id : Z) (st : string) (s : MemStorage.t) :
  MemStorage.analyses (snd (MemStorage.updateDocumentStatus id st s))
  = MemStorage.analyses s /\
  MemStorage.currentAnalysisId (snd (MemStorage.updateDocumentStatus id st s))
  = MemStorage.currentAnalysisId s.
Proof.
  unfold MemStorage.updateDocumentStatus.
  destruct (MemStorage.getDocument id s); simpl; auto.
Qed.

Lemma updateDocumentContent_analyses (id : Z) (c : string) (s : MemStorage.t) :
  MemStorage.analyses (snd (MemStorage.updateDocumentContent id c s))
  = MemStorage.analyses s /\
  MemStorage.currentAnalysisId (snd (MemStorage.updateDocumentContent id c s))
  = MemStorage.currentAnalysisId s.
Proof.
  unfold MemStorage.updateDocumentContent.
  destruct (MemStorage.getDocument id s); simpl; auto.
Qed.

Lemma wf_same_analyses (s s' : MemStorage.t) :
  MemStorage.analyses s' = MemStorage.analyses s ->
  MemStorage.currentAnalysisId s' = MemStorage.currentAnalysisId s ->
  wf s -> wf s'.
Proof. unfold wf. intros -> ->. trivial. Qed.

Lemma pure_call_eq {S A : Type} (f : S -> A * S) (s : S) :
  pure_call f s = (Returns (fst (f s)), snd (f s)).
Proof. unfold pure_call. now destruct (f s). Qed.

(** On the in-memory store a run makes its three calls and returns the
    record of the last one. *)
Lemma analyzeDocument_mem (d : Document.t) (s : MemStorage.t) :
  exists res,
    analysisResultsOf d = Returns res /\
    analyzeDocument d s =
      (Returns
         (MemStorage.stored (MemStorage.currentAnalysisId s + 1)
            (updatedAnalysis d res)),
       afterAnalysis d res s).
Proof.
  destruct (assemble_returns
              (simulateLegalAnalysis (extractTextFromDocument d)
                 (Document.documentType d))) as (res & E & _).
  exists res. split; [exact E|].
  unfold analyzeDocument, bind, try_catch, lift, afterAnalysis.
  cbn [createAnalysis updateDocumentStatus MemStorage_IStorage].
  rewrite !pure_call_eq.
  change (analysisResultsOf d) with
    (propertyTreatment
       (attachComplianceDetails
          (simulateLegalAnalysis (extractTextFromDocument d)
             (Document.documentType d)))).
  rewrite E. rewrite !pure_call_eq.
  f_equal. unfold MemStorage.createAnalysis at 1. cbn [fst].
  f_equal.
  destruct (updateDocumentStatus_analyses (Document.id d)
              (if Results.isValid res then "valid" else "invalid")
              (snd (MemStorage.createAnalysis (initialAnalysis d) s)))
    as [_ ->].
  reflexivity.
Qed.

Lemma afterAnalysis_analyses (d : Document.t) (res : Results.t)
  (s : MemStorage.t) :
  wf s ->
  let n := MemStorage.currentAnalysisId s in
  MemStorage.analyses (afterAnalysis d res s)
  = (MemStorage.analyses s ++
       [(n, MemStorage.stored n (initialAnalysis d));
        (n + 1, MemStorage.stored (n + 1) (updatedAnalysis d res))])%list /\
  wf (afterAnalysis d res s).
Proof.
  intros W n. unfold afterAnalysis; cbv zeta.
  destruct (createAnalysis_appends (initialAnalysis d) s W)
    as (_ & A1 & C1 & _ & W1). fold n in A1, C1.
  set (s1 := snd (MemStorage.createAnalysis (initialAnalysis d) s)) in *.
  set (st := if Results.isValid res then "valid" else "invalid").
  destruct (updateDocumentStatus_analyses (Document.id d) st s1) as [A2 C2].
  set (s2 := snd (MemStorage.updateDocumentStatus (Document.id d) st s1)) in *.
  assert (W2 : wf s2) by (apply (wf_same_analyses s1); assumption).
  destruct (createAnalysis_appends (updatedAnalysis d res) s2 W2)
    as (_ & A3 & _ & _ & W3).
  split; [|exact W3].
  rewrite A3, A2, A1, C2, C1, <- app_assoc. reflexivity.
Qed.

(** Every call leaves the records already stored where they are: the
    analyses map only grows at its end. *)
Lemma exec_extends (o : op) (s : MemStorage.t) :
  wf s ->
  wf (exec o s) /\
  exists extra,
    MemStorage.analyses (exec o s) = (MemStorage.analyses s ++ extra)%list.
Proof.
  intros W. destruct o as [i|id st|id c|i|d]; cbn [exec].
  - split; [exact W | exists []; now rewrite app_nil_r].
  - destruct (updateDocumentStatus_analyses id st s) as [A C].
    split; [now apply (wf_same_analyses s) | exists []; now rewrite app_nil_r].
  - destruct (updateDocumentContent_analyses id c s) as [A C].
    split; [now apply (wf_same_analyses s) | exists []; now rewrite app_nil_r].
  - destruct (createAnalysis_appends i s W) as (_ & A & _ & _ & W').
    split; [exact W' | eauto].
  - destruct (analyzeDocument_mem d s) as (res & _ & ->). cbn [snd].
    destruct (afterAnalysis_analyses d res s W) as [A W'].
    split; [exact W' | eauto].
Qed.

Lemma run_extends (ops : list op) (s : MemStorage.t) :
  wf s ->
  wf (run ops s) /\
  exists extra,
    MemStorage.analyses (run ops s) = (MemStorage.analyses s ++ extra)%list.
Proof.
  revert s; induction ops as [|o ops IH]; intros s W; cbn [run fold_left].
  - split; [exact W | exists []; now rewrite app_nil_r].
  - destruct (exec_extends o s W) as [W1 [e1 E1]].
    destruct (IH _ W1) as [W2 [e2 E2]].
    split; [exact W2|]. exists (e1 ++ e2)%list.
    unfold run in E2. rewrite E2, E1, app_assoc. reflexivity.
Qed.

Lemma reachable_wf (s : MemStorage.t) : reachable s -> wf s.
Proof. intros [ops ->]. apply run_extends, wf_new. Qed.

(** ** Lookup by document id *)

Lemma lookup_app (documentId : Z) (s s' : MemStorage.t) (extra : JsMap.t Analysis.t) :
  MemStorage.analyses s' = (MemStorage.analyses s ++ extra)%list ->
  MemStorage.getAnalysisByDocumentId documentId s' =
    match MemStorage.getAnalysisByDocumentId documentId s with
    | Some a => Some a
    | None =>
        List.find (fun a => Analysis.documentId a =? documentId)
          (JsMap.values extra)
    end.
Proof.
  unfold MemStorage.getAnalysisByDocumentId, JsMap.values. intros ->.
  rewrite map_app.
  induction (map snd (MemStorage.analyses s)) as [|a l IH]; simpl;
    [reflexivity|].
  destruct (Analysis.documentId a =? documentId); [reflexivity | exact IH].
Qed.

(** The record found is the first of its document in insertion order. *)
Lemma lookup_first (documentId : Z) (s : MemStorage.t) (a : Analysis.t) :
  MemStorage.getAnalysisByDocumentId documentId s = Some a <->
  exists before after,
    JsMap.values (MemStorage.analyses s) = (before ++ a :: after)%list /\
    Analysis.documentId a = documentId /\
    Forall (fun b => Analysis.documentId b <> documentId) before.
Proof.
  unfold MemStorage.getAnalysisByDocumentId.
  induction (JsMap.values (MemStorage.analyses s)) as [|x l IH]; simpl.
  - split; [discriminate|]. intros (b & t & E & _). now destruct b.
  - destruct (Z.eqb_spec (Analysis.documentId x) documentId) as [E|N].
    + split.
      * intros [= <-]. exists [], l. auto.
      * intros ([|y b] & t & L & D & F); simpl in L.
        -- now inversion L.
        -- inversion L; subst. inversion F; subst. contradiction.
    + rewrite IH. split.
      * intros (b & t & L & D & F). exists (x :: b), t. rewrite L. auto.
      * intros ([|y b] & t & L & D & F); simpl in L.
        -- inversion L; subst. contradiction.
        -- inversion L; subst. inversion F; subst. eauto.
Qed.

(** In a well-formed store the record found has the least id of its
    document. *)
Lemma lookup_least_id (documentId : Z) (s : MemStorage.t) (a : Analysis.t) :
  wf s ->
  MemStorage.getAnalysisByDocumentId documentId s = Some a ->
  forall b, In b (JsMap.values (MemStorage.analyses s)) ->
            Analysis.documentId b = documentId ->
            Analysis.id a <= Analysis.id b.
Proof.
  unfold wf, MemStorage.getAnalysisByDocumentId, JsMap.values.
  intros [F S]. induction (MemStorage.analyses s) as [|[k x] m IH];
    simpl; [discriminate|].
  inversion F as [|? ? [_ I] F']; subst. simpl in I.
  inversion S as [|? ? S' L]; subst.
  destruct (Z.eqb_spec (Analysis.documentId x) documentId) as [E|N].
  - intros [= <-] b [<-|B] _; [lia|].
    apply in_map_iff in B as [[k' b'] [<- B]]. simpl.
    rewrite Forall_forall in F', L.
    destruct (F' _ B) as [_ I']. specialize (L _ B).
    unfold key_lt in L. simpl in *. lia.
  - intros H b [<-|B] D; [contradiction|]. now apply IH.
Qed.

Lemma lookup_same (documentId : Z) (s s' : MemStorage.t) :
  MemStorage.analyses s' = MemStorage.analyses s ->
  MemStorage.getAnalysisByDocumentId documentId s'
  = MemStorage.getAnalysisByDocumentId documentId s.
Proof. unfold MemStorage.getAnalysisByDocumentId. now intros ->. Qed.

Lemma lookup_stored (documentId : Z) (s : MemStorage.t) (a : Analysis.t) :
  wf s ->
  MemStorage.getAnalysisByDocumentId documentId s = Some a ->
  In a (JsMap.values (MemStorage.analyses s)) /\
  Analysis.documentId a = documentId /\
  Analysis.id a < MemStorage.currentAnalysisId s.
Proof.
  intros [F _] H. unfold MemStorage.getAnalysisByDocumentId in H.
  apply find_some in H as [I D]. apply Z.eqb_eq in D.
  split; [exact I|]. split; [exact D|].
  unfold JsMap.values in I. apply in_map_iff in I as [[k b] [<- I]].
  rewrite Forall_forall in F. destruct (F _ I) as [B E]. simpl in *. lia.
Qed.

Lemma placeholder_initial (d : Document.t) (n : Z) :
  is_placeholder (MemStorage.stored n (initialAnalysis d)).
Proof. repeat split. Qed.

Lemma analysisResultsOf_returns (d : Document.t) :
  exists res,
    analysisResultsOf d = Returns res /\
    (Results.complianceStatus res = "compliant" \/
     Results.complianceStatus res = "non-compliant").
Proof.
  destruct (assemble_returns
              (simulateLegalAnalysis (extractTextFromDocument d)
                 (Document.documentType d))) as (res & E & _ & C & _).
  exists res. split; [exact E|]. rewrite C.
  change (Results.complianceStatus
            (simulateLegalAnalysis (extractTextFromDocument d)
               (Document.documentType d)))
    with (if Results.isValid
               (simulateLegalAnalysis (extractTextFromDocument d)
                  (Document.documentType d))
          then "compliant" else "non-compliant").
  destruct (Results.isValid _); auto.
Qed.

(** The calls of the application keep a placeholder in front of the records
    of every document. *)
Lemma exec_placeholder_first (o : op) (s : MemStorage.t) :
  wf s -> app_op o = true ->
  placeholder_first s -> placeholder_first (exec o s).
Proof.
  intros W A P documentId a.
  destruct o as [i|id st|id c|i|d]; cbn [exec]; try discriminate A.
  - apply P.
  - rewrite (lookup_same _ s); [apply P|].
    apply updateDocumentStatus_analyses.
  - rewrite (lookup_same _ s); [apply P|].
    apply updateDocumentContent_analyses.
  - destruct (analyzeDocument_mem d s) as (res & _ & ->). cbn [snd].
    destruct (afterAnalysis_analyses d res s W) as [E _].
    rewrite (lookup_app documentId s _ _ E).
    destruct (MemStorage.getAnalysisByDocumentId documentId s) as [b|] eqn:L.
    + intros [= <-]. now apply (P documentId).
    + cbn [JsMap.values map snd List.find MemStorage.stored
             Analysis.documentId initialAnalysis updatedAnalysis
             InsertAnalysis.documentId].
      destruct (Document.id d =? documentId); [|discriminate].
      intros [= <-]. apply placeholder_initial.
Qed.

Lemma app_reachable_invariants (s : MemStorage.t) :
  app_reachable s -> wf s /\ placeholder_first s.
Proof.
  intros (ops & A & ->).
  assert (G : forall s0, wf s0 -> placeholder_first s0 ->
                         wf (run ops s0) /\ placeholder_first (run ops s0)).
  { induction ops as [|o ops IH]; intros s0 W P; cbn [run fold_left];
      [now split|].
    cbn [forallb] in A. apply andb_prop in A as [Ao Aops].
    apply (IH Aops).
    - now apply exec_extends.
    - now apply exec_placeholder_first. }
  apply G; [apply wf_new|]. intros documentId a. discriminate.
Qed.

Lemma get_app_in {V : Type} (k : Z) (m extra : JsMap.t V) :
  In k (JsMap.keys m) -> JsMap.get k (m ++ extra)%list = JsMap.get k m.
Proof.
  unfold JsMap.keys. induction m as [|[k' v] m IH]; simpl; [tauto|].
  intros [E|I].
  - subst. now rewrite Z.eqb_refl.
  - destruct (k =? k'); [reflexivity | now apply IH].
Qed.

(** C10. [getAnalysisByDocumentId] returns the first record of the document
    in insertion order, the one with the least id; so once [analyzeDocument]
    has run for a document, every later lookup by its id, whatever was stored
    in between, returns a record older than the one that carries the result,
    never that one; it is a placeholder with status [processing] when the
    store was filled by the application, and the placeholder of this very run
    when the document had no analysis yet. *)
Theorem lookup_returns_placeholder (ops later : list op) (d : Document.t) :
  let s := run ops MemStorage.new in
  exists final s1 a,
    analyzeDocument d s = (Returns final, s1) /\
    MemStorage.getAnalysisByDocumentId (Document.id d) (run later s1) = Some a /\
    Analysis.documentId a = Document.id d /\
    a <> final /\
    Analysis.id a < Analysis.id final /\
    In final (JsMap.values (MemStorage.analyses (run later s1))) /\
    Analysis.documentId final = Document.id d /\
    (exists before after,
       JsMap.values (MemStorage.analyses (run later s1))
       = (before ++ a :: after)%list /\
       Forall (fun b => Analysis.documentId b <> Document.id d) before) /\
    (forall b, In b (JsMap.values (MemStorage.analyses (run later s1))) ->
               Analysis.documentId b = Document.id d ->
               Analysis.id a <= Analysis.id b) /\
    (forallb app_op ops = true ->
     is_placeholder a /\ Analysis.complianceStatus a = "processing") /\
    (MemStorage.getAnalysisByDocumentId (Document.id d) s = None ->
     a = MemStorage.stored (MemStorage.currentAnalysisId s) (initialAnalysis d)).
Proof.
  intros s.
  assert (W : wf s) by (apply reachable_wf; now exists ops).
  destruct (analyzeDocument_mem d s) as (res & _ & E).
  destruct (afterAnalysis_analyses d res s W) as [A1 W1].
  set (n := MemStorage.currentAnalysisId s) in *.
  set (final := MemStorage.stored (n + 1) (updatedAnalysis d res)) in *.
  set (s1 := afterAnalysis d res s) in *.
  destruct (run_extends later s1 W1) as [W2 [extra A2]].
  set (s2 := run later s1) in *.
  (* the record found right after the run *)
  assert (L1 : exists a,
             MemStorage.getAnalysisByDocumentId (Document.id d) s1 = Some a /\
             Analysis.id a <= n /\
             (placeholder_first s -> is_placeholder a) /\
             (MemStorage.getAnalysisByDocumentId (Document.id d) s = None ->
              a = MemStorage.stored n (initialAnalysis d))).
  { rewrite (lookup_app (Document.id d) s s1 _ A1).
    destruct (MemStorage.getAnalysisByDocumentId (Document.id d) s) as [b|] eqn:L.
    - exists b. split; [reflexivity|].
      destruct (lookup_stored _ _ _ W L) as (_ & _ & B). fold n in B.
      split; [lia|]. split; [|discriminate].
      intros P. now apply (P (Document.id d)).
    - exists (MemStorage.stored n (initialAnalysis d)).
      cbn [JsMap.values map snd List.find MemStorage.stored
             Analysis.documentId initialAnalysis InsertAnalysis.documentId].
      rewrite Z.eqb_refl.
      split; [reflexivity|].
      split; [cbn [Analysis.id MemStorage.stored]; lia|].
      split; [intros _; apply placeholder_initial | reflexivity]. }
  destruct L1 as (a & L1 & Ia & Pa & Fa).
  assert (L2 : MemStorage.getAnalysisByDocumentId (Document.id d) s2 = Some a).
  { rewrite (lookup_app (Document.id d) s1 s2 _ A2), L1. reflexivity. }
  exists final, s1, a. fold s2.
  split; [exact E|]. split; [exact L2|].
  destruct (lookup_stored _ _ _ W2 L2) as (_ & Da & _).
  split; [exact Da|].
  assert (If : Analysis.id final = n + 1) by reflexivity.
  split; [intros Eq; rewrite Eq, If in Ia; lia|].
  split; [rewrite If; lia|].
  split.
  { unfold JsMap.values. rewrite A2, A1, !map_app.
    apply in_or_app; left. apply in_or_app; right. simpl; auto. }
  split; [reflexivity|].
  split.
  { apply lookup_first in L2 as (before & after & V & _ & F). eauto. }
  split; [now apply lookup_least_id|].
  split; [|exact Fa].
  intros A.
  assert (P : placeholder_first s).
  { apply app_reachable_invariants. exists ops. now split. }
  split; [now apply Pa | now apply (Pa P)].
Qed.

Lemma lookup_returns_placeholder_witness :
  exists a,
    MemStorage.getAnalysisByDocumentId (Document.id leaseDocument)
      (run [CreateDocument (upload "second.pdf" (Some "Invoice"))]
         (snd (analyzeDocument leaseDocument oneDocumentStore))) = Some a /\
    Analysis.complianceStatus a = "processing".
Proof.
  destruct (lookup_returns_placeholder
              [CreateDocument (upload "lease.pdf" None)]
              [CreateDocument (upload "second.pdf" (Some "Invoice"))]
              leaseDocument)
    as (final & s1 & a & E & L & _ & _ & _ & _ & _ & _ & _ & C & _).
  exists a. split; [|exact (proj2 (C eq_refl))].
  change (run [CreateDocument (upload "lease.pdf" None)] MemStorage.new)
    with oneDocumentStore in E.
  rewrite E. exact L.
Defined.

(** The lookup made by the routes after an upload. *)
Example lookup_after_upload :
  option_map Analysis.complianceStatus
    (MemStorage.getAnalysisByDocumentId 1
       (run [CreateDocument (upload "lease.pdf" None);
             UpdateDocumentContent 1 "JVBERi0=";
             AnalyzeDocument leaseDocument] MemStorage.new))
  = Some "processing" /\
  option_map Analysis.complianceStatus
    (MemStorage.getAnalysis 2
       (run [CreateDocument (upload "lease.pdf" None);
             UpdateDocumentContent 1 "JVBERi0=";
             AnalyzeDocument leaseDocument] MemStorage.new))
  = Some "non-compliant".
Proof. split; vm_compute; reflexivity. Qed.

(** A record stored by hand before the run is what the lookup returns; the
    application never does this. *)
Example lookup_after_direct_insert :
  option_map Analysis.complianceStatus
    (MemStorage.getAnalysisByDocumentId 1
       (run [CreateDocument (upload "lease.pdf" None);
             CreateAnalysis (errorAnalysis leaseDocument);
             AnalyzeDocument leaseDocument] MemStorage.new))
  = Some "error".
Proof. vm_compute; reflexivity. Qed.

(** ** The failure path *)

Lemma call_ok {A : Type} (f : MemStorage.t -> A * MemStorage.t)
  (m : MemStorage.t) (rest : list bool) :
  Flaky.call f {| Flaky.store := m; Flaky.faults := false :: rest |}
  = (Returns (fst (f m)), {| Flaky.store := snd (f m); Flaky.faults := rest |}).
Proof. unfold Flaky.call; simpl. now destruct (f m). Qed.

Lemma call_throws {A : Type} (f : MemStorage.t -> A * MemStorage.t)
  (m : MemStorage.t) (rest : list bool) :
  Flaky.call f {| Flaky.store := m; Flaky.faults := true :: rest |}
  = (Throws Flaky.failure, {| Flaky.store := m; Flaky.faults := rest |}).
Proof. reflexivity. Qed.

Lemma get_set_same {V : Type} (k : Z) (v : V) (m : JsMap.t V) :
  JsMap.get k (JsMap.set k v m) = Some v.
Proof.
  induction m as [|[k' v'] m IH]; simpl.
  - now rewrite Z.eqb_refl.
  - destruct (k =? k') eqn:E; simpl; rewrite E; [reflexivity | exact IH].
Qed.

Lemma updateDocumentStatus_status (id : Z) (st : string) (m : MemStorage.t) :
  (forall doc, MemStorage.getDocument id m = Some doc ->
     exists doc',
       MemStorage.getDocument id (snd (MemStorage.updateDocumentStatus id st m))
       = Some doc' /\ Document.status doc' = st) /\
  (MemStorage.getDocument id m = None ->
   snd (MemStorage.updateDocumentStatus id st m) = m).
Proof.
  unfold MemStorage.updateDocumentStatus.
  destruct (MemStorage.getDocument id m) as [doc|] eqn:G; split;
    try discriminate; try reflexivity.
  intros ? [= <-]. eexists. split.
  - unfold MemStorage.getDocument; simpl. apply get_set_same.
  - reflexivity.
Qed.

(** A run on the failing store in which the placeholder is inserted, a call
    of the [try] block throws and the two calls of the handler go through:
    the run returns the error record, and a document that is in the store
    ends with the status [error]. *)
Lemma flaky_error_run (d : Document.t) (m : MemStorage.t)
  (pre rest : list bool) :
  pre = [] \/ pre = [false] ->
  let n := MemStorage.currentAnalysisId m in
  exists m',
    analyzeDocument d
      {| Flaky.store := m;
         Flaky.faults := false :: pre ++ true :: false :: false :: rest |}
    = (Returns (MemStorage.stored (n + 1) (errorAnalysis d)),
       {| Flaky.store := m'; Flaky.faults := rest |}) /\
    MemStorage.analyses m'
    = JsMap.set (n + 1) (MemStorage.stored (n + 1) (errorAnalysis d))
        (JsMap.set n (MemStorage.stored n (initialAnalysis d))
           (MemStorage.analyses m)) /\
    (forall doc, MemStorage.getDocument (Document.id d) m = Some doc ->
       exists doc', MemStorage.getDocument (Document.id d) m' = Some doc' /\
                    Document.status doc' = "error") /\
    (MemStorage.getDocument (Document.id d) m = None ->
     MemStorage.documents m' = MemStorage.documents m).
Proof.
  intros Hpre n.
  destruct (analysisResultsOf_returns d) as (res & E & _).
  set (m1 := snd (MemStorage.createAnalysis (initialAnalysis d) m)).
  assert (D1 : MemStorage.getDocument (Document.id d) m1
               = MemStorage.getDocument (Document.id d) m) by reflexivity.
  destruct Hpre as [-> | ->]; cbn [app].
  - (* [updateDocumentStatus] throws *)
    set (m3 := snd (MemStorage.updateDocumentStatus (Document.id d) "error" m1)).
    exists (snd (MemStorage.createAnalysis (errorAnalysis d) m3)).
    destruct (updateDocumentStatus_analyses (Document.id d) "error" m1)
      as [A3 C3]. fold m3 in A3, C3.
    destruct (updateDocumentStatus_status (Document.id d) "error" m1)
      as [S3 N3]. fold m3 in S3, N3.
    split; [|split; [|split]].
    + unfold analyzeDocument, bind, try_catch, lift.
      cbn [createAnalysis updateDocumentStatus Flaky_IStorage].
      rewrite call_ok. rewrite E. rewrite call_throws.
      rewrite call_ok. rewrite call_ok. fold m1. fold m3.
      unfold MemStorage.createAnalysis at 1. cbn [fst]. rewrite C3.
      reflexivity.
    + unfold MemStorage.createAnalysis at 1. cbn [snd MemStorage.analyses].
      rewrite C3, A3. reflexivity.
    + intros doc G. rewrite <- D1 in G. exact (S3 doc G).
    + intros G. rewrite <- D1 in G.
      unfold MemStorage.createAnalysis. cbn [snd MemStorage.documents].
      rewrite (N3 G). reflexivity.
  - (* the second [createAnalysis] throws *)
    set (st := if Results.isValid res then "valid" else "invalid").
    set (m2 := snd (MemStorage.updateDocumentStatus (Document.id d) st m1)).
    set (m3 := snd (MemStorage.updateDocumentStatus (Document.id d) "error" m2)).
    exists (snd (MemStorage.createAnalysis (errorAnalysis d) m3)).
    destruct (updateDocumentStatus_analyses (Document.id d) st m1) as [A2 C2].
    destruct (updateDocumentStatus_status (Document.id d) st m1) as [S2 N2].
    fold m2 in A2, C2, S2, N2.
    destruct (updateDocumentStatus_analyses (Document.id d) "error" m2)
      as [A3 C3].
    destruct (updateDocumentStatus_status (Document.id d) "error" m2)
      as [S3 N3].
    fold m3 in A3, C3, S3, N3.
    split; [|split; [|split]].
    + unfold analyzeDocument, bind, try_catch, lift.
      cbn [createAnalysis updateDocumentStatus Flaky_IStorage].
      rewrite call_ok. rewrite E. rewrite call_ok. rewrite call_throws.
      rewrite call_ok. rewrite call_ok. fold m1. fold st. fold m2. fold m3.
      unfold MemStorage.createAnalysis at 1. cbn [fst]. rewrite C3, C2.
      reflexivity.
    + unfold MemStorage.createAnalysis at 1. cbn [snd MemStorage.analyses].
      rewrite C3, C2, A3, A2. reflexivity.
    + intros doc G. rewrite <- D1 in G.
      destruct (S2 doc G) as (doc2 & G2 & _). exact (S3 doc2 G2).
    + intros G. rewrite <- D1 in G.
      unfold MemStorage.createAnalysis. cbn [snd MemStorage.documents].
      assert (G2 : MemStorage.getDocument (Document.id d) m2 = None)
        by (rewrite (N2 G); exact G).
      rewrite (N3 G2), (N2 G). reflexivity.
Qed.

(** A run on the failing store in which none of the three calls throws. *)
Lemma flaky_clean_run (d : Document.t) (m : MemStorage.t) (rest : list bool) :
  exists res,
    analysisResultsOf d = Returns res /\
    analyzeDocument d
      {| Flaky.store := m; Flaky.faults := false :: false :: false :: rest |}
    = (Returns
         (MemStorage.stored (MemStorage.currentAnalysisId m + 1)
            (updatedAnalysis d res)),
       {| Flaky.store := afterAnalysis d res m; Flaky.faults := rest |}).
Proof.
  destruct (analysisResultsOf_returns d) as (res & E & _).
  exists res. split; [exact E|].
  unfold analyzeDocument, bind, try_catch, lift, afterAnalysis.
  cbn [createAnalysis updateDocumentStatus Flaky_IStorage].
  rewrite call_ok. rewrite E. rewrite call_ok. rewrite call_ok.
  f_equal. unfold MemStorage.createAnalysis at 1. cbn [fst].
  destruct (updateDocumentStatus_analyses (Document.id d)
              (if Results.isValid res then "valid" else "invalid")
              (snd (MemStorage.createAnalysis (initialAnalysis d) m)))
    as [_ ->].
  reflexivity.
Qed.

(** C4, as stated, fails: the placeholder is inserted outside the [try]
    block and the handler calls the store again, so an exception of the
    first call, or of a call of the handler, reaches the caller; in the
    second run the document keeps the status it had. *)
Lemma failure_propagates :
  fst (analyzeDocument leaseDocument
         {| Flaky.store := oneDocumentStore; Flaky.faults := [true] |})
  = Throws Flaky.failure /\
  fst (analyzeDocument leaseDocument
         {| Flaky.store := oneDocumentStore;
            Flaky.faults := [false; true; true] |})
  = Throws Flaky.failure /\
  option_map Document.status
    (MemStorage.getDocument 1
       (Flaky.store
          (snd (analyzeDocument leaseDocument
                  {| Flaky.store := oneDocumentStore;
                     Flaky.faults := [false; true; true] |}))))
  = Some "pending".
Proof. repeat split; vm_compute; reflexivity. Qed.

(** C4, amended. On the in-memory store, whose methods never throw,
    [analyzeDocument] always returns a report, and not the error one.  On a
    store whose calls can throw: when the three calls go through, the run
    returns the same report; when the placeholder is inserted, a call of the
    [try] block throws and the two calls of the handler go through, the run
    returns, the report has the status [error], validity [false] and one
    issue, and the document, if it is in the store, has the status
    [error]. *)
Theorem failure_contained (d : Document.t) (m : MemStorage.t)
  (pre rest : list bool) :
  pre = [] \/ pre = [false] ->
  (exists report s',
     analyzeDocument d m = (Returns report, s') /\
     ~ is_error_report report /\
     analyzeDocument d
       {| Flaky.store := m; Flaky.faults := false :: false :: false :: rest |}
     = (Returns report, {| Flaky.store := s'; Flaky.faults := rest |}))
  /\
  (exists report s',
     analyzeDocument d
       {| Flaky.store := m;
          Flaky.faults := false :: pre ++ true :: false :: false :: rest |}
     = (Returns report, s') /\
     is_error_report report /\
     Analysis.complianceStatus report = "error" /\
     Analysis.isValid report = Some false /\
     Analysis.issuesCount report = 1 /\
     Analysis.documentId report = Document.id d /\
     (forall doc, MemStorage.getDocument (Document.id d) m = Some doc ->
        exists doc',
          MemStorage.getDocument (Document.id d) (Flaky.store s') = Some doc' /\
          Document.status doc' = "error")).
Proof.
  intros Hpre. split.
  - destruct (analyzeDocument_mem d m) as (res & E & R).
    destruct (flaky_clean_run d m rest) as (res' & E' & R').
    rewrite E in E'. injection E' as <-.
    destruct (analysisResultsOf_returns d) as (res' & E' & C).
    rewrite E in E'. injection E' as <-.
    eexists; eexists. split; [exact R|]. split; [|exact R'].
    intros (_ & S & _).
    cbn [MemStorage.stored Analysis.complianceStatus updatedAnalysis
           InsertAnalysis.complianceStatus] in S.
    destruct C as [C|C]; rewrite C in S; discriminate S.
  - destruct (flaky_error_run d m pre rest Hpre) as (m' & R & _ & S & _).
    eexists; eexists. split; [exact R|].
    split; [repeat split|]. repeat split. exact S.
Qed.

Lemma failure_contained_witness :
  exists report s',
    analyzeDocument leaseDocument
      {| Flaky.store := oneDocumentStore;
         Flaky.faults := [false; false; true; false; false] |}
    = (Returns report, s') /\
    Analysis.complianceStatus report = "error" /\
    option_map Document.status
      (MemStorage.getDocument 1 (Flaky.store s')) = Some "error".
Proof.
  destruct (failure_contained leaseDocument oneDocumentStore [false] []
              (or_intror eq_refl))
    as [_ (report & s' & E & _ & C & _ & _ & _ & S)].
  exists report, s'. split; [exact E|]. split; [exact C|].
  destruct (S leaseDocument eq_refl) as (doc' & G & St).
  change (Document.id leaseDocument) with 1 in G.
  rewrite G. simpl. now rewrite St.
Defined.

(** The run of the specification's scenario: the status update throws. *)
Example status_update_throws :
  let '(o, s') :=
    analyzeDocument leaseDocument
      {| Flaky.store := oneDocumentStore;
         Flaky.faults := [false; true] |} in
  option_map Analysis.complianceStatus
    (match o with Returns r => Some r | Throws _ => None end) = Some "error" /\
  option_map Analysis.issuesCount
    (match o with Returns r => Some r | Throws _ => None end) = Some 1 /\
  option_map Document.status (MemStorage.getDocument 1 (Flaky.store s'))
  = Some "error" /\
  List.length (MemStorage.analyses (Flaky.store s')) = 2%nat.
Proof. vm_compute. repeat split. Qed.

(** The assembler leaves the warnings and the recommendations of the
    classifier as they are. *)
Lemma assemble_keeps_lists (r r' : Results.t) :
  propertyTreatment (attachComplianceDetails r) = Returns r' ->
  Results.warnings r' = Results.warnings r /\
  Results.recommendations r' = Results.recommendations r.
Proof.
  unfold propertyTreatment, propertyBranch, attachComplianceDetails,
    addPropertyFrameworks, set_complianceDetails, set_legalFrameworks.
  destruct (Results.isValid r) eqn:V;
    destruct (String.eqb (Results.documentType r) "Property Document") eqn:T;
    cbn; rewrite ?V, ?T; cbn; rewrite ?V; cbn;
    intros [= <-]; split; reflexivity.
Qed.

(** C7. Every run of [analyzeDocument] begins with the insertion of the
    placeholder (validity unset, status [processing], no issue, empty lists,
    empty analysis data), built from the document alone; the result, or the
    error report when a call of the [try] block throws, is a second record of
    its own: the result record has the validity, the status, the number of
    issues, the warnings and the recommendations of the classification of
    the document and the serialised result as its analysis data, the error
    record has the fixed fields of the handler; and [createAnalysis] always
    adds a record, with the fields it was given, under an id that no stored
    analysis has, leaving every stored analysis as it was. *)
Theorem placeholder_then_final (s : MemStorage.t) (d : Document.t)
  (i : InsertAnalysis.t) :
  reachable s ->
  let n := MemStorage.currentAnalysisId s in
  let placeholder := MemStorage.stored n (initialAnalysis d) in
  let classified :=
    simulateLegalAnalysis (extractTextFromDocument d)
      (Document.documentType d) in
  (exists rest : Analysis.t -> M MemStorage.t Analysis.t,
     analyzeDocument d = bind (createAnalysis (initialAnalysis d)) rest) /\
  fst (MemStorage.createAnalysis (initialAnalysis d) s) = placeholder /\
  is_placeholder placeholder /\
  Analysis.documentId placeholder = Document.id d /\
  (exists final s',
     analyzeDocument d s = (Returns final, s') /\
     MemStorage.analyses s'
     = (MemStorage.analyses s ++ [(n, placeholder); (n + 1, final)])%list /\
     Analysis.id final = n + 1 /\
     Analysis.documentId final = Document.id d /\
     Analysis.complianceStatus final <> "processing" /\
     Analysis.isValid final <> None /\
     Analysis.isValid final = Some (Results.isValid classified) /\
     Analysis.complianceStatus final = Results.complianceStatus classified /\
     Analysis.issuesCount final
     = Z.of_nat (List.length (Results.issues classified)) /\
     Analysis.warnings final = Results.warnings classified /\
     Analysis.recommendations final = Results.recommendations classified /\
     exists res,
       analysisResultsOf d = Returns res /\
       Results.documentType res = Results.documentType classified /\
       Analysis.analysisData final = Json.stringify (resultsToJson res)) /\
  (forall pre rest : list bool,
     pre = [] \/ pre = [false] ->
     exists failed s',
       analyzeDocument d
         {| Flaky.store := s;
            Flaky.faults := false :: pre ++ true :: false :: false :: rest |}
       = (Returns failed, s') /\
       MemStorage.analyses (Flaky.store s')
       = (MemStorage.analyses s ++ [(n, placeholder); (n + 1, failed)])%list /\
       is_error_report failed /\
       Analysis.id failed = n + 1 /\
       Analysis.documentId failed = Document.id d /\
       Analysis.warnings failed = ["Analysis failed due to an error"] /\
       Analysis.recommendations failed
       = ["Please try again or contact support"] /\
       Analysis.analysisData failed
       = Json.stringify (Json.JObj [("error", Json.JStr "Analysis failed")])) /\
  ~ In n (JsMap.keys (MemStorage.analyses s)) /\
  Analysis.id (fst (MemStorage.createAnalysis i s)) = n /\
  MemStorage.analyses (snd (MemStorage.createAnalysis i s))
  = (MemStorage.analyses s ++ [(n, fst (MemStorage.createAnalysis i s))])%list /\
  (forall k, In k (JsMap.keys (MemStorage.analyses s)) ->
             MemStorage.getAnalysis k (snd (MemStorage.createAnalysis i s))
             = MemStorage.getAnalysis k s) /\
  MemStorage.getAnalysis n (snd (MemStorage.createAnalysis i s))
  = Some (fst (MemStorage.createAnalysis i s)) /\
  Analysis.documentId (fst (MemStorage.createAnalysis i s))
  = InsertAnalysis.documentId i /\
  Analysis.isValid (fst (MemStorage.createAnalysis i s))
  = InsertAnalysis.isValid i /\
  Analysis.complianceStatus (fst (MemStorage.createAnalysis i s))
  = InsertAnalysis.complianceStatus i /\
  Analysis.issuesCount (fst (MemStorage.createAnalysis i s))
  = InsertAnalysis.issuesCount i /\
  Analysis.warnings (fst (MemStorage.createAnalysis i s))
  = InsertAnalysis.warnings i /\
  Analysis.recommendations (fst (MemStorage.createAnalysis i s))
  = InsertAnalysis.recommendations i /\
  Analysis.analysisData (fst (MemStorage.createAnalysis i s))
  = InsertAnalysis.analysisData i.
Proof.
  intros R n placeholder classified. pose proof (reachable_wf s R) as W.
  split; [eexists; reflexivity|].
  split; [reflexivity|].
  split; [apply placeholder_initial|].
  split; [reflexivity|].
  split.
  - destruct (analyzeDocument_mem d s) as (res & E & ->).
    destruct (analysisResultsOf_returns d) as (res' & E' & C).
    rewrite E in E'. injection E' as <-.
    destruct (assemble_returns classified)
      as (res' & E' & V' & C' & I' & T' & _).
    change (propertyTreatment (attachComplianceDetails classified))
      with (analysisResultsOf d) in E'.
    rewrite E in E'. injection E' as <-.
    destruct (assemble_keeps_lists classified res E) as [Wa Re].
    destruct (afterAnalysis_analyses d res s W) as [A _].
    exists (MemStorage.stored (n + 1) (updatedAnalysis d res)),
           (afterAnalysis d res s).
    split; [reflexivity|]. split; [exact A|].
    split; [reflexivity|]. split; [reflexivity|].
    cbn [MemStorage.stored Analysis.complianceStatus Analysis.isValid
           Analysis.issuesCount Analysis.warnings Analysis.recommendations
           Analysis.analysisData updatedAnalysis
           InsertAnalysis.complianceStatus InsertAnalysis.isValid
           InsertAnalysis.issuesCount InsertAnalysis.warnings
           InsertAnalysis.recommendations InsertAnalysis.analysisData].
    split; [destruct C as [-> | ->]; discriminate|].
    split; [discriminate|].
    split; [now rewrite V'|]. split; [exact C'|].
    split; [now rewrite I'|]. split; [exact Wa|]. split; [exact Re|].
    exists res. split; [exact E|]. split; [exact T' | reflexivity].
  - split.
    { intros pre rest Hpre.
      destruct (flaky_error_run d s pre rest Hpre) as (m' & E & A & _).
      fold n in E, A. fold placeholder in A.
      eexists; eexists. split; [exact E|].
      split; [|split; [repeat split|repeat split]].
      cbn [Flaky.store]. rewrite A.
      assert (B : Forall (fun kv : Z * Analysis.t => fst kv < n)
                    (MemStorage.analyses s)).
      { destruct W as [F _]. revert F. apply Forall_impl. now intros kv [B _]. }
      rewrite (set_append n _ _ B). rewrite set_append.
      - rewrite <- app_assoc. reflexivity.
      - apply Forall_app; split.
        + revert B. apply Forall_impl. intros kv L. lia.
        + constructor; [simpl; lia | constructor]. }
    destruct (createAnalysis_appends i s W) as (F & A & _ & _ & _).
    fold n in F, A.
    split.
    + intros I. destruct W as [B _]. rewrite Forall_forall in B.
      unfold JsMap.keys in I. apply in_map_iff in I as [kv [K I]].
      destruct (B _ I) as [L _]. fold n in L. lia.
    + split; [now rewrite F|]. split; [now rewrite F|].
      split.
      { intros k I. unfold MemStorage.getAnalysis. rewrite A.
        now apply get_app_in. }
      split; [|repeat split].
      unfold MemStorage.getAnalysis. apply get_set_same.
Qed.

Lemma placeholder_then_final_witness :
  is_placeholder
    (MemStorage.stored (MemStorage.currentAnalysisId oneDocumentStore)
       (initialAnalysis leaseDocument)).
Proof.
  assert (R : reachable oneDocumentStore)
    by (exists [CreateDocument (upload "lease.pdf" None)]; reflexivity).
  exact (proj1 (proj2 (proj2
           (placeholder_then_final oneDocumentStore leaseDocument
              (initialAnalysis leaseDocument) R)))).
Defined.

(* ================================================================== *)
(** * Further properties of the store, the analyzer and the routes      *)
(* ================================================================== *)

(** ** The map *)

Lemma get_set {V : Type} (k k' : Z) (v : V) (m : JsMap.t V) :
  JsMap.get k' (JsMap.set k v m)
  = if k' =? k then Some v else JsMap.get k' m.
Proof.
  induction m as [|[j x] m IH]; simpl.
  - reflexivity.
  - destruct (Z.eqb_spec k j) as [->|N]; simpl.
    + destruct (k' =? j); reflexivity.
    + rewrite IH. destruct (Z.eqb_spec k' j) as [->|N'].
      * destruct (Z.eqb_spec j k); [congruence | reflexivity].
      * reflexivity.
Qed.

Lemma set_set {V : Type} (k : Z) (v w : V) (m : JsMap.t V) :
  JsMap.set k w (JsMap.set k v m) = JsMap.set k w m.
Proof.
  induction m as [|[j x] m IH]; simpl.
  - now rewrite Z.eqb_refl.
  - destruct (k =? j) eqn:E; simpl; rewrite E; [reflexivity | now rewrite IH].
Qed.

Lemma set_swap {V : Type} (k j : Z) (v w : V) (m : JsMap.t V) :
  k <> j -> In k (JsMap.keys m) \/ In j (JsMap.keys m) ->
  JsMap.set k v (JsMap.set j w m) = JsMap.set j w (JsMap.set k v m).
Proof.
  intros N. unfold JsMap.keys.
  induction m as [|[i x] m IH]; simpl; [tauto|]. intros P.
  destruct (Z.eqb_spec j i) as [->|Nj]; destruct (Z.eqb_spec k i) as [->|Nk];
    simpl.
  - congruence.
  - rewrite Z.eqb_refl. destruct (Z.eqb_spec k i); [congruence | reflexivity].
  - rewrite Z.eqb_refl. destruct (Z.eqb_spec j i); [congruence | reflexivity].
  - destruct (Z.eqb_spec k i); [congruence|].
    destruct (Z.eqb_spec j i); [congruence|].
    rewrite IH; [reflexivity|].
    destruct P as [[E|P]|[E|P]]; try congruence; tauto.
Qed.

Lemma get_in_keys {V : Type} (k : Z) (m : JsMap.t V) :
  In k (JsMap.keys m) <-> exists v, JsMap.get k m = Some v.
Proof.
  unfold JsMap.keys. induction m as [|[j x] m IH]; simpl.
  - split; [tauto | intros [v E]; discriminate].
  - destruct (Z.eqb_spec k j) as [->|N].
    + split; [intros _; eauto | auto].
    + rewrite <- IH. split; [intros [E|I]; [congruence | exact I] | auto].
Qed.

Lemma set_present {V : Type} (k : Z) (v : V) (m : JsMap.t V) :
  In k (JsMap.keys m) ->
  JsMap.keys (JsMap.set k v m) = JsMap.keys m /\
  List.length (JsMap.set k v m) = List.length m.
Proof.
  unfold JsMap.keys. induction m as [|[j x] m IH]; simpl; [tauto|].
  intros P. destruct (Z.eqb_spec k j) as [->|N]; simpl; [auto|].
  destruct IH as [K L]; [destruct P; [congruence | assumption]|].
  now rewrite K, L.
Qed.

Lemma consecutive_below {V : Type} (m : JsMap.t V) (n : Z) :
  consecutive m n -> Forall (fun kv => 0 < fst kv < n) m.
Proof.
  intros [K ->]. apply Forall_forall. intros kv I.
  assert (J : In (fst kv) (JsMap.keys m)) by (now apply in_map).
  rewrite K in J. apply in_map_iff in J as [i [<- J]].
  apply in_seq in J. lia.
Qed.

Lemma consecutive_snoc {V : Type} (m : JsMap.t V) (n : Z) (v : V) :
  consecutive m n ->
  JsMap.set n v m = (m ++ [(n, v)])%list /\
  consecutive (JsMap.set n v m) (n + 1).
Proof.
  intros C.
  assert (E : JsMap.set n v m = (m ++ [(n, v)])%list).
  { apply set_append. generalize (consecutive_below m n C).
    apply Forall_impl. intros kv; lia. }
  split; [exact E|]. rewrite E. destruct C as [K ->].
  unfold consecutive, JsMap.keys in *.
  rewrite map_app, length_app, K. simpl.
  rewrite Nat.add_1_r, seq_S, map_app. simpl.
  split; [|lia]. do 3 f_equal. lia.
Qed.

Lemma consecutive_update {V : Type} (m : JsMap.t V) (n k : Z) (v : V) :
  In k (JsMap.keys m) -> consecutive m n -> consecutive (JsMap.set k v m) n.
Proof.
  intros I [K ->]. destruct (set_present k v m I) as [K' L'].
  unfold consecutive. now rewrite K', L'.
Qed.

Lemma consecutive_unique {V : Type} (m : JsMap.t V) (n k : Z) (v : V) :
  consecutive m n -> In (k, v) m -> JsMap.get k m = Some v.
Proof.
  intros [K _]. unfold JsMap.keys in K.
  assert (D : NoDup (map fst m)).
  { rewrite K. apply Finite.Injective_map_NoDup; [|apply seq_NoDup].
    intros a b. apply Nat2Z.inj. }
  clear K. induction m as [|[j x] m IH]; simpl; [tauto|].
  inversion D as [|? ? Nj D']; subst. intros [E|I].
  - inversion E; subst. now rewrite Z.eqb_refl.
  - destruct (Z.eqb_spec k j) as [->|N]; [|now apply IH].
    exfalso. apply Nj. change j with (fst (j, v)). now apply in_map.
Qed.

(** ** Ids of the store *)

Lemma ids_ok_new : ids_ok MemStorage.new.
Proof. repeat split; constructor. Qed.

Lemma createDocument_ids (i : InsertDocument.t) (s : MemStorage.t) :
  ids_ok s -> ids_ok (snd (MemStorage.createDocument i s)).
Proof.
  intros (D & A & FD & FA). unfold MemStorage.createDocument; simpl.
  destruct (consecutive_snoc _ _
              {| Document.id := MemStorage.currentDocumentId s;
                 Document.userId := InsertDocument.userId i;
                 Document.fileName := InsertDocument.fileName i;
                 Document.fileType := InsertDocument.fileType i;
                 Document.fileSize := InsertDocument.fileSize i;
                 Document.documentType := InsertDocument.documentType i;
                 Document.status := "pending";
                 Document.content := "" |} D) as [E C].
  split; [exact C|]. split; [exact A|]. split; [|exact FA].
  simpl. rewrite E. apply Forall_app; split; [exact FD|].
  constructor; [reflexivity | constructor].
Qed.

Lemma set_keeps_id (k : Z) (d : Document.t) (m : JsMap.t Document.t) :
  Document.id d = k ->
  Forall (fun kv => Document.id (snd kv) = fst kv) m ->
  Forall (fun kv => Document.id (snd kv) = fst kv) (JsMap.set k d m).
Proof.
  intros E. induction 1 as [|[j x] m P F IH]; simpl.
  - constructor; [exact E | constructor].
  - destruct (Z.eqb_spec k j) as [->|N]; constructor; auto.
Qed.

Lemma get_keeps_id (k : Z) (d : Document.t) (m : JsMap.t Document.t) :
  Forall (fun kv => Document.id (snd kv) = fst kv) m ->
  JsMap.get k m = Some d -> Document.id d = k.
Proof.
  induction 1 as [|[j x] m P F IH]; simpl; [discriminate|].
  destruct (Z.eqb_spec k j) as [->|N]; [|exact IH].
  now intros [= <-].
Qed.

Lemma get_keeps_analysis_id (k : Z) (a : Analysis.t)
  (m : JsMap.t Analysis.t) :
  Forall (fun kv => Analysis.id (snd kv) = fst kv) m ->
  JsMap.get k m = Some a -> Analysis.id a = k.
Proof.
  induction 1 as [|[j x] m P F IH]; simpl; [discriminate|].
  destruct (Z.eqb_spec k j) as [->|N]; [|exact IH].
  now intros [= <-].
Qed.

Lemma updateDocumentStatus_ids (id : Z) (st : string) (s : MemStorage.t) :
  ids_ok s -> ids_ok (snd (MemStorage.updateDocumentStatus id st s)).
Proof.
  intros (D & A & FD & FA). unfold MemStorage.updateDocumentStatus.
  destruct (MemStorage.getDocument id s) as [doc|] eqn:G;
    [|exact (conj D (conj A (conj FD FA)))].
  unfold MemStorage.getDocument in G.
  assert (I : In id (JsMap.keys (MemStorage.documents s)))
    by (apply get_in_keys; eauto).
  simpl. split; [now apply consecutive_update|]. split; [exact A|].
  split; [|exact FA]. simpl. apply set_keeps_id; [|exact FD].
  simpl. now apply (get_keeps_id _ _ _ FD).
Qed.

Lemma updateDocumentContent_ids (id : Z) (c : string) (s : MemStorage.t) :
  ids_ok s -> ids_ok (snd (MemStorage.updateDocumentContent id c s)).
Proof.
  intros (D & A & FD & FA). unfold MemStorage.updateDocumentContent.
  destruct (MemStorage.getDocument id s) as [doc|] eqn:G;
    [|exact (conj D (conj A (conj FD FA)))].
  unfold MemStorage.getDocument in G.
  assert (I : In id (JsMap.keys (MemStorage.documents s)))
    by (apply get_in_keys; eauto).
  simpl. split; [now apply consecutive_update|]. split; [exact A|].
  split; [|exact FA]. simpl. apply set_keeps_id; [|exact FD].
  simpl. now apply (get_keeps_id _ _ _ FD).
Qed.

Lemma createAnalysis_ids (i : InsertAnalysis.t) (s : MemStorage.t) :
  ids_ok s -> ids_ok (snd (MemStorage.createAnalysis i s)).
Proof.
  intros (D & A & FD & FA). unfold MemStorage.createAnalysis; simpl.
  destruct (consecutive_snoc _ _
              (MemStorage.stored (MemStorage.currentAnalysisId s) i) A)
    as [E C].
  split; [exact D|]. split; [exact C|]. split; [exact FD|].
  simpl. rewrite E. apply Forall_app; split; [exact FA|].
  constructor; [reflexivity | constructor].
Qed.

Lemma exec_ids (o : op) (s : MemStorage.t) : ids_ok s -> ids_ok (exec o s).
Proof.
  intros I. destruct o as [i|id st|id c|i|d]; cbn [exec].
  - now apply createDocument_ids.
  - now apply updateDocumentStatus_ids.
  - now apply updateDocumentContent_ids.
  - now apply createAnalysis_ids.
  - destruct (analyzeDocument_mem d s) as (res & _ & ->). cbn [snd].
    unfold afterAnalysis.
    now apply createAnalysis_ids, updateDocumentStatus_ids, createAnalysis_ids.
Qed.

Lemma run_ids (ops : list op) (s : MemStorage.t) :
  ids_ok s -> ids_ok (run ops s).
Proof.
  revert s. induction ops as [|o ops IH]; intros s I; cbn [run fold_left];
    [exact I|].
  apply IH. now apply exec_ids.
Qed.

(** X1. The ids of the store are handed out one by one from 1: in every
    state the server can reach, the documents sit under the keys 1, 2, ...
    in the order of their creation, and so do the analyses; each counter is
    the number of records plus one, and every record carries the key it is
    stored under as its id. *)
Theorem ids_are_consecutive (ops : list op) :
  let s := run ops MemStorage.new in
  JsMap.keys (MemStorage.documents s)
  = map Z.of_nat (seq 1 (List.length (MemStorage.documents s))) /\
  MemStorage.currentDocumentId s
  = Z.of_nat (List.length (MemStorage.documents s)) + 1 /\
  JsMap.keys (MemStorage.analyses s)
  = map Z.of_nat (seq 1 (List.length (MemStorage.analyses s))) /\
  MemStorage.currentAnalysisId s
  = Z.of_nat (List.length (MemStorage.analyses s)) + 1 /\
  (forall k d, MemStorage.getDocument k s = Some d -> Document.id d = k) /\
  (forall k a, MemStorage.getAnalysis k s = Some a -> Analysis.id a = k).
Proof.
  intros s. destruct (run_ids ops MemStorage.new ids_ok_new)
    as ([KD CD] & [KA CA] & FD & FA). fold s in KD, CD, KA, CA, FD, FA.
  repeat split; try assumption.
  - intros k d G. now apply (get_keeps_id _ _ _ FD).
  - intros k a G. now apply (get_keeps_analysis_id _ _ _ FA).
Qed.

Lemma get_fresh {V : Type} (m : JsMap.t V) (n : Z) :
  consecutive m n -> JsMap.get n m = None.
Proof.
  intros C. destruct (JsMap.get n m) as [v|] eqn:G; [|reflexivity].
  assert (I : In n (JsMap.keys m)) by (apply get_in_keys; eauto).
  unfold JsMap.keys in I. apply in_map_iff in I as [kv [E I]].
  pose proof (consecutive_below m n C) as B. rewrite Forall_forall in B.
  specialize (B kv I). lia.
Qed.

(** X2. [createDocument] followed by [getDocument] gives the document back:
    in every reachable state the new id was not in use, the new document is
    found under it with the status [pending] and an empty content, it comes
    last in the map, and every other id still finds what it found before. *)
Theorem createDocument_getDocument (ops : list op) (i : InsertDocument.t) :
  let s := run ops MemStorage.new in
  let document := fst (MemStorage.createDocument i s) in
  let s' := snd (MemStorage.createDocument i s) in
  MemStorage.getDocument (Document.id document) s = None /\
  MemStorage.getDocument (Document.id document) s' = Some document /\
  (forall k, k <> Document.id document ->
             MemStorage.getDocument k s' = MemStorage.getDocument k s) /\
  JsMap.values (MemStorage.documents s')
  = (JsMap.values (MemStorage.documents s) ++ [document])%list /\
  Document.status document = "pending" /\
  Document.content document = "" /\
  Document.userId document = InsertDocument.userId i /\
  Document.fileName document = InsertDocument.fileName i /\
  Document.documentType document = InsertDocument.documentType i /\
  MemStorage.analyses s' = MemStorage.analyses s /\
  Document.fileType document = InsertDocument.fileType i /\
  Document.fileSize document = InsertDocument.fileSize i /\
  Document.id document = MemStorage.currentDocumentId s /\
  MemStorage.currentDocumentId s' = MemStorage.currentDocumentId s + 1 /\
  MemStorage.currentAnalysisId s' = MemStorage.currentAnalysisId s.
Proof.
  intros s document s'.
  destruct (run_ids ops MemStorage.new ids_ok_new) as (D & _). fold s in D.
  split; [apply (get_fresh _ _ D)|].
  split; [unfold MemStorage.getDocument; apply get_set_same|].
  split.
  { intros k N. unfold MemStorage.getDocument. subst s'. simpl.
    rewrite get_set. destruct (Z.eqb_spec k (MemStorage.currentDocumentId s));
      [contradiction | reflexivity]. }
  split; [|repeat split].
  subst s'. simpl. destruct (consecutive_snoc _ _ document D) as [E _].
  unfold JsMap.values. subst document. simpl in *. rewrite E, map_app.
  reflexivity.
Qed.

(** X3. [updateDocumentStatus] on an id that is not in the store returns
    nothing and leaves the store as it is; on an id that is in the store it
    returns the document with the new status and nothing else changed,
    stores it in the place of the old one, and touches no other document,
    no analysis and no counter. *)
Theorem updateDocumentStatus_effect (id : Z) (status : string)
  (s : MemStorage.t) :
  (MemStorage.getDocument id s = None ->
   MemStorage.updateDocumentStatus id status s = (None, s)) /\
  (forall document, MemStorage.getDocument id s = Some document ->
     exists updated s',
       MemStorage.updateDocumentStatus id status s = (Some updated, s') /\
       Document.status updated = status /\
       same_but_status updated document /\
       MemStorage.getDocument id s' = Some updated /\
       (forall k, k <> id ->
                  MemStorage.getDocument k s' = MemStorage.getDocument k s) /\
       JsMap.keys (MemStorage.documents s')
       = JsMap.keys (MemStorage.documents s) /\
       MemStorage.analyses s' = MemStorage.analyses s /\
       MemStorage.currentDocumentId s' = MemStorage.currentDocumentId s /\
       MemStorage.currentAnalysisId s' = MemStorage.currentAnalysisId s).
Proof.
  unfold MemStorage.updateDocumentStatus. split.
  - now intros ->.
  - intros document G. rewrite G. eexists; eexists.
    split; [reflexivity|]. split; [reflexivity|].
    split; [repeat split|].
    split; [unfold MemStorage.getDocument; simpl; apply get_set_same|].
    split.
    { intros k N. unfold MemStorage.getDocument. simpl. rewrite get_set.
      destruct (Z.eqb_spec k id); [contradiction | reflexivity]. }
    split; [|repeat split].
    simpl. apply set_present. apply get_in_keys. eauto.
Qed.

Lemma updateDocumentStatus_effect_witness :
  exists updated s',
    MemStorage.updateDocumentStatus 1 "valid" oneDocumentStore
    = (Some updated, s') /\
    Document.status updated = "valid".
Proof.
  destruct (proj2 (updateDocumentStatus_effect 1 "valid" oneDocumentStore)
              leaseDocument eq_refl)
    as (updated & s' & E & S & _).
  exists updated, s'. split; assumption.
Defined.

(** X4. A status update and a content update commute, on the same document
    or on two different ones, present or not: both orders leave the same
    store, in which a document that was updated twice has the new status and
    the new content. *)
Theorem status_and_content_commute (id1 id2 : Z) (status content : string)
  (s : MemStorage.t) :
  snd (MemStorage.updateDocumentContent id2 content
         (snd (MemStorage.updateDocumentStatus id1 status s)))
  = snd (MemStorage.updateDocumentStatus id1 status
           (snd (MemStorage.updateDocumentContent id2 content s)))
  /\
  (forall document, MemStorage.getDocument id1 s = Some document ->
     exists updated,
       MemStorage.getDocument id1
         (snd (MemStorage.updateDocumentContent id1 content
                 (snd (MemStorage.updateDocumentStatus id1 status s))))
       = Some updated /\
       Document.status updated = status /\
       Document.content updated = content /\
       Document.fileName updated = Document.fileName document).
Proof.
  split.
  - unfold MemStorage.updateDocumentContent, MemStorage.updateDocumentStatus.
    destruct (MemStorage.getDocument id1 s) as [d1|] eqn:G1;
      destruct (MemStorage.getDocument id2 s) as [d2|] eqn:G2;
      cbn [snd]; unfold MemStorage.getDocument in *;
      cbn [MemStorage.documents MemStorage.with_documents];
      rewrite ?get_set, ?G1, ?G2.
    + destruct (Z.eqb_spec id2 id1) as [->|N].
      * rewrite Z.eqb_refl. cbn [snd].
        unfold MemStorage.with_documents; cbn.
        rewrite !set_set. rewrite G1 in G2. injection G2 as <-. reflexivity.
      * destruct (Z.eqb_spec id1 id2); [congruence|].
        cbn [snd]. unfold MemStorage.with_documents; cbn.
        f_equal. apply set_swap; [exact N|].
        left. apply get_in_keys. eauto.
    + destruct (Z.eqb_spec id2 id1) as [->|N]; [congruence|].
      rewrite ?G2. reflexivity.
    + destruct (Z.eqb_spec id1 id2) as [->|N]; [congruence|].
      rewrite ?G1. reflexivity.
    + reflexivity.
  - intros document G.
    unfold MemStorage.updateDocumentContent, MemStorage.updateDocumentStatus.
    rewrite G. cbn [snd]. unfold MemStorage.getDocument in *.
    cbn [MemStorage.documents MemStorage.with_documents].
    rewrite get_set_same. cbn [snd MemStorage.documents MemStorage.with_documents].
    eexists. split; [apply get_set_same|]. repeat split.
Qed.

Lemma status_and_content_commute_witness :
  exists updated,
    MemStorage.getDocument 1
      (snd (MemStorage.updateDocumentContent 1 "JVBERi0="
              (snd (MemStorage.updateDocumentStatus 1 "valid" oneDocumentStore))))
    = Some updated /\
    Document.status updated = "valid" /\
    Document.content updated = "JVBERi0=".
Proof.
  destruct (proj2 (status_and_content_commute 1 1 "valid" "JVBERi0="
                     oneDocumentStore) leaseDocument eq_refl)
    as (updated & G & S & C & _).
  exists updated. repeat split; assumption.
Defined.

(** X5. Every analysis of a reachable store is found under its own id, and
    the lookup by document id finds nothing exactly when no stored analysis
    belongs to the document; what it finds is a stored analysis of that
    document. *)
Theorem analyses_are_retrievable (ops : list op) :
  let s := run ops MemStorage.new in
  (forall a, In a (JsMap.values (MemStorage.analyses s)) ->
             MemStorage.getAnalysis (Analysis.id a) s = Some a) /\
  (forall documentId,
     MemStorage.getAnalysisByDocumentId documentId s = None <->
     (forall a, In a (JsMap.values (MemStorage.analyses s)) ->
                Analysis.documentId a <> documentId)) /\
  (forall documentId a,
     MemStorage.getAnalysisByDocumentId documentId s = Some a ->
     Analysis.documentId a = documentId /\
     MemStorage.getAnalysis (Analysis.id a) s = Some a).
Proof.
  intros s.
  destruct (run_ids ops MemStorage.new ids_ok_new) as (_ & A & _ & FA).
  fold s in A, FA.
  assert (R : forall a, In a (JsMap.values (MemStorage.analyses s)) ->
                        MemStorage.getAnalysis (Analysis.id a) s = Some a).
  { intros a I. unfold JsMap.values in I.
    apply in_map_iff in I as [[k x] [<- I]].
    rewrite Forall_forall in FA. pose proof (FA _ I) as E. simpl in *.
    rewrite E. apply (consecutive_unique _ _ _ _ A I). }
  split; [exact R|]. split.
  - intros documentId. unfold MemStorage.getAnalysisByDocumentId. split.
    + intros N a I E.
      apply (find_none _ _ N) in I. apply Z.eqb_neq in I. contradiction.
    + intros N.
      destruct (find _ _) as [a|] eqn:F; [|reflexivity].
      apply find_some in F as [I E]. apply Z.eqb_eq in E.
      now elim (N a I).
  - intros documentId a F. unfold MemStorage.getAnalysisByDocumentId in F.
    apply find_some in F as [I E]. apply Z.eqb_eq in E. auto.
Qed.

(** ** The users *)

Lemma register_consecutive (inserts : list InsertUser.t) (s : UserStore.t) :
  consecutive (UserStore.users s) (UserStore.currentUserId s) ->
  consecutive (UserStore.users (UserStore.register inserts s))
    (UserStore.currentUserId (UserStore.register inserts s)) /\
  List.length (UserStore.users (UserStore.register inserts s))
  = (List.length (UserStore.users s) + List.length inserts)%nat.
Proof.
  revert s. induction inserts as [|i inserts IH]; intros s C;
    cbn [UserStore.register fold_left].
  - split; [exact C | now rewrite Nat.add_0_r].
  - destruct (consecutive_snoc _ _ (fst (UserStore.createUser i s)) C)
      as [E C'].
    destruct (IH (snd (UserStore.createUser i s)) C') as [C'' L].
    split; [exact C''|].
    unfold UserStore.register in L. rewrite L.
    cbn [UserStore.createUser snd UserStore.users fst] in *.
    rewrite E, length_app. simpl. lia.
Qed.

Lemma registered_consecutive (inserts : list InsertUser.t) :
  consecutive (UserStore.users (UserStore.register inserts UserStore.new))
    (UserStore.currentUserId (UserStore.register inserts UserStore.new)).
Proof. apply register_consecutive. split; reflexivity. Qed.

Lemma registered_ids (inserts : list InsertUser.t) :
  Forall (fun kv => User.id (snd kv) = fst kv)
    (UserStore.users (UserStore.register inserts UserStore.new)).
Proof.
  induction inserts as [|j inserts IH] using rev_ind.
  - constructor.
  - pose proof (registered_consecutive inserts) as C.
    unfold UserStore.register in *. rewrite fold_left_app.
    cbn [fold_left UserStore.createUser snd UserStore.users].
    rewrite (proj1 (consecutive_snoc _ _ _ C)).
    apply Forall_app; split; [exact IH|].
    constructor; [reflexivity | constructor].
Qed.

(** X6. [createUser] followed by [getUser] gives the user back: after any
    sequence of registrations, the next user gets the id that follows their
    number, an id that was free; the user is found under it with the fields
    that were given, and every other id finds what it found before. *)
Theorem createUser_getUser (inserts : list InsertUser.t) (i : InsertUser.t) :
  let s := UserStore.register inserts UserStore.new in
  let user := fst (UserStore.createUser i s) in
  let s' := snd (UserStore.createUser i s) in
  User.id user = Z.of_nat (List.length inserts) + 1 /\
  UserStore.getUser (User.id user) s = None /\
  UserStore.getUser (User.id user) s' = Some user /\
  (forall k, k <> User.id user ->
             UserStore.getUser k s' = UserStore.getUser k s) /\
  User.username user = InsertUser.username i /\
  User.password user = InsertUser.password i /\
  User.name user = InsertUser.name i /\
  User.email user = InsertUser.email i.
Proof.
  intros s user s'.
  pose proof (registered_consecutive inserts) as C. fold s in C.
  destruct (register_consecutive inserts UserStore.new) as [_ L];
    [split; reflexivity|]. fold s in L. simpl in L.
  split.
  { destruct C as [_ C]. subst user. simpl. rewrite C, L. reflexivity. }
  split; [apply (get_fresh _ _ C)|].
  split; [unfold UserStore.getUser; apply get_set_same|].
  split; [|repeat split].
  intros k N. unfold UserStore.getUser. subst s'. simpl. rewrite get_set.
  destruct (Z.eqb_spec k (UserStore.currentUserId s));
    [contradiction | reflexivity].
Qed.

(** X7. [getUserByUsername] returns the first user registered under the
    name.  [createUser] does not look at the names in use: a registration
    under a name that is taken is stored under a new id, and the lookup by
    name keeps returning the first holder; under a free name, the lookup
    returns the new user. *)
Theorem getUserByUsername_first (inserts : list InsertUser.t)
  (i : InsertUser.t) (username : string) :
  let s := UserStore.register inserts UserStore.new in
  let user := fst (UserStore.createUser i s) in
  let s' := snd (UserStore.createUser i s) in
  UserStore.getUserByUsername username s' =
    match UserStore.getUserByUsername username s with
    | Some holder => Some holder
    | None =>
        if String.eqb (InsertUser.username i) username then Some user else None
    end /\
  (forall holder,
     UserStore.getUserByUsername (InsertUser.username i) s = Some holder ->
     UserStore.getUserByUsername (InsertUser.username i) s' = Some holder /\
     User.username holder = User.username user /\
     User.id holder <> User.id user /\
     UserStore.getUser (User.id user) s' = Some user).
Proof.
  intros s user s'.
  pose proof (registered_consecutive inserts) as C. fold s in C.
  assert (E : UserStore.users s' = (UserStore.users s ++ [(User.id user, user)])%list).
  { subst s' user. simpl. apply consecutive_snoc. exact C. }
  assert (F : forall name,
             UserStore.getUserByUsername name s' =
               match UserStore.getUserByUsername name s with
               | Some holder => Some holder
               | None =>
                   if String.eqb (InsertUser.username i) name
                   then Some user else None
               end).
  { intros name. unfold UserStore.getUserByUsername, JsMap.values.
    rewrite E, map_app.
    induction (map snd (UserStore.users s)) as [|u l IH]; simpl.
    - reflexivity.
    - destruct (String.eqb (User.username u) name); [reflexivity | exact IH]. }
  split; [apply F|].
  intros holder G. rewrite F, G. split; [reflexivity|].
  unfold UserStore.getUserByUsername in G. apply find_some in G as [I N].
  apply String.eqb_eq in N. split; [exact N|].
  split.
  - unfold JsMap.values in I. apply in_map_iff in I as [[k x] [<- I]].
    pose proof (consecutive_below _ _ C) as B. rewrite Forall_forall in B.
    specialize (B _ I). simpl in B.
    pose proof (registered_ids inserts) as P. fold s in P.
    rewrite Forall_forall in P. pose proof (P _ I) as Ix. simpl in Ix.
    subst user. simpl. lia.
  - unfold UserStore.getUser. apply get_set_same.
Qed.

Lemma getUserByUsername_first_witness :
  let taken :=
    {| InsertUser.username := "asha"; InsertUser.password := "first";
       InsertUser.name := None; InsertUser.email := None |} in
  let again :=
    {| InsertUser.username := "asha"; InsertUser.password := "second";
       InsertUser.name := None; InsertUser.email := None |} in
  option_map User.password
    (UserStore.getUserByUsername "asha"
       (snd (UserStore.createUser again
               (UserStore.register [taken] UserStore.new))))
  = Some "first".
Proof.
  cbv zeta.
  destruct (proj2 (getUserByUsername_first
                     [{| InsertUser.username := "asha";
                         InsertUser.password := "first";
                         InsertUser.name := None; InsertUser.email := None |}]
                     {| InsertUser.username := "asha";
                        InsertUser.password := "second";
                        InsertUser.name := None; InsertUser.email := None |}
                     "asha")
              (fst (UserStore.createUser
                      {| InsertUser.username := "asha";
                         InsertUser.password := "first";
                         InsertUser.name := None; InsertUser.email := None |}
                      UserStore.new)) eq_refl) as [G _].
  cbn [InsertUser.username] in G. rewrite G. reflexivity.
Defined.

(** ** The analyzer *)

Lemma updateDocumentStatus_get (id : Z) (st : string) (s : MemStorage.t) :
  (forall doc, MemStorage.getDocument id s = Some doc ->
     exists doc',
       MemStorage.getDocument id (snd (MemStorage.updateDocumentStatus id st s))
       = Some doc' /\
       Document.status doc' = st /\ same_but_status doc' doc) /\
  (MemStorage.getDocument id s = None ->
   snd (MemStorage.updateDocumentStatus id st s) = s) /\
  (forall k, k <> id ->
     MemStorage.getDocument k (snd (MemStorage.updateDocumentStatus id st s))
     = MemStorage.getDocument k s) /\
  MemStorage.currentDocumentId (snd (MemStorage.updateDocumentStatus id st s))
  = MemStorage.currentDocumentId s.
Proof.
  unfold MemStorage.updateDocumentStatus.
  destruct (MemStorage.getDocument id s) as [doc|] eqn:G.
  - split; [|split; [discriminate | split; [|reflexivity]]].
    + intros ? [= <-]. eexists. split.
      * unfold MemStorage.getDocument; simpl. apply get_set_same.
      * repeat split.
    + intros k N. unfold MemStorage.getDocument; simpl. rewrite get_set.
      destruct (Z.eqb_spec k id); [contradiction | reflexivity].
  - repeat split; try reflexivity. discriminate.
Qed.

(** X8. On the in-memory store [analyzeDocument] always returns a report
    whose validity is set, and writes the matching status on the stored
    document of that id: [valid] for a valid report, [invalid] otherwise,
    with nothing else of the document changed.  When no document of that id
    is stored, no document changes and the report is returned all the same;
    in both cases every other document stays as it was. *)
Theorem analyzeDocument_sets_status (d : Document.t) (s : MemStorage.t) :
  exists report s',
    analyzeDocument d s = (Returns report, s') /\
    Analysis.documentId report = Document.id d /\
    (Analysis.isValid report = Some true \/
     Analysis.isValid report = Some false) /\
    (Analysis.isValid report = Some true <->
     Analysis.complianceStatus report = "compliant") /\
    (forall stored, MemStorage.getDocument (Document.id d) s = Some stored ->
       exists updated,
         MemStorage.getDocument (Document.id d) s' = Some updated /\
         Document.status updated = statusOf report /\
         same_but_status updated stored) /\
    (MemStorage.getDocument (Document.id d) s = None ->
     MemStorage.documents s' = MemStorage.documents s) /\
    (forall k, k <> Document.id d ->
               MemStorage.getDocument k s' = MemStorage.getDocument k s) /\
    MemStorage.currentDocumentId s' = MemStorage.currentDocumentId s.
Proof.
  destruct (analyzeDocument_mem d s) as (res & E & R).
  destruct (assemble_returns
              (simulateLegalAnalysis (extractTextFromDocument d)
                 (Document.documentType d))) as (res' & E' & V & C & _).
  change (propertyTreatment _) with (analysisResultsOf d) in E'.
  rewrite E in E'. injection E' as <-.
  eexists; eexists. split; [exact R|]. split; [reflexivity|].
  set (st := if Results.isValid res then "valid" else "invalid").
  set (s1 := snd (MemStorage.createAnalysis (initialAnalysis d) s)).
  destruct (updateDocumentStatus_get (Document.id d) st s1)
    as (Hsome & Hnone & Hother & Hcount).
  split; [|split; [|split; [|split; [|split]]]].
  - cbn. destruct (Results.isValid res); auto.
  - cbn [MemStorage.stored Analysis.isValid Analysis.complianceStatus
           updatedAnalysis InsertAnalysis.isValid
           InsertAnalysis.complianceStatus].
    rewrite C, V.
    change (Results.complianceStatus
              (simulateLegalAnalysis (extractTextFromDocument d)
                 (Document.documentType d)))
      with (if Results.isValid
                 (simulateLegalAnalysis (extractTextFromDocument d)
                    (Document.documentType d))
            then "compliant" else "non-compliant").
    generalize (Results.isValid
                  (simulateLegalAnalysis (extractTextFromDocument d)
                     (Document.documentType d))).
    intros [|]; split; intros H; try reflexivity; discriminate H.
  - intros stored G. destruct (Hsome stored G) as (updated & G' & S & B).
    exists updated. split; [exact G'|]. split; [|exact B].
    rewrite S. unfold statusOf, st. cbn. destruct (Results.isValid res);
      reflexivity.
  - intros G.
    change (MemStorage.documents
              (snd (MemStorage.updateDocumentStatus (Document.id d) st s1))
            = MemStorage.documents s).
    now rewrite (Hnone G).
  - intros k N. exact (Hother k N).
  - exact Hcount.
Qed.

Lemma analyzeDocument_sets_status_witness :
  exists report s' updated,
    analyzeDocument leaseDocument oneDocumentStore = (Returns report, s') /\
    MemStorage.getDocument 1 s' = Some updated /\
    Document.status updated = statusOf report.
Proof.
  destruct (analyzeDocument_sets_status leaseDocument oneDocumentStore)
    as (report & s' & E & _ & _ & _ & S & _).
  destruct (S leaseDocument eq_refl) as (updated & G & St & _).
  exists report, s', updated. repeat split; assumption.
Defined.

Lemma branchOf_known (l : string) :
  (branchOf l = BElse <-> ~ In l knownLabels) /\
  (fst (fst (contentOf (branchOf l))) = [] <-> branchOf l <> BElse) /\
  (fst (fst (contentOf (branchOf l))) = [] \/
   fst (fst (contentOf (branchOf l)))
   = ["Document type cannot be determined"; "Missing standard legal clauses"]) /\
  snd (fst (contentOf (branchOf l))) <> [] /\
  (3 <= List.length (snd (contentOf (branchOf l))) <= 5)%nat.
Proof.
  unfold branchOf, knownLabels.
  destruct (String.eqb_spec l "Agreement");
    [|destruct (String.eqb_spec l "Deed");
      [|destruct (String.eqb_spec l "Invoice");
        [|destruct (String.eqb_spec l "Bond Paper");
          [|destruct (String.eqb_spec l "Sale Deed");
            [|destruct (String.eqb_spec l "Property Document")]]]]];
    simpl;
    (split; [split; [try discriminate; intros _; intuition congruence
                    | intros N; try reflexivity; exfalso; apply N; auto 10]|]);
    (split; [split; [intros H; try discriminate; try discriminate H
                    | intros N; try reflexivity; now elim N]|]);
    (split; [auto|]); (split; [discriminate | lia]).
Qed.

(** X9. The classifier reports issues exactly when the label has no branch
    of its own in the content table, and then always the same two; every
    result has a warning and three to five recommendations.  When the
    declared type is absent, empty or one of the seven labels, a result is
    valid exactly when it has no issue; for another declared type that no
    rule overwrites, the result is valid and has the two issues. *)
Theorem issues_of_the_label (text : string) (documentType : option string) :
  let r := simulateLegalAnalysis text documentType in
  (Results.issues r = [] <-> In (Results.documentType r) knownLabels) /\
  (Results.issues r = [] \/
   Results.issues r
   = ["Document type cannot be determined"; "Missing standard legal clauses"]) /\
  Results.warnings r <> [] /\
  (3 <= List.length (Results.recommendations r) <= 5)%nat /\
  (In (initialType documentType) documentTypes ->
   (Results.isValid r = true <-> Results.issues r = [])) /\
  (~ In (Results.documentType r) documentTypes ->
   Results.isValid r = true /\ Results.issues r <> []).
Proof.
  cbv zeta.
  change (Results.issues (simulateLegalAnalysis text documentType))
    with (fst (fst (contentOf (branchOf (resolveType text documentType))))).
  change (Results.warnings (simulateLegalAnalysis text documentType))
    with (snd (fst (contentOf (branchOf (resolveType text documentType))))).
  change (Results.recommendations (simulateLegalAnalysis text documentType))
    with (snd (contentOf (branchOf (resolveType text documentType)))).
  change (Results.documentType (simulateLegalAnalysis text documentType))
    with (resolveType text documentType).
  rewrite isValid_eq.
  destruct (branchOf_known (resolveType text documentType))
    as (K & I & T & W & R).
  assert (IK : fst (fst (contentOf (branchOf (resolveType text documentType))))
               = [] <-> In (resolveType text documentType) knownLabels).
  { rewrite I. split.
    - intros N. destruct (in_dec string_dec (resolveType text documentType)
                            knownLabels) as [Y|Y]; [exact Y|].
      apply K in Y. contradiction.
    - intros Y B. apply K in B. contradiction. }
  split; [exact IK|]. split; [exact T|]. split; [exact W|]. split; [exact R|].
  split.
  - intros Init. rewrite IK.
    assert (L : In (resolveType text documentType) documentTypes).
    { rewrite resolveType_cases; cbv zeta.
      destruct (property_rule _ _); [simpl; tauto|].
      destruct (sale_rule _ _); [simpl; tauto|].
      destruct (bond_rule _ _); [simpl; tauto | exact Init]. }
    destruct (String.eqb_spec (resolveType text documentType) "Unknown")
      as [E|N]; simpl.
    + split; [discriminate|]. rewrite E. simpl.
      intros H. repeat (destruct H as [H|H]; [discriminate H|]). contradiction.
    + split; [intros _ | reflexivity].
      simpl in L. unfold knownLabels. simpl.
      destruct L as [L|[L|[L|[L|[L|[L|[L|L]]]]]]]; try tauto.
      now elim N.
  - intros N. split.
    + destruct (String.eqb_spec (resolveType text documentType) "Unknown")
        as [E|_]; [|reflexivity].
      exfalso. apply N. rewrite E. simpl. tauto.
    + rewrite IK. intros Y. apply N. unfold knownLabels in Y. simpl in *.
      tauto.
Qed.

Lemma issues_of_the_label_witness :
  Results.isValid (simulateLegalAnalysis "Minutes of the meeting" (Some "Memo"))
  = true /\
  Results.issues (simulateLegalAnalysis "Minutes of the meeting" (Some "Memo"))
  <> [].
Proof.
  apply (proj2 (proj2 (proj2 (proj2 (proj2
           (issues_of_the_label "Minutes of the meeting" (Some "Memo"))))))).
  change (Results.documentType
            (simulateLegalAnalysis "Minutes of the meeting" (Some "Memo")))
    with "Memo".
  simpl. intros H.
  repeat (destruct H as [H|H]; [discriminate H|]). exact H.
Defined.

(** ** The text made for a document *)

Lemma append_assoc (a b c : string) : (a ++ b) ++ c = a ++ b ++ c.
Proof. induction a as [|x a IH]; simpl; [reflexivity | now rewrite IH]. Qed.

Lemma includes_inside (a s b kw : string) :
  Str.includes s kw = true -> Str.includes (a ++ s ++ b) kw = true.
Proof.
  intros H. apply includes_app in H as (pre & post & ->).
  apply includes_app. exists (a ++ pre), (post ++ b).
  rewrite !append_assoc. reflexivity.
Qed.

Lemma property_text_inside (a s b : string) :
  property_text s = true -> property_text (a ++ s ++ b) = true.
Proof.
  unfold property_text. intros H.
  repeat (apply Bool.orb_true_iff in H as [H|H]);
    rewrite (includes_inside a s b _ H);
    rewrite ?Bool.orb_true_r; reflexivity.
Qed.

(** The lowered text holds the lowered file name and the lowered declared
    type. *)
Lemma text_holds_name_and_type (d : Document.t) :
  (exists a b,
     Str.toLowerCase (extractTextFromDocument d)
     = a ++ Str.toLowerCase (Document.fileName d) ++ b) /\
  (forall t, Document.documentType d = Some t ->
     exists a b,
       Str.toLowerCase (extractTextFromDocument d)
       = a ++ Str.toLowerCase t ++ b).
Proof.
  unfold extractTextFromDocument. split.
  - rewrite (toLowerCase_app "Sample text for document "),
      (toLowerCase_app (Document.fileName d)).
    eexists; eexists; reflexivity.
  - intros t ->.
    rewrite (toLowerCase_app "Sample text for document "),
      (toLowerCase_app (Document.fileName d)),
      (toLowerCase_app " of type "), (toLowerCase_app t).
    exists (Str.toLowerCase "Sample text for document " ++
            Str.toLowerCase (Document.fileName d) ++
            Str.toLowerCase " of type ").
    eexists. rewrite !append_assoc. reflexivity.
Qed.

(** X10. The file name is part of the text that is classified: when the
    file name of a document holds, in any case, one of the nine property
    words, the result is a valid Property Document whatever the declared
    type, and on the in-memory store [analyzeDocument] returns a compliant
    report without issues. *)
Theorem property_word_in_file_name (d : Document.t) (s : MemStorage.t) :
  property_text (Str.toLowerCase (Document.fileName d)) = true ->
  exists res report s',
    analysisResultsOf d = Returns res /\
    Results.documentType res = "Property Document" /\
    Results.isValid res = true /\
    analyzeDocument d s = (Returns report, s') /\
    Analysis.isValid report = Some true /\
    Analysis.complianceStatus report = "compliant" /\
    Analysis.issuesCount report = 0.
Proof.
  intros P.
  destruct (text_holds_name_and_type d) as [(a & b & T) _].
  set (sim := simulateLegalAnalysis (extractTextFromDocument d)
                (Document.documentType d)).
  assert (L : Results.documentType sim = "Property Document").
  { change (Results.documentType sim)
      with (resolveType (extractTextFromDocument d) (Document.documentType d)).
    rewrite resolveType_cases; cbv zeta. rewrite T.
    unfold property_rule. now rewrite (property_text_inside a _ b P). }
  assert (V : Results.isValid sim = true).
  { unfold sim. rewrite isValid_eq.
    change (resolveType _ _) with (Results.documentType sim). now rewrite L. }
  destruct (analyzeDocument_mem d s) as (res & E & R).
  destruct (assemble_returns sim) as (res' & E' & V' & C' & I' & T' & _).
  change (propertyTreatment _) with (analysisResultsOf d) in E'.
  rewrite E in E'. injection E' as <-.
  exists res. eexists; eexists.
  split; [exact E|]. split; [now rewrite T'|]. split; [now rewrite V'|].
  split; [exact R|].
  cbn [MemStorage.stored Analysis.isValid Analysis.complianceStatus
         Analysis.issuesCount updatedAnalysis InsertAnalysis.isValid
         InsertAnalysis.complianceStatus InsertAnalysis.issuesCount].
  rewrite V', V, C', I'.
  change (Results.complianceStatus sim)
    with (if Results.isValid sim then "compliant" else "non-compliant").
  rewrite V.
  change (Results.issues sim)
    with (fst (fst (contentOf (branchOf (Results.documentType sim))))).
  rewrite L. repeat split.
Qed.

Lemma property_word_in_file_name_witness :
  exists res,
    analysisResultsOf houseDeedDocument = Returns res /\
    Results.documentType res = "Property Document".
Proof.
  destruct (property_word_in_file_name houseDeedDocument MemStorage.new
              eq_refl) as (res & _ & _ & E & T & _).
  exists res. split; assumption.
Defined.

(** X11. The declared type is part of the text that is classified: a
    document whose declared type holds, in any case, [bond] or
    [stamp paper] has a text that fires the bond rule, so its label is one
    of the three the rules write and never the declared type as it stands;
    it is Bond Paper when neither later rule matches. *)
Theorem bond_type_in_the_text (d : Document.t) (t : string) :
  Document.documentType d = Some t ->
  Str.includes (Str.toLowerCase t) "bond" = true \/
  Str.includes (Str.toLowerCase t) "stamp paper" = true ->
  let textLower := Str.toLowerCase (extractTextFromDocument d) in
  let docTypeLower := Str.toLowerCase (initialType (Some t)) in
  bond_text textLower = true /\
  exists res,
    analysisResultsOf d = Returns res /\
    Results.isValid res = true /\
    (Results.documentType res = "Bond Paper" \/
     Results.documentType res = "Sale Deed" \/
     Results.documentType res = "Property Document") /\
    (sale_rule textLower docTypeLower = false ->
     property_rule textLower docTypeLower = false ->
     Results.documentType res = "Bond Paper").
Proof.
  intros T K textLower docTypeLower.
  destruct (text_holds_name_and_type d) as [_ H].
  destruct (H t T) as (a & b & X). fold textLower in X.
  assert (B : bond_text textLower = true).
  { unfold bond_text. rewrite X.
    destruct K as [K|K]; rewrite (includes_inside a _ b _ K);
      rewrite ?Bool.orb_true_r; reflexivity. }
  split; [exact B|].
  set (sim := simulateLegalAnalysis (extractTextFromDocument d)
                (Document.documentType d)).
  destruct (assemble_returns sim) as (res & E & V & _ & _ & TY & _).
  exists res. split; [exact E|].
  assert (L : Results.documentType sim =
              if property_rule textLower docTypeLower then "Property Document"
              else if sale_rule textLower docTypeLower then "Sale Deed"
              else "Bond Paper").
  { change (Results.documentType sim)
      with (resolveType (extractTextFromDocument d) (Document.documentType d)).
    rewrite resolveType_cases; cbv zeta. rewrite T.
    fold textLower docTypeLower. unfold bond_rule. rewrite B. reflexivity. }
  split.
  - rewrite V. unfold sim. rewrite isValid_eq.
    change (resolveType _ _) with (Results.documentType sim). rewrite L.
    destruct (property_rule _ _); [reflexivity|].
    destruct (sale_rule _ _); reflexivity.
  - rewrite TY, L. split.
    + destruct (property_rule _ _); [tauto|].
      destruct (sale_rule _ _); tauto.
    + intros -> ->. reflexivity.
Qed.

Lemma bond_type_in_the_text_witness :
  exists res,
    analysisResultsOf
      (fst (MemStorage.createDocument (upload "scan.pdf" (Some "Stamp Paper"))
              MemStorage.new))
    = Returns res /\
    Results.documentType res = "Bond Paper".
Proof.
  destruct (bond_type_in_the_text
              (fst (MemStorage.createDocument
                      (upload "scan.pdf" (Some "Stamp Paper")) MemStorage.new))
              "Stamp Paper" eq_refl (or_intror eq_refl))
    as (_ & res & E & _ & _ & B).
  exists res. split; [exact E|]. apply B; vm_compute; reflexivity.
Defined.

(** X12. The result of every document carries exactly one of the two shapes
    of compliance details, chosen by its validity: a valid result has the
    seven fields of the valid shape and neither list of the invalid one, a
    result that is not valid has the two lists, of four entries each, and
    nothing else; the three property fields are set exactly on a Property
    Document. *)
Theorem one_shape_of_details (d : Document.t) :
  exists res c,
    analysisResultsOf d = Returns res /\
    Results.complianceDetails res = Some c /\
    (Results.isValid res = true ->
     ComplianceDetails.validityPeriod c <> None /\
     ComplianceDetails.registrationRequired c = Some true /\
     ComplianceDetails.stampDutyPaid c = Some true /\
     ComplianceDetails.properWitnessAttestation c = Some true /\
     ComplianceDetails.notarizationStatus c = Some "Complete" /\
     ComplianceDetails.governmentDepartmentApproval c = Some "Verified" /\
     option_map (@List.length string) (ComplianceDetails.standardsCompliance c)
     = Some 3%nat /\
     ComplianceDetails.missingElements c = None /\
     ComplianceDetails.nonComplianceRisks c = None) /\
    (Results.isValid res = false ->
     c = invalidDetails /\
     option_map (@List.length string) (ComplianceDetails.missingElements c)
     = Some 4%nat /\
     option_map (@List.length string) (ComplianceDetails.nonComplianceRisks c)
     = Some 4%nat /\
     ComplianceDetails.validityPeriod c = None /\
     ComplianceDetails.standardsCompliance c = None /\
     Results.documentType res = "Unknown") /\
    (ComplianceDetails.reraCompliance c <> None <->
     Results.documentType res = "Property Document") /\
    (ComplianceDetails.reraCompliance c = None <->
     ComplianceDetails.boundaryVerification c = None) /\
    (ComplianceDetails.reraCompliance c = None <->
     ComplianceDetails.encumbranceStatus c = None).
Proof.
  set (sim := simulateLegalAnalysis (extractTextFromDocument d)
                (Document.documentType d)).
  destruct (assemble_returns sim) as (res & E & V & _ & _ & T & _ & C).
  assert (U : Results.isValid sim = false -> Results.documentType sim = "Unknown").
  { unfold sim at 1. rewrite isValid_eq.
    change (resolveType _ _) with (Results.documentType sim).
    destruct (String.eqb_spec (Results.documentType sim) "Unknown");
      [trivial | discriminate]. }
  eexists; eexists. split; [exact E|]. split; [exact C|].
  rewrite V, T.
  destruct (Results.isValid sim) eqn:Vs.
  - destruct (String.eqb_spec (Results.documentType sim) "Property Document")
      as [P|P]; simpl.
    + repeat split; try discriminate; auto.
    + repeat split; try discriminate; auto;
        intros H; try contradiction; now elim H.
  - rewrite (U eq_refl). simpl.
    repeat split; try discriminate; auto; intros H; now elim H.
Qed.

Lemma one_shape_of_details_witness :
  exists res,
    analysisResultsOf leaseDocument = Returns res /\
    Results.complianceDetails res = Some invalidDetails.
Proof.
  destruct (one_shape_of_details leaseDocument)
    as (res & c & E & C & _ & I & _).
  exists res. split; [exact E|].
  assert (V : Results.isValid res = false).
  { vm_compute in E. injection E as <-. reflexivity. }
  destruct (I V) as [-> _]. exact C.
Defined.

(** ** The deed-of-sale pattern *)











(** ** Histories of the application *)

(** X14. In a store filled by the application the analyses come in pairs:
    a placeholder, then the result record of the same document with the
    next id and the status [compliant] or [non-compliant]; so the number of
    analyses is even and no error record is stored. *)
Theorem analyses_come_in_pairs (ops : list op) :
  forallb app_op ops = true ->
  let s := run ops MemStorage.new in
  paired (JsMap.values (MemStorage.analyses s)) /\
  Nat.Even (List.length (MemStorage.analyses s)) /\
  (forall a, In a (JsMap.values (MemStorage.analyses s)) ->
             ~ is_error_report a).
Proof.
  intros A s.
  assert (P : paired (JsMap.values (MemStorage.analyses s))).
  { subst s. induction ops as [|o ops IH] using rev_ind; [constructor|].
    rewrite forallb_app in A. apply andb_prop in A as [A Ao].
    cbn [forallb] in Ao. rewrite Bool.andb_true_r in Ao.
    specialize (IH A). unfold run in *. rewrite fold_left_app.
    cbn [fold_left]. fold (run ops MemStorage.new) in *.
    set (s := run ops MemStorage.new) in *.
    assert (W : wf s) by (apply reachable_wf; now exists ops).
    destruct o as [i|id st|id c|i|d]; cbn [exec]; try discriminate Ao.
    - exact IH.
    - now rewrite (proj1 (updateDocumentStatus_analyses id st s)).
    - now rewrite (proj1 (updateDocumentContent_analyses id c s)).
    - destruct (analyzeDocument_mem d s) as (res & E & ->). cbn [snd].
      destruct (analysisResultsOf_returns d) as (res' & E' & C).
      rewrite E in E'. injection E' as <-.
      destruct (afterAnalysis_analyses d res s W) as [-> _].
      unfold JsMap.values. rewrite map_app. cbn [map snd].
      apply paired_snoc; try reflexivity; [exact IH | apply placeholder_initial
                                          | exact C]. }
  split; [exact P|].
  unfold JsMap.values in *. rewrite <- (length_map snd).
  induction P as [|l p f P [E IH] Pp D I C].
  - split; [exists 0%nat; reflexivity | intros a []].
  - split.
    + destruct E as [k E]. exists (S k). rewrite length_app, E. simpl. lia.
    + intros a H. apply in_app_or in H as [H|[<-|[<-|[]]]].
      * now apply IH.
      * intros (V & _). destruct Pp as (Vp & _). congruence.
      * intros (_ & S & _). destruct C as [C|C]; congruence.
Qed.

Lemma analyses_come_in_pairs_witness :
  Nat.Even
    (List.length
       (MemStorage.analyses
          (run [CreateDocument (upload "lease.pdf" None);
                AnalyzeDocument leaseDocument] MemStorage.new))).
Proof.
  exact (proj1 (proj2 (analyses_come_in_pairs
                         [CreateDocument (upload "lease.pdf" None);
                          AnalyzeDocument leaseDocument] eq_refl))).
Defined.

(** ** Failures of the store *)

Lemma call_step {A : Type} (f : MemStorage.t -> A * MemStorage.t)
  (m : MemStorage.t) (fs : list bool) :
  Flaky.call f {| Flaky.store := m; Flaky.faults := fs |}
  = if hd false fs
    then (Throws Flaky.failure, {| Flaky.store := m; Flaky.faults := tl fs |})
    else (Returns (fst (f m)),
          {| Flaky.store := snd (f m); Flaky.faults := tl fs |}).
Proof.
  unfold Flaky.call; simpl. destruct fs as [|[] fs]; simpl;
    try reflexivity; now destruct (f m).
Qed.

(** X15. On the failing store, a run of [analyzeDocument] ends in an
    exception exactly when the first call throws, or a call of the [try]
    block throws and a call of the handler throws after it; otherwise it
    returns a report, which is the error report exactly when a call of the
    [try] block threw. *)
Theorem failure_reaches_caller (d : Document.t) (m : MemStorage.t)
  (faults : list bool) :
  let run := analyzeDocument d {| Flaky.store := m; Flaky.faults := faults |} in
  (fst run = Throws Flaky.failure <-> propagates faults = true) /\
  (propagates faults = false ->
   exists report,
     fst run = Returns report /\
     Analysis.documentId report = Document.id d /\
     (is_error_report report <-> try_fails faults = true)).
Proof.
  cbv zeta.
  destruct (analysisResultsOf_returns d) as (res & E & C).
  unfold analyzeDocument, bind, try_catch, lift.
  cbn [createAnalysis updateDocumentStatus Flaky_IStorage].
  rewrite E.
  assert (N : ~ is_error_report
                (fst (MemStorage.createAnalysis (updatedAnalysis d res)
                        (snd (MemStorage.updateDocumentStatus (Document.id d)
                                (if Results.isValid res then "valid"
                                 else "invalid")
                                (snd (MemStorage.createAnalysis
                                        (initialAnalysis d) m))))))).
  { intros (_ & S & _).
    cbn [MemStorage.createAnalysis fst MemStorage.stored
           Analysis.complianceStatus updatedAnalysis
           InsertAnalysis.complianceStatus] in S.
    destruct C as [C|C]; rewrite C in S; discriminate S. }
  unfold propagates, try_fails.
  destruct faults as [|b1 [|b2 [|b3 [|b4 [|b5 rest]]]]];
    repeat match goal with b : bool |- _ => destruct b end;
    repeat (rewrite call_step; cbn [hd tl fst snd nth]);
    cbn [fst snd nth orb andb negb];
    (split; [split; intros H; try reflexivity; try discriminate H|]);
    intros H; try discriminate H;
    eexists; (split; [reflexivity|]); (split; [reflexivity|]);
    (split; [intros R; try reflexivity; now elim (N R)
            | intros T; try discriminate T; repeat split]).
Qed.

Lemma failure_reaches_caller_witness :
  exists report,
    fst (analyzeDocument leaseDocument
           {| Flaky.store := oneDocumentStore;
              Flaky.faults := [false; true] |}) = Returns report /\
    Analysis.documentId report = 1.
Proof.
  destruct (proj2 (failure_reaches_caller leaseDocument oneDocumentStore
                     [false; true]) eq_refl) as (report & E & D & _).
  exists report. split; assumption.
Defined.

(** ** The routes *)

Section AnyStore.

Context {S : Type} `{IStorage S}.
Variable parse : InsertDocument.t -> InsertDocument.t + string.
Variable messageOf : string -> outcome string.



End AnyStore.

(** An upload on a storage that fails under [analyzeDocument]: the handler
    answers 500 with the message of the error; when the thrown value has no
    message to read, the exception of the [catch] block gets out. *)
Example upload_on_failing_store :
  fst (uploadHandler inl Returns
         {| Request.isAuthenticated := true;
            Request.user :=
              Some {| User.id := 1; User.username := "asha";
                      User.password := "x"; User.name := None;
                      User.email := None |};
            Request.file :=
              Some {| UploadedFile.originalname := "lease.pdf";
                      UploadedFile.mimetype := "application/pdf";
                      UploadedFile.buffer := "%PDF";
                      UploadedFile.size := 4 |};
            Request.params_id := "" |}
         {| Flaky.store := MemStorage.new;
            Flaky.faults := [false; false; true] |})
  = Returns (respond 500 (Message "storage failure")) /\
  fst (uploadHandler inl (fun _ => Throws typeError)
         {| Request.isAuthenticated := true;
            Request.user :=
              Some {| User.id := 1; User.username := "asha";
                      User.password := "x"; User.name := None;
                      User.email := None |};
            Request.file :=
              Some {| UploadedFile.originalname := "lease.pdf";
                      UploadedFile.mimetype := "application/pdf";
                      UploadedFile.buffer := "%PDF";
                      UploadedFile.size := 4 |};
            Request.params_id := "" |}
         {| Flaky.store := MemStorage.new;
            Flaky.faults := [false; false; true] |})
  = Throws typeError.
Proof. split; vm_compute; reflexivity. Qed.

Lemma updateDocumentContent_get (id : Z) (c : string) (s : MemStorage.t) :
  forall doc, MemStorage.getDocument id s = Some doc ->
    exists doc',
      MemStorage.getDocument id (snd (MemStorage.updateDocumentContent id c s))
      = Some doc' /\
      Document.content doc' = c /\
      Document.id doc' = Document.id doc /\
      Document.userId doc' = Document.userId doc /\
      Document.status doc' = Document.status doc.
Proof.
  intros doc G. unfold MemStorage.updateDocumentContent. rewrite G.
  eexists. split.
  - unfold MemStorage.getDocument; simpl. apply get_set_same.
  - repeat split.
Qed.

(** X17. An upload that passes the validation answers 201 on the in-memory
    store and makes three calls: it creates the document, stores the file
    content in base 64 and analyzes the document.  The document of the
    answer is the one [createDocument] returned, with the status [pending]
    and an empty content; the stored document has the content and the status
    of the analysis, which is never [pending]; two analyses were added. *)
Theorem upload_stores_document
  (parse : InsertDocument.t -> InsertDocument.t + string)
  (messageOf : string -> outcome string) (ops : list op)
  (req : Request.t) (file : UploadedFile.t) (user : User.t)
  (data : InsertDocument.t) :
  Request.isAuthenticated req = true ->
  Request.file req = Some file ->
  Request.user req = Some user ->
  parse (documentDataOf file (User.id user)) = inl data ->
  let s := run ops MemStorage.new in
  exists document analysis stored,
    uploadHandler parse messageOf req s
    = (Returns (respond 201 (Uploaded document analysis)),
       run (uploadOps data file s) s) /\
    document = fst (MemStorage.createDocument data s) /\
    Document.status document = "pending" /\
    Document.content document = "" /\
    Analysis.documentId analysis = Document.id document /\
    MemStorage.getDocument (Document.id document)
      (run (uploadOps data file s) s) = Some stored /\
    Document.content stored = Base64.encode (UploadedFile.buffer file) /\
    Document.status stored = statusOf analysis /\
    Document.status stored <> "pending" /\
    Document.userId stored = InsertDocument.userId data /\
    List.length (MemStorage.analyses (run (uploadOps data file s) s))
    = (List.length (MemStorage.analyses s) + 2)%nat.
Proof.
  intros A F U P s.
  set (document := fst (MemStorage.createDocument data s)).
  set (s1 := snd (MemStorage.createDocument data s)).
  set (content := Base64.encode (UploadedFile.buffer file)).
  set (s2 := snd (MemStorage.updateDocumentContent (Document.id document)
                    content s1)).
  destruct (analyzeDocument_mem document s2) as (res & E & R).
  set (analysis := MemStorage.stored (MemStorage.currentAnalysisId s2 + 1)
                     (updatedAnalysis document res)) in *.
  assert (Run : run (uploadOps data file s) s = afterAnalysis document res s2).
  { unfold uploadOps, run. cbn [fold_left exec]. fold document s1 content s2.
    now rewrite R. }
  assert (G1 : MemStorage.getDocument (Document.id document) s1 = Some document)
    by (unfold MemStorage.getDocument; apply get_set_same).
  destruct (updateDocumentContent_get (Document.id document) content s1
              document G1) as (d2 & G2 & C2 & I2 & U2 & _). fold s2 in G2.
  set (st := if Results.isValid res then "valid" else "invalid").
  destruct (updateDocumentStatus_get (Document.id document) st
              (snd (MemStorage.createAnalysis (initialAnalysis document) s2)))
    as (Hsome & _).
  destruct (Hsome d2 G2) as (stored & G3 & S3 & B3).
  exists document, analysis, stored.
  split.
  { rewrite Run. unfold uploadHandler. rewrite A, F. cbn [negb].
    unfold try_catch, bind, lift, ret, userOf. rewrite U, P.
    cbn [createDocument updateDocumentContent MemStorage_IStorage].
    rewrite !pure_call_eq. fold document s1 content s2. rewrite R.
    reflexivity. }
  split; [reflexivity|]. split; [reflexivity|]. split; [reflexivity|].
  split; [reflexivity|].
  rewrite Run.
  split; [exact G3|].
  destruct B3 as (_ & Bu & _ & _ & _ & _ & Bc).
  split; [now rewrite Bc|].
  assert (St : Document.status stored = statusOf analysis).
  { rewrite S3. unfold statusOf, st, analysis. cbn.
    destruct (Results.isValid res); reflexivity. }
  split; [exact St|].
  split.
  { rewrite S3. unfold st. destruct (Results.isValid res); discriminate. }
  split; [now rewrite Bu, U2|].
  assert (W2 : wf s2).
  { apply (wf_same_analyses s1);
      [apply updateDocumentContent_analyses
      | apply updateDocumentContent_analyses |].
    apply (wf_same_analyses s); [reflexivity | reflexivity |].
    apply reachable_wf. now exists ops. }
  destruct (afterAnalysis_analyses document res s2 W2) as [-> _].
  rewrite length_app.
  assert (A2 : MemStorage.analyses s2 = MemStorage.analyses s)
    by apply (proj1 (updateDocumentContent_analyses (Document.id document)
                       content s1)).
  rewrite A2. reflexivity.
Qed.

Lemma upload_stores_document_witness :
  let asha :=
    {| User.id := 1; User.username := "asha"; User.password := "x";
       User.name := None; User.email := None |} in
  let file :=
    {| UploadedFile.originalname := "rent agreement.pdf";
       UploadedFile.mimetype := "application/pdf";
       UploadedFile.buffer := "%PDF";
       UploadedFile.size := 4 |} in
  let req :=
    {| Request.isAuthenticated := true; Request.user := Some asha;
       Request.file := Some file; Request.params_id := "" |} in
  exists document analysis,
    fst (uploadHandler inl Returns req MemStorage.new)
    = Returns (respond 201 (Uploaded document analysis)) /\
    Document.status document = "pending".
Proof.
  cbv zeta.
  destruct (upload_stores_document inl Returns []
              {| Request.isAuthenticated := true;
                 Request.user :=
                   Some {| User.id := 1; User.username := "asha";
                           User.password := "x"; User.name := None;
                           User.email := None |};
                 Request.file :=
                   Some {| UploadedFile.originalname := "rent agreement.pdf";
                           UploadedFile.mimetype := "application/pdf";
                           UploadedFile.buffer := "%PDF";
                           UploadedFile.size := 4 |};
                 Request.params_id := "" |}
              _ _ _ eq_refl eq_refl eq_refl eq_refl)
    as (document & analysis & stored & E & _ & S & _).
  exists document, analysis. split; [|exact S].
  cbn [run fold_left] in E. rewrite E. reflexivity.
Defined.

Lemma inferDocumentType_range (originalname : string) :
  In (inferDocumentType originalname)
    ["Agreement"; "Deed"; "Invoice"; "Unknown"].
Proof.
  unfold inferDocumentType; cbv zeta.
  destruct (_ || _)%bool; [simpl; tauto|].
  destruct (Str.includes _ "deed"); [simpl; tauto|].
  destruct (Str.includes _ "invoice"); simpl; tauto.
Qed.

(** X18. Along the upload route the declared type is read off the file
    name, so every uploaded document gets one of the seven labels, and never
    [Deed]: a file name that makes the declared type [Deed] gives a Sale
    Deed or a Property Document.  Such a result is valid exactly when it has
    no issue. *)
Theorem label_of_an_upload (d : Document.t) :
  Document.documentType d = Some (inferDocumentType (Document.fileName d)) ->
  exists res,
    analysisResultsOf d = Returns res /\
    In (Results.documentType res) documentTypes /\
    Results.documentType res <> "Deed" /\
    (Results.isValid res = true <-> Results.issues res = []) /\
    (inferDocumentType (Document.fileName d) = "Deed" ->
     Results.documentType res = "Sale Deed" \/
     Results.documentType res = "Property Document").
Proof.
  intros T.
  pose proof (inferDocumentType_range (Document.fileName d)) as R.
  destruct (assemble_returns
              (simulateLegalAnalysis (extractTextFromDocument d)
                 (Document.documentType d))) as (res & E & V & _ & I & TY & _).
  exists res. split; [exact E|]. rewrite TY, V, I. clear E V I TY res.
  change (Results.isValid
            (simulateLegalAnalysis (extractTextFromDocument d)
               (Document.documentType d)))
    with (negb (String.eqb
                  (resolveType (extractTextFromDocument d)
                     (Document.documentType d)) "Unknown")).
  change (Results.issues
            (simulateLegalAnalysis (extractTextFromDocument d)
               (Document.documentType d)))
    with (fst (fst (contentOf
                      (branchOf (resolveType (extractTextFromDocument d)
                                   (Document.documentType d)))))).
  change (Results.documentType
            (simulateLegalAnalysis (extractTextFromDocument d)
               (Document.documentType d)))
    with (resolveType (extractTextFromDocument d) (Document.documentType d)).
  pose proof (resolveType_cases (extractTextFromDocument d)
                (Document.documentType d)) as L.
  cbv zeta in L. rewrite T in *.
  revert L.
  generalize (resolveType (extractTextFromDocument d)
                (Some (inferDocumentType (Document.fileName d)))).
  generalize (Str.toLowerCase (extractTextFromDocument d)).
  revert R. generalize (inferDocumentType (Document.fileName d)).
  clear T d. intros t R textLower l L.
  assert (Init : initialType (Some t) = t).
  { simpl in R. destruct R as [<-|[<-|[<-|[<-|[]]]]]; reflexivity. }
  rewrite Init in L.
  assert (Deed : t = "Deed" ->
                 sale_rule textLower (Str.toLowerCase t) = true).
  { intros ->. unfold sale_rule.
    change (Str.includes (Str.toLowerCase "Deed") "deed") with true.
    apply Bool.orb_true_r. }
  assert (Cases : l = "Property Document" \/ l = "Sale Deed" \/
                  l = "Bond Paper" \/ (l = t /\ t <> "Deed")).
  { destruct (property_rule _ _); [tauto|].
    destruct (sale_rule _ _) eqn:S; [tauto|].
    destruct (bond_rule _ _); [tauto|].
    right; right; right. split; [exact L|].
    intros D. discriminate (Deed D). }
  assert (Seven : In l documentTypes).
  { simpl in R. simpl.
    destruct Cases as [->|[->|[->|[-> _]]]]; tauto. }
  split; [exact Seven|].
  split.
  { destruct Cases as [->|[->|[->|[-> N]]]]; try discriminate. exact N. }
  split.
  - destruct (branchOf_known l) as (K & Iss & _).
    rewrite Iss.
    destruct (String.eqb_spec l "Unknown") as [U|U]; simpl.
    + split; [discriminate|]. intros B. exfalso. apply B. now rewrite U.
    + split; [|reflexivity]. intros _ B. apply K in B. apply B.
      unfold knownLabels. simpl in *.
      destruct Seven as [S|[S|[S|[S|[S|[S|[S|[]]]]]]]]; try tauto.
      now elim U.
  - intros D. rewrite (Deed D) in L.
    destruct (property_rule _ _); tauto.
Qed.

Lemma label_of_an_upload_witness :
  exists res,
    analysisResultsOf
      (fst (MemStorage.createDocument
              (upload "title deed.pdf"
                 (Some (inferDocumentType "title deed.pdf")))
              MemStorage.new)) = Returns res /\
    Results.documentType res <> "Deed".
Proof.
  destruct (label_of_an_upload
              (fst (MemStorage.createDocument
                      (upload "title deed.pdf"
                         (Some (inferDocumentType "title deed.pdf")))
                      MemStorage.new)) eq_refl)
    as (res & E & _ & N & _).
  exists res. split; assumption.
Defined.


(** No call of the store takes a document away or changes its id or its
    owner. *)
Lemma exec_keeps_owner (o : op) (s : MemStorage.t) (k : Z) (d : Document.t) :
  ids_ok s -> MemStorage.getDocument k s = Some d ->
  exists d',
    MemStorage.getDocument k (exec o s) = Some d' /\
    Document.userId d' = Document.userId d /\
    Document.id d' = Document.id d.
Proof.
  intros I G.
  assert (Status : forall id st s0 d0,
             MemStorage.getDocument k s0 = Some d0 ->
             exists d',
               MemStorage.getDocument k
                 (snd (MemStorage.updateDocumentStatus id st s0)) = Some d' /\
               Document.userId d' = Document.userId d0 /\
               Document.id d' = Document.id d0).
  { intros id st s0 d0 G0.
    destruct (updateDocumentStatus_get id st s0) as (Hs & _ & Ho & _).
    destruct (Z.eq_dec k id) as [->|N].
    - destruct (Hs d0 G0) as (d' & G' & _ & B). exists d'.
      destruct B as (Bi & Bu & _). auto.
    - exists d0. rewrite (Ho k N). auto. }
  destruct o as [i|id st|id c|i|d0]; cbn [exec].
  - exists d. split; [|auto].
    unfold MemStorage.getDocument in *. simpl. rewrite get_set.
    destruct (Z.eqb_spec k (MemStorage.currentDocumentId s)) as [->|N];
      [|exact G].
    destruct I as (D & _). rewrite (get_fresh _ _ D) in G. discriminate G.
  - now apply Status.
  - unfold MemStorage.updateDocumentContent.
    destruct (MemStorage.getDocument id s) as [x|] eqn:Gx; cbn [snd];
      [|eauto].
    unfold MemStorage.getDocument in *. simpl. rewrite get_set.
    destruct (Z.eqb_spec k id) as [->|N]; [|eauto].
    rewrite Gx in G. injection G as <-. eexists. split; [reflexivity|].
    split; reflexivity.
  - exists d. auto.
  - destruct (analyzeDocument_mem d0 s) as (res & _ & ->). cbn [snd].
    unfold afterAnalysis.
    destruct (Status (Document.id d0)
                (if Results.isValid res then "valid" else "invalid")
                (snd (MemStorage.createAnalysis (initialAnalysis d0) s)) d G)
      as (d' & G' & P).
    exists d'. split; [exact G' | exact P].
Qed.

Lemma run_keeps_owner (ops : list op) (s : MemStorage.t) (k : Z)
  (d : Document.t) :
  ids_ok s -> MemStorage.getDocument k s = Some d ->
  exists d',
    MemStorage.getDocument k (run ops s) = Some d' /\
    Document.userId d' = Document.userId d /\
    Document.id d' = Document.id d.
Proof.
  revert s d. induction ops as [|o ops IH]; intros s d I G;
    cbn [run fold_left]; [eauto|].
  destruct (exec_keeps_owner o s k d I G) as (d1 & G1 & U1 & I1).
  destruct (IH (exec o s) d1 (exec_ids o s I) G1) as (d2 & G2 & U2 & I2).
  exists d2. split; [exact G2|]. split; congruence.
Qed.

(** After a run on a store whose first records are placeholders, the lookup
    by the id of the document finds a placeholder that is older than the
    result, whatever is stored afterwards. *)
Lemma lookup_after_analysis (d : Document.t) (res : Results.t)
  (s : MemStorage.t) (later : list op) :
  wf s -> placeholder_first s ->
  exists a,
    MemStorage.getAnalysisByDocumentId (Document.id d)
      (run later (afterAnalysis d res s)) = Some a /\
    is_placeholder a /\
    Analysis.id a <= MemStorage.currentAnalysisId s.
Proof.
  intros W P.
  destruct (afterAnalysis_analyses d res s W) as [A1 W1].
  destruct (run_extends later _ W1) as [_ [extra A2]].
  rewrite (lookup_app (Document.id d) _ _ _ A2).
  rewrite (lookup_app (Document.id d) s _ _ A1).
  destruct (MemStorage.getAnalysisByDocumentId (Document.id d) s) as [b|] eqn:L.
  - exists b. split; [reflexivity|]. split; [now apply (P (Document.id d))|].
    destruct (lookup_stored _ _ _ W L) as (_ & _ & B). lia.
  - cbn [JsMap.values map snd List.find MemStorage.stored
           Analysis.documentId initialAnalysis InsertAnalysis.documentId].
    rewrite Z.eqb_refl. eexists. split; [reflexivity|].
    split; [apply placeholder_initial|].
    cbn [Analysis.id MemStorage.stored]. lia.
Qed.

Lemma run_app (a b : list op) (s : MemStorage.t) :
  run (a ++ b) s = run b (run a s).
Proof. unfold run. apply fold_left_app. Qed.

(** X20. What the owner gets back for an uploaded document: after an upload
    that answered 201, and whatever the server did since, a request of the
    owner for the id of the document is answered 200 with the stored
    document and the placeholder analysis of status [processing]; the
    analysis that the upload answered with is never the one returned. *)
Theorem fetch_after_upload
  (parse : InsertDocument.t -> InsertDocument.t + string)
  (messageOf : string -> outcome string) (parseInt : string -> option Z)
  (ops later : list op) (req fetch : Request.t) (file : UploadedFile.t)
  (user : User.t) (data : InsertDocument.t) :
  forallb app_op ops = true ->
  Request.isAuthenticated req = true ->
  Request.file req = Some file ->
  Request.user req = Some user ->
  parse (documentDataOf file (User.id user)) = inl data ->
  InsertDocument.userId data = User.id user ->
  Request.isAuthenticated fetch = true ->
  Request.user fetch = Some user ->
  parseInt (Request.params_id fetch)
  = Some (MemStorage.currentDocumentId (run ops MemStorage.new)) ->
  exists document analysis s' stored a,
    uploadHandler parse messageOf req (run ops MemStorage.new)
    = (Returns (respond 201 (Uploaded document analysis)), s') /\
    Document.id document = MemStorage.currentDocumentId (run ops MemStorage.new) /\
    getDocumentHandler parseInt fetch (run later s')
    = respond 200 (Fetched stored (Some a)) /\
    Document.id stored = Document.id document /\
    is_placeholder a /\
    Analysis.complianceStatus a = "processing" /\
    a <> analysis /\
    Analysis.id a < Analysis.id analysis.
Proof.
  intros App A F U P Owner A' U' Id.
  set (s := run ops MemStorage.new) in *.
  destruct (app_reachable_invariants s) as [W PF];
    [exists ops; now split|].
  set (document := fst (MemStorage.createDocument data s)).
  set (s1 := snd (MemStorage.createDocument data s)).
  set (content := Base64.encode (UploadedFile.buffer file)).
  set (s2 := snd (MemStorage.updateDocumentContent (Document.id document)
                    content s1)).
  assert (A2 : MemStorage.analyses s2 = MemStorage.analyses s)
    by apply (proj1 (updateDocumentContent_analyses (Document.id document)
                       content s1)).
  assert (C2 : MemStorage.currentAnalysisId s2 = MemStorage.currentAnalysisId s)
    by apply (proj2 (updateDocumentContent_analyses (Document.id document)
                       content s1)).
  assert (W2 : wf s2) by (now apply (wf_same_analyses s)).
  assert (PF2 : placeholder_first s2).
  { intros k a. rewrite (lookup_same k s s2 A2). apply PF. }
  destruct (analyzeDocument_mem document s2) as (res & E & R).
  set (analysis := MemStorage.stored (MemStorage.currentAnalysisId s2 + 1)
                     (updatedAnalysis document res)) in *.
  set (s' := afterAnalysis document res s2) in *.
  assert (Run : s' = run (ops ++ uploadOps data file s) MemStorage.new).
  { rewrite run_app. fold s. unfold uploadOps, run. cbn [fold_left exec].
    fold document s1 content s2. now rewrite R. }
  assert (I' : ids_ok s') by (rewrite Run; apply run_ids, ids_ok_new).
  (* the stored document *)
  assert (G1 : MemStorage.getDocument (Document.id document) s1 = Some document)
    by (unfold MemStorage.getDocument; apply get_set_same).
  destruct (updateDocumentContent_get (Document.id document) content s1
              document G1) as (d2 & G2 & _ & I2 & O2 & _). fold s2 in G2.
  destruct (updateDocumentStatus_get (Document.id document)
              (if Results.isValid res then "valid" else "invalid")
              (snd (MemStorage.createAnalysis (initialAnalysis document) s2)))
    as (Hsome & _).
  destruct (Hsome d2 G2) as (d3 & G3 & _ & B3).
  change (MemStorage.getDocument (Document.id document) s' = Some d3) in G3.
  destruct (run_keeps_owner later s' _ d3 I' G3) as (stored & G4 & O4 & I4).
  destruct (lookup_after_analysis document res s2 later W2 PF2)
    as (a & La & Pa & Ia). fold s' in La.
  assert (Id3 : Document.id d3 = Document.id document)
    by (destruct B3 as (Bi & _); congruence).
  assert (Ow3 : Document.userId d3 = User.id user).
  { destruct B3 as (_ & Bu & _). rewrite Bu, O2. exact Owner. }
  exists document, analysis, s', stored, a.
  split.
  { unfold uploadHandler. rewrite A, F. cbn [negb].
    unfold try_catch, bind, lift, ret, userOf. rewrite U, P.
    cbn [createDocument updateDocumentContent MemStorage_IStorage].
    rewrite !pure_call_eq. fold document s1 content s2. rewrite R.
    reflexivity. }
  split; [reflexivity|].
  split.
  { unfold getDocumentHandler, userOf. rewrite A', U', Id. cbn [negb].
    change (MemStorage.currentDocumentId s) with (Document.id document).
    rewrite G4. rewrite O4, Ow3, Z.eqb_refl. cbn [negb].
    rewrite I4, Id3, La. reflexivity. }
  split; [congruence|].
  split; [exact Pa|]. split; [apply Pa|].
  assert (If : Analysis.id analysis = MemStorage.currentAnalysisId s2 + 1)
    by reflexivity.
  split; [intros Eq; rewrite Eq, If in Ia; lia | rewrite If; lia].
Qed.

Lemma fetch_after_upload_witness :
  let asha :=
    {| User.id := 1; User.username := "asha"; User.password := "x";
       User.name := None; User.email := None |} in
  let file :=
    {| UploadedFile.originalname := "rent agreement.pdf";
       UploadedFile.mimetype := "application/pdf";
       UploadedFile.buffer := "%PDF";
       UploadedFile.size := 4 |} in
  let req :=
    {| Request.isAuthenticated := true; Request.user := Some asha;
       Request.file := Some file; Request.params_id := "" |} in
  let fetch :=
    {| Request.isAuthenticated := true; Request.user := Some asha;
       Request.file := None; Request.params_id := "1" |} in
  exists stored a,
    getDocumentHandler ParseInt.parseInt fetch
      (snd (uploadHandler inl Returns req MemStorage.new))
    = respond 200 (Fetched stored (Some a)) /\
    Analysis.complianceStatus a = "processing".
Proof.
  cbv zeta.
  destruct (fetch_after_upload inl Returns ParseInt.parseInt [] []
              {| Request.isAuthenticated := true;
                 Request.user :=
                   Some {| User.id := 1; User.username := "asha";
                           User.password := "x"; User.name := None;
                           User.email := None |};
                 Request.file :=
                   Some {| UploadedFile.originalname := "rent agreement.pdf";
                           UploadedFile.mimetype := "application/pdf";
                           UploadedFile.buffer := "%PDF";
                           UploadedFile.size := 4 |};
                 Request.params_id := "" |}
              {| Request.isAuthenticated := true;
                 Request.user :=
                   Some {| User.id := 1; User.username := "asha";
                           User.password := "x"; User.name := None;
                           User.email := None |};
                 Request.file := None; Request.params_id := "1" |}
              _ _ _ eq_refl eq_refl eq_refl eq_refl eq_refl eq_refl eq_refl
              eq_refl eq_refl)
    as (document & analysis & s' & stored & a & E & _ & G & _ & _ & C & _).
  exists stored, a. split; [|exact C].
  cbn [run fold_left] in E, G. rewrite E. exact G.
Defined.

(** The upload filter lets the four file types of the list through and no
    other; the id of the path is read as [parseInt] reads it. *)
Example filter_and_id :
  fileFilter "application/pdf" = Returns true /\
  fileFilter "image/png" = Returns true /\
  (exists e, fileFilter "text/plain" = Throws e) /\
  ParseInt.parseInt "12" = Some 12 /\
  ParseInt.parseInt " 12abc" = Some 12 /\
  ParseInt.parseInt "0x1f" = Some 31 /\
  ParseInt.parseInt "abc" = None /\
  Base64.encode "Man" = "TWFu" /\
  Base64.encode "Ma" = "TWE=" /\
  Base64.encode "M" = "TQ==".
Proof. repeat split; eexists; reflexivity. Qed.
